(** * vertex-test: the adaptive stepping controller of [AppComponent]

    A shallow embedding of [src/app/app.component.ts].  The component
    measures a baseline render cost over 60 frames, then adds 1000 vertices
    per frame to a test mesh until the rolling average of the frame time
    exceeds 16.67 ms.

    Conventions of the embedding:
    - a JavaScript [number] holding a time is an IEEE 754 binary64 value,
      Rocq's primitive [float]; [currentVertexCount], which only ever holds
      small integers, is a [Z];
    - the component's fields form the record [State]; every method is a
      function [State -> State]; the clock readings of [performance.now()]
      are inputs of the frame;
    - calls into the renderer, the change detector, the clipboard and the
      timers are recorded, in order, in the [trace] field;
    - [Number.prototype.toFixed] and [toLocaleString] belong to the host and
      are taken through the class [NumberFormat]; so are [Math.sin],
      [Math.cos] and [Math.acos], through the class [MathHost];
    - a [Float32Array] holds binary32 values: a store rounds the binary64
      number to the nearest of them. *)

From Stdlib Require Import List ZArith Floats Uint63 String Ascii Bool Lia.
From Stdlib Require Import QArith Qfield Reals Lra.
From Stdlib Require DecimalString.
From stdpp Require Import base list.
Import ListNotations.

Set Implicit Arguments.

(* ================================================================== *)
(** * JavaScript numbers and arrays *)

(** The arithmetic that the averaging expression uses.  The component runs
    it on binary64 values ([ieee754]); [exactQ] evaluates the same
    expression without rounding. *)
Record Arithmetic (num : Type) : Type := {
  a_zero : num;
  a_add : num -> num -> num;
  a_div : num -> num -> num;
  a_of_nat : nat -> num               (* an array length as a number *)
}.

(** An array length (below 2^32) converted to a binary64 number. *)
Definition number_of_nat (n : nat) : float :=
  PrimFloat.of_uint63 (Uint63.of_Z (Z.of_nat n)).

Definition ieee754 : Arithmetic float := {|
  a_zero := 0%float;
  a_add := PrimFloat.add;
  a_div := PrimFloat.div;
  a_of_nat := number_of_nat
|}.

Definition exactQ : Arithmetic Q := {|
  a_zero := 0%Q;
  a_add := Qplus;
  a_div := Qdiv;
  a_of_nat := fun n => inject_Z (Z.of_nat n)
|}.

(** [arr.reduce(f, init)]: with an initial value it never throws, not even
    on the empty array. *)
Definition reduce {A B : Type} (f : B -> A -> B) (init : B) (arr : list A) : B :=
  fold_left f arr init.

(** [xs.reduce((a, b) => a + b, 0) / xs.length] *)
Definition averageOver {num : Type} (A : Arithmetic num) (xs : list num) : num :=
  a_div A (reduce (a_add A) (a_zero A) xs) (a_of_nat A (List.length xs)).

Definition average : list float -> float := averageOver ieee754.

(** [a > b] on numbers. *)
Definition gt (a b : float) : bool := PrimFloat.ltb b a.

(** [arr.push(x)] and [arr.shift()]. *)
Definition push {A : Type} (x : A) (arr : list A) : list A := arr ++ [x].
Definition shift {A : Type} (arr : list A) : list A := List.tl arr.

(** [arr.pop()]: the array without its last element, and that element. *)
Definition pop {A : Type} (arr : list A) : list A * option A :=
  (List.removelast arr, List.last (List.map Some arr) None).

(** [arr.join(sep)] *)
Definition join (sep : string) (arr : list string) : string := String.concat sep arr.

Definition NL : string := String (ascii_of_nat 10) EmptyString.

(** How a JavaScript expression completes. *)
Inductive Completion (A : Type) : Type :=
| Normal (value : A)
| Throw (error : string).
Arguments Normal {A} value.
Arguments Throw {A} error.

(** The rolling-average expression of [measurePerformance] as an operation
    on a window: it completes normally for every window. *)
Definition windowMean (window : list float) : Completion float :=
  Normal (average window).

(** The host's number formatting. *)
Class NumberFormat : Type := {
  toLocaleString : Z -> string;
  toFixed : float -> nat -> string
}.

(* ================================================================== *)
(** * The scene and the outside world *)

Inductive ObjectKind : Type :=
| AmbientLight
| DirectionalLight
| BaselineCube                      (* the BoxGeometry mesh *)
| TestMesh (vertexCount : Z).       (* a mesh built by createTestMesh *)

(** A scene object.  [obj_uid] is the object's identity (every [new]
    yields a fresh one); [obj_x] is [position.x]. *)
Record Object3D : Type := {
  obj_uid : nat;
  obj_kind : ObjectKind;
  obj_x : Z
}.

Definition same_object (a b : Object3D) : bool := Nat.eqb (obj_uid a) (obj_uid b).

(** [scene.add(o)] for an object that has no parent yet. *)
Definition scene_add (o : Object3D) (children : list Object3D) : list Object3D :=
  children ++ [o].

(** [scene.remove(o)]: splices out the first child identical to [o]. *)
Fixpoint scene_remove (o : Object3D) (children : list Object3D) : list Object3D :=
  match children with
  | [] => []
  | c :: rest => if same_object c o then rest else c :: scene_remove o rest
  end.

(** Calls that leave the component. *)
Inductive Effect : Type :=
| Render (children : list Object3D)   (* renderer.render(scene, camera) *)
| DisposeGeometry (uid : nat)         (* mesh.geometry.dispose() *)
| DisposeMaterial (uid : nat)         (* mesh.material.dispose() *)
| DetectChanges                       (* changeDetector.detectChanges() *)
| RequestAnimationFrame
| ControlsUpdate                      (* controls.update() *)
| ClipboardWrite (text : string)      (* navigator.clipboard.writeText *)
| SetTimeout (ms : Z)
| ConsoleError.

(* ================================================================== *)
(** * The component *)

Record State : Type := {
  scene : list Object3D;              (* scene.children *)
  testMeshes : list Object3D;
  currentVertexCount : Z;
  baselineFrameTime : float;
  frameTimes : list float;
  isMeasuringBaseline : bool;
  isTestStopped : bool;
  baselineMeasurements : list float;
  logs : list string;
  statusText : string;
  (* the world around the component *)
  nextUid : nat;                      (* identity of the next [new] object *)
  trace : list Effect;                (* calls made so far, oldest first *)
  pendingCopies : nat;                (* clipboard writes not yet settled *)
  timers : list string                (* [originalText] of each armed timer *)
}.

Definition set_scene (v : list Object3D) (s : State) : State :=
  {| scene := v; testMeshes := testMeshes s;
     currentVertexCount := currentVertexCount s;
     baselineFrameTime := baselineFrameTime s; frameTimes := frameTimes s;
     isMeasuringBaseline := isMeasuringBaseline s;
     isTestStopped := isTestStopped s;
     baselineMeasurements := baselineMeasurements s; logs := logs s;
     statusText := statusText s; nextUid := nextUid s; trace := trace s;
     pendingCopies := pendingCopies s; timers := timers s |}.

Definition set_testMeshes (v : list Object3D) (s : State) : State :=
  {| scene := scene s; testMeshes := v;
     currentVertexCount := currentVertexCount s;
     baselineFrameTime := baselineFrameTime s; frameTimes := frameTimes s;
     isMeasuringBaseline := isMeasuringBaseline s;
     isTestStopped := isTestStopped s;
     baselineMeasurements := baselineMeasurements s; logs := logs s;
     statusText := statusText s; nextUid := nextUid s; trace := trace s;
     pendingCopies := pendingCopies s; timers := timers s |}.

Definition set_currentVertexCount (v : Z) (s : State) : State :=
  {| scene := scene s; testMeshes := testMeshes s;
     currentVertexCount := v;
     baselineFrameTime := baselineFrameTime s; frameTimes := frameTimes s;
     isMeasuringBaseline := isMeasuringBaseline s;
     isTestStopped := isTestStopped s;
     baselineMeasurements := baselineMeasurements s; logs := logs s;
     statusText := statusText s; nextUid := nextUid s; trace := trace s;
     pendingCopies := pendingCopies s; timers := timers s |}.

Definition set_baselineFrameTime (v : float) (s : State) : State :=
  {| scene := scene s; testMeshes := testMeshes s;
     currentVertexCount := currentVertexCount s;
     baselineFrameTime := v; frameTimes := frameTimes s;
     isMeasuringBaseline := isMeasuringBaseline s;
     isTestStopped := isTestStopped s;
     baselineMeasurements := baselineMeasurements s; logs := logs s;
     statusText := statusText s; nextUid := nextUid s; trace := trace s;
     pendingCopies := pendingCopies s; timers := timers s |}.

Definition set_frameTimes (v : list float) (s : State) : State :=
  {| scene := scene s; testMeshes := testMeshes s;
     currentVertexCount := currentVertexCount s;
     baselineFrameTime := baselineFrameTime s; frameTimes := v;
     isMeasuringBaseline := isMeasuringBaseline s;
     isTestStopped := isTestStopped s;
     baselineMeasurements := baselineMeasurements s; logs := logs s;
     statusText := statusText s; nextUid := nextUid s; trace := trace s;
     pendingCopies := pendingCopies s; timers := timers s |}.

Definition set_isMeasuringBaseline (v : bool) (s : State) : State :=
  {| scene := scene s; testMeshes := testMeshes s;
     currentVertexCount := currentVertexCount s;
     baselineFrameTime := baselineFrameTime s; frameTimes := frameTimes s;
     isMeasuringBaseline := v;
     isTestStopped := isTestStopped s;
     baselineMeasurements := baselineMeasurements s; logs := logs s;
     statusText := statusText s; nextUid := nextUid s; trace := trace s;
     pendingCopies := pendingCopies s; timers := timers s |}.

Definition set_isTestStopped (v : bool) (s : State) : State :=
  {| scene := scene s; testMeshes := testMeshes s;
     currentVertexCount := currentVertexCount s;
     baselineFrameTime := baselineFrameTime s; frameTimes := frameTimes s;
     isMeasuringBaseline := isMeasuringBaseline s;
     isTestStopped := v;
     baselineMeasurements := baselineMeasurements s; logs := logs s;
     statusText := statusText s; nextUid := nextUid s; trace := trace s;
     pendingCopies := pendingCopies s; timers := timers s |}.

Definition set_baselineMeasurements (v : list float) (s : State) : State :=
  {| scene := scene s; testMeshes := testMeshes s;
     currentVertexCount := currentVertexCount s;
     baselineFrameTime := baselineFrameTime s; frameTimes := frameTimes s;
     isMeasuringBaseline := isMeasuringBaseline s;
     isTestStopped := isTestStopped s;
     baselineMeasurements := v; logs := logs s;
     statusText := statusText s; nextUid := nextUid s; trace := trace s;
     pendingCopies := pendingCopies s; timers := timers s |}.

Definition set_logs (v : list string) (s : State) : State :=
  {| scene := scene s; testMeshes := testMeshes s;
     currentVertexCount := currentVertexCount s;
     baselineFrameTime := baselineFrameTime s; frameTimes := frameTimes s;
     isMeasuringBaseline := isMeasuringBaseline s;
     isTestStopped := isTestStopped s;
     baselineMeasurements := baselineMeasurements s; logs := v;
     statusText := statusText s; nextUid := nextUid s; trace := trace s;
     pendingCopies := pendingCopies s; timers := timers s |}.

Definition set_statusText (v : string) (s : State) : State :=
  {| scene := scene s; testMeshes := testMeshes s;
     currentVertexCount := currentVertexCount s;
     baselineFrameTime := baselineFrameTime s; frameTimes := frameTimes s;
     isMeasuringBaseline := isMeasuringBaseline s;
     isTestStopped := isTestStopped s;
     baselineMeasurements := baselineMeasurements s; logs := logs s;
     statusText := v; nextUid := nextUid s; trace := trace s;
     pendingCopies := pendingCopies s; timers := timers s |}.

Definition set_nextUid (v : nat) (s : State) : State :=
  {| scene := scene s; testMeshes := testMeshes s;
     currentVertexCount := currentVertexCount s;
     baselineFrameTime := baselineFrameTime s; frameTimes := frameTimes s;
     isMeasuringBaseline := isMeasuringBaseline s;
     isTestStopped := isTestStopped s;
     baselineMeasurements := baselineMeasurements s; logs := logs s;
     statusText := statusText s; nextUid := v; trace := trace s;
     pendingCopies := pendingCopies s; timers := timers s |}.

Definition set_trace (v : list Effect) (s : State) : State :=
  {| scene := scene s; testMeshes := testMeshes s;
     currentVertexCount := currentVertexCount s;
     baselineFrameTime := baselineFrameTime s; frameTimes := frameTimes s;
     isMeasuringBaseline := isMeasuringBaseline s;
     isTestStopped := isTestStopped s;
     baselineMeasurements := baselineMeasurements s; logs := logs s;
     statusText := statusText s; nextUid := nextUid s; trace := v;
     pendingCopies := pendingCopies s; timers := timers s |}.

Definition set_pendingCopies (v : nat) (s : State) : State :=
  {| scene := scene s; testMeshes := testMeshes s;
     currentVertexCount := currentVertexCount s;
     baselineFrameTime := baselineFrameTime s; frameTimes := frameTimes s;
     isMeasuringBaseline := isMeasuringBaseline s;
     isTestStopped := isTestStopped s;
     baselineMeasurements := baselineMeasurements s; logs := logs s;
     statusText := statusText s; nextUid := nextUid s; trace := trace s;
     pendingCopies := v; timers := timers s |}.

Definition set_timers (v : list string) (s : State) : State :=
  {| scene := scene s; testMeshes := testMeshes s;
     currentVertexCount := currentVertexCount s;
     baselineFrameTime := baselineFrameTime s; frameTimes := frameTimes s;
     isMeasuringBaseline := isMeasuringBaseline s;
     isTestStopped := isTestStopped s;
     baselineMeasurements := baselineMeasurements s; logs := logs s;
     statusText := statusText s; nextUid := nextUid s; trace := trace s;
     pendingCopies := pendingCopies s; timers := v |}.

(** Records one outgoing call. *)
Definition emit (e : Effect) (s : State) : State := set_trace (trace s ++ [e]) s.

(** [new] of a scene object: takes the next identity. *)
Definition new_object (kind : ObjectKind) (s : State) : Object3D * State :=
  ({| obj_uid := nextUid s; obj_kind := kind; obj_x := 0 |},
   set_nextUid (S (nextUid s)) s).

(** [private readonly maxFrameTime = 16.67]: the binary64 value nearest to
    the decimal literal. *)
Definition maxFrameTime : float := 0x1.0ab851eb851ecp+4%float.

(** The field initialisers of the class. *)
Definition fresh : State := {|
  scene := [];
  testMeshes := [];
  currentVertexCount := 0;
  baselineFrameTime := 0%float;
  frameTimes := [];
  isMeasuringBaseline := true;
  isTestStopped := false;
  baselineMeasurements := [];
  logs := [];
  statusText := "Initializing...";
  nextUid := 0;
  trace := [];
  pendingCopies := 0;
  timers := []
|}.

Section Component.
Context {fmt : NumberFormat}.

Local Open Scope string_scope.

(** [updateStatus(text)] *)
Definition updateStatus (text : string) (s : State) : State :=
  let s := set_logs (push text (logs s)) s in
  let s := set_statusText (join NL (logs s)) s in
  emit DetectChanges s.

(** [initThreeJS()]: the scene with its two lights (camera, renderer and
    controls hold no state that the controller reads). *)
Definition initThreeJS (s : State) : State :=
  let s := set_scene [] s in
  let '(ambientLight, s) := new_object AmbientLight s in
  let s := set_scene (scene_add ambientLight (scene s)) s in
  let '(directionalLight, s) := new_object DirectionalLight s in
  set_scene (scene_add directionalLight (scene s)) s.

(** [createTestEnvironment()] *)
Definition createTestEnvironment (s : State) : State :=
  let '(cube, s) := new_object BaselineCube s in
  let s := set_scene (scene_add cube (scene s)) s in
  set_testMeshes (push cube (testMeshes s)) s.

(** [createTestMesh(vertexCount)] as the controller sees it: a new mesh
    object of that size.  The contents of its buffers are the subject of
    [Geometry.createTestMesh]. *)
Definition createTestMesh (vertexCount : Z) (s : State) : Object3D * State :=
  new_object (TestMesh vertexCount) s.

(** [addTestMesh()] *)
Definition addTestMesh (s : State) : State :=
  let '(mesh, s) := createTestMesh (currentVertexCount s) s in
  let mesh := {| obj_uid := obj_uid mesh; obj_kind := obj_kind mesh; obj_x := 2 |} in
  let s := set_scene (scene_add mesh (scene s)) s in
  set_testMeshes (push mesh (testMeshes s)) s.

(** The body of the loop of [cleanupMeshes()], for a popped mesh. *)
Definition cleanupMesh (rest : list Object3D) (mesh : Object3D) (s : State) : State :=
  let s := set_testMeshes rest s in
  let s := set_scene (scene_remove mesh (scene s)) s in
  let s := emit (DisposeGeometry (obj_uid mesh)) s in
  emit (DisposeMaterial (obj_uid mesh)) s.

(** [while (this.testMeshes.length > 1) { ... }], at most [fuel] turns. *)
Fixpoint cleanupMeshes_loop (fuel : nat) (s : State) : State :=
  match fuel with
  | O => s
  | S fuel' =>
      if Nat.ltb 1 (List.length (testMeshes s)) then
        match pop (testMeshes s) with
        | (rest, Some mesh) => cleanupMeshes_loop fuel' (cleanupMesh rest mesh s)
        | (_, None) => s
        end
      else s
  end.

(** [cleanupMeshes()]: every turn of the loop shortens [testMeshes], so
    its length bounds the number of turns. *)
Definition cleanupMeshes (s : State) : State :=
  cleanupMeshes_loop (List.length (testMeshes s)) s.

Definition baselineReport (s : State) : string :=
  "=== Baseline Performance ===" ++ NL ++
  "Testing with " ++ toLocaleString (currentVertexCount s) ++ " vertices" ++ NL ++
  "Baseline: " ++ toFixed (baselineFrameTime s) 2 ++ "ms" ++ NL ++
  "=== Performance Testing ===".

Definition finalReport (avgFrameTime : float) (s : State) : string :=
  "=== Test Results ===" ++ NL ++
  "| Vertices: " ++ toLocaleString (currentVertexCount s) ++
  " | Baseline: " ++ toFixed (baselineFrameTime s) 2 ++
  "ms | Final: " ++ toFixed avgFrameTime 2 ++
  "ms | FPS: " ++ toFixed (1000 / avgFrameTime)%float 1.

Definition progressReport (avgFrameTime : float) (s : State) : string :=
  "Vertices: " ++ toLocaleString (currentVertexCount s) ++
  " | Baseline: " ++ toFixed (baselineFrameTime s) 2 ++
  "ms | Current: " ++ toFixed avgFrameTime 2 ++
  "ms | FPS: " ++ toFixed (1000 / avgFrameTime)%float 1.

(** [renderer.render(this.scene, this.camera)] *)
Definition render (s : State) : State := emit (Render (scene s)) s.

(** [measureBaselinePerformance()]; [startTime] and [endTime] are the two
    readings of [performance.now()]. *)
Definition measureBaselinePerformance (startTime endTime : float) (s : State) : State :=
  let s := render s in
  let s := set_baselineMeasurements
             (push (endTime - startTime)%float (baselineMeasurements s)) s in
  if Nat.leb 60 (List.length (baselineMeasurements s)) then
    let s := set_baselineFrameTime (average (baselineMeasurements s)) s in
    let s := set_isMeasuringBaseline false s in
    let s := set_currentVertexCount 1000 s in
    let s := addTestMesh s in
    updateStatus (baselineReport s) s
  else s.

(** The first half of [measurePerformance()] on a running test: render,
    push the frame time, keep the last 60. *)
Definition recordFrameTime (startTime endTime : float) (s : State) : State :=
  let s := render s in
  let frameTime := (endTime - startTime)%float in
  let s := set_frameTimes (push frameTime (frameTimes s)) s in
  if Nat.ltb 60 (List.length (frameTimes s)) then
    set_frameTimes (shift (frameTimes s)) s
  else s.

(** [measurePerformance()] *)
Definition measurePerformance (startTime endTime : float) (s : State) : State :=
  if isTestStopped s then render s
  else
    let s := recordFrameTime startTime endTime s in
    let avgFrameTime := average (frameTimes s) in
    if gt avgFrameTime maxFrameTime then
      let s := set_isTestStopped true s in
      updateStatus (finalReport avgFrameTime s) s
    else
      let s := set_currentVertexCount (currentVertexCount s + 1000) s in
      let s := cleanupMeshes s in
      let s := addTestMesh s in
      updateStatus (progressReport avgFrameTime s) s.

(** One tick of the controller: the dispatch at the end of [animate()]. *)
Definition tick (startTime endTime : float) (s : State) : State :=
  if isMeasuringBaseline s then measureBaselinePerformance startTime endTime s
  else measurePerformance startTime endTime s.

(** [animate()] *)
Definition animate (startTime endTime : float) (s : State) : State :=
  let s := emit RequestAnimationFrame s in
  let s := emit ControlsUpdate s in
  tick startTime endTime s.

Definition copiedNotice : string := NL ++ NL ++ "Copied to clipboard! ✓".
Definition failedNotice : string :=
  NL ++ NL ++ "Failed to copy. Please try manually selecting the text.".

(** [copyResults()] up to its [await], where [navigator.clipboard]
    exists: the text is handed to the clipboard. *)
Definition copyResults_begin (s : State) : State :=
  let s := emit (ClipboardWrite (statusText s)) s in
  set_pendingCopies (S (pendingCopies s)) s.

(** [copyResults()] after its [await]; [ok] tells whether the clipboard
    write succeeded. *)
Definition copyResults_resume (ok : bool) (s : State) : State :=
  match pendingCopies s with
  | O => s
  | S n =>
      let s := set_pendingCopies n s in
      let s :=
        if ok then
          let originalText := statusText s in
          let s := set_statusText (statusText s ++ copiedNotice) s in
          let s := emit (SetTimeout 2000) s in
          set_timers (push originalText (timers s)) s
        else
          let s := emit ConsoleError s in
          set_statusText (statusText s ++ failedNotice) s in
      emit DetectChanges s
  end.

(** [copyResults()] where [navigator.clipboard] is undefined, as on a
    page outside a secure context: evaluating
    [navigator.clipboard.writeText] throws before anything is handed over
    and before the method awaits, so the [catch] and the final
    [detectChanges()] run at once. *)
Definition copyResults_throws (s : State) : State :=
  let s := emit ConsoleError s in
  let s := set_statusText (statusText s ++ failedNotice) s in
  emit DetectChanges s.

(** The callback of [setTimeout] in [copyResults()]; equal delays fire in
    the order they were armed. *)
Definition copyResults_restore (s : State) : State :=
  match timers s with
  | [] => s
  | originalText :: rest =>
      let s := set_timers rest s in
      let s := set_statusText originalText s in
      emit DetectChanges s
  end.

(** The text that [copyResults()] exports. *)
Definition exportReport (s : State) : string := statusText s.

(** What can happen to the component after [ngAfterViewInit()] has built
    the scene. *)
Inductive Event : Type :=
| Frame (startTime endTime : float)   (* a call of animate() *)
| CopyClick                           (* the button calls copyResults() *)
| CopySettled (ok : bool)             (* the clipboard promise settles *)
| TimerFired                          (* a 2000 ms timer expires *)
| CopyThrows.                         (* the button calls copyResults() and
                                         there is no navigator.clipboard *)

Definition step (s : State) (e : Event) : State :=
  match e with
  | Frame startTime endTime => animate startTime endTime s
  | CopyClick => copyResults_begin s
  | CopySettled ok => copyResults_resume ok s
  | TimerFired => copyResults_restore s
  | CopyThrows => copyResults_throws s
  end.

Definition run_from (s : State) (events : list Event) : State :=
  fold_left step events s.

(** The component once [initThreeJS()] and [createTestEnvironment()] have
    run; the first [Frame] is the [animate()] call of [ngAfterViewInit()]. *)
Definition init : State := createTestEnvironment (initThreeJS fresh).

Definition run (events : list Event) : State := run_from init events.

(** The controller's state as the three phases of the specification. *)
Inductive Phase : Type := MeasuringBaseline | Stepping | Stopped.

Definition phase (s : State) : Phase :=
  if isMeasuringBaseline s then MeasuringBaseline
  else if isTestStopped s then Stopped else Stepping.

End Component.

(* ================================================================== *)
(** * A host: en-US number formatting *)

Module EnUS.
Local Open Scope string_scope.
Local Open Scope Z_scope.

Definition decimal (n : Z) : string :=
  DecimalString.NilZero.string_of_uint (N.to_uint (Z.to_N n)).

(** Digits (least significant first) with a comma after every third. *)
Fixpoint group3 (digits : list ascii) : list ascii :=
  match digits with
  | a :: b :: c :: ((_ :: _) as rest) => a :: b :: c :: ","%char :: group3 rest
  | _ => digits
  end.

Definition toLocaleString (n : Z) : string :=
  let grouped :=
    string_of_list_ascii
      (List.rev (group3 (List.rev (list_ascii_of_string (decimal (Z.abs n)))))) in
  if n <? 0 then "-" ++ grouped else grouped.

Fixpoint zeros (k : nat) : string :=
  match k with
  | O => ""
  | S k' => "0" ++ zeros k'
  end.

(** The integer [n] written with its last [d] digits after the point. *)
Definition fixedPoint (n : Z) (d : nat) : string :=
  let digits := decimal n in
  let digits := zeros (S d - String.length digits) ++ digits in
  let k := (String.length digits - d)%nat in
  if Nat.eqb d 0 then digits
  else substring 0 k digits ++ "." ++ substring k d digits.

(** [x.toFixed(d)] for magnitudes below 10^21: the integer nearest to
    [x * 10^d], the larger one on a tie, written in fixed point. *)
Definition toFixed (x : float) (d : nat) : string :=
  match Prim2SF x with
  | S754_nan => "NaN"
  | S754_infinity sign => if sign then "-Infinity" else "Infinity"
  | S754_zero _ => fixedPoint 0 d
  | S754_finite sign m e =>
      let p := 10 ^ Z.of_nat d in
      let n :=
        if 0 <=? e then Z.pos m * 2 ^ e * p
        else (2 * Z.pos m * p + 2 ^ (- e)) / (2 * 2 ^ (- e)) in
      (if sign then "-" else "") ++ fixedPoint n d
  end.

Definition format : NumberFormat := Build_NumberFormat toLocaleString toFixed.
End EnUS.

(* ================================================================== *)
(** * The buffers built by [createTestMesh]

    The arithmetic of [createTestMesh] is binary64; a [Float32Array] keeps
    of every number stored in it the nearest binary32 value, and gives
    that value back as a number.  [Math.sin], [Math.cos] and [Math.acos]
    are left to the host by ECMAScript (implementation-approximated) and
    are taken through the class [MathHost]; [Math.sqrt] and [Math.PI] are
    fixed by the language.  [rand k] is the value of the [k]-th call of
    [Math.random()] made by the function. *)

Class MathHost : Type := {
  Math_sin : float -> float;
  Math_cos : float -> float;
  Math_acos : float -> float
}.

(** The real number that a finite binary64 value stands for (0 for the
    infinities and NaN, which stand for none). *)
Definition realOf (x : float) : R :=
  match Prim2SF x with
  | S754_finite s m e => (IZR (cond_Zopp s (Zpos m)) * powerRZ 2 e)%R
  | _ => 0%R
  end.

Module Geometry.
Local Open Scope float_scope.

Record BufferGeometry : Type := {
  positions : list float;           (* Float32Array(vertexCount * 3) *)
  normals : list float;             (* Float32Array(vertexCount * 3) *)
  indices : list Z                  (* Uint32Array(vertexCount) *)
}.

Record Mesh : Type := {
  geometry : BufferGeometry;
  color : Z;
  wireframe : bool
}.

Definition Math_PI : float := 0x1.921fb54442d18p+1.

(** The conversion of a number to binary32, to nearest, ties to even: what
    a [Float32Array] does to a number stored in it.  The binary32 value is
    held as the binary64 number equal to it. *)
Definition round32 (x : spec_float) : spec_float :=
  match x with
  | S754_finite s m e => binary_round 24 128 s m e
  | _ => x
  end.

Definition fround (x : float) : float := SF2Prim (round32 (Prim2SF x)).

(** [new Float32Array(n)] and [new Uint32Array(n)]: [n] zeros. *)
Definition Float32Array (n : nat) : list float := List.repeat 0 n.
Definition Uint32Array (n : nat) : list Z := List.repeat 0%Z n.

(** [arr[i] = v]: a typed array ignores a store outside its bounds; a
    [Float32Array] keeps the value rounded to binary32, a [Uint32Array]
    keeps it modulo 2^32. *)
Definition store (i : nat) (v : float) (arr : list float) : list float :=
  <[i := fround v]> arr.
Definition store_u32 (i : nat) (v : Z) (arr : list Z) : list Z :=
  <[i := (v mod 2 ^ 32)%Z]> arr.

(** [arr[i]]; outside the bounds it is [undefined], NaN in arithmetic. *)
Definition load (arr : list float) (i : nat) : float := List.nth i arr nan.

Section Host.
Context {host : MathHost}.

(** The body of the loop, for vertex [i]. *)
Definition vertex (rand : nat -> float) (g : BufferGeometry) (i : nat) : BufferGeometry :=
  let theta := rand (2 * i)%nat * Math_PI * 2 in
  let phi := Math_acos (2 * rand (2 * i + 1)%nat - 1) in
  let radius := 1 in
  let positions := positions g in
  let positions := store (i * 3) (radius * Math_sin phi * Math_cos theta) positions in
  let positions := store (i * 3 + 1) (radius * Math_sin phi * Math_sin theta) positions in
  let positions := store (i * 3 + 2) (radius * Math_cos phi) positions in
  let length :=
    PrimFloat.sqrt
      (load positions (i * 3) * load positions (i * 3) +
       load positions (i * 3 + 1) * load positions (i * 3 + 1) +
       load positions (i * 3 + 2) * load positions (i * 3 + 2)) in
  let normals := normals g in
  let normals := store (i * 3) (load positions (i * 3) / length) normals in
  let normals := store (i * 3 + 1) (load positions (i * 3 + 1) / length) normals in
  let normals := store (i * 3 + 2) (load positions (i * 3 + 2) / length) normals in
  let indices := store_u32 i (Z.of_nat i) (indices g) in
  {| positions := positions; normals := normals; indices := indices |}.

(** [createTestMesh(vertexCount)]: [for (let i = 0; i < vertexCount; i++)]
    runs the body on 0, 1, ..., vertexCount - 1. *)
Definition createTestMesh (rand : nat -> float) (vertexCount : nat) : Mesh :=
  let g := {| positions := Float32Array (vertexCount * 3);
              normals := Float32Array (vertexCount * 3);
              indices := Uint32Array vertexCount |} in
  {| geometry := fold_left (vertex rand) (seq 0 vertexCount) g;
     color := 0xff0000;
     wireframe := true |}.

(** The position and the normal that the loop computes for vertex [i]. *)
Definition positionAt (rand : nat -> float) (i : nat) : float * float * float :=
  let theta := rand (2 * i)%nat * Math_PI * 2 in
  let phi := Math_acos (2 * rand (2 * i + 1)%nat - 1) in
  (fround (1 * Math_sin phi * Math_cos theta),
   fround (1 * Math_sin phi * Math_sin theta),
   fround (1 * Math_cos phi)).

Definition normalAt (rand : nat -> float) (i : nat) : float * float * float :=
  let '(x, y, z) := positionAt rand i in
  let length := PrimFloat.sqrt (x * x + y * y + z * z) in
  (fround (x / length), fround (y / length), fround (z / length)).

(** Vertex [i] of a buffer of triples. *)
Definition triple (arr : list float) (i : nat) : float * float * float :=
  (load arr (i * 3), load arr (i * 3 + 1), load arr (i * 3 + 2)).

(** What the loop has built after [k] of its [N] turns. *)
Record Built (rand : nat -> float) (N k : nat) (g : BufferGeometry) : Prop := {
  built_positions : List.length (positions g) = (N * 3)%nat;
  built_normals : List.length (normals g) = (N * 3)%nat;
  built_indices : List.length (indices g) = N;
  built_vertex :
    forall i : nat,
      (i < k)%nat ->
      triple (positions g) i = positionAt rand i /\
      triple (normals g) i = normalAt rand i /\
      List.nth i (indices g) 0%Z = (Z.of_nat i mod 2 ^ 32)%Z
}.
End Host.

(** The square of the Euclidean distance from the origin of the point
    whose coordinates are the stored numbers, in exact arithmetic. *)
Definition squaredDistance (v : float * float * float) : R :=
  let '(x, y, z) := v in
  (realOf x * realOf x + realOf y * realOf y + realOf z * realOf z)%R.
End Geometry.

(** The Math functions at the arguments that [createTestMesh] reaches when
    every draw of [Math.random()] is 0: [acos(-1)] is [Math.PI], at which
    the sine is the binary64 value nearest to the distance of [Math.PI]
    from pi and the cosine is -1; ECMAScript fixes the sine of +0 as +0
    and its cosine as 1.  The table is silent (NaN) elsewhere. *)
Module PoleHost.
Local Open Scope float_scope.

Definition acos (x : float) : float :=
  if x =? -1 then Geometry.Math_PI else nan.

Definition sin (x : float) : float :=
  if x =? Geometry.Math_PI then 0x1.1a62633145c07p-53
  else if x =? 0 then x else nan.

Definition cos (x : float) : float :=
  if x =? Geometry.Math_PI then -1
  else if x =? 0 then 1 else nan.

Definition host : MathHost :=
  {| Math_sin := sin; Math_cos := cos; Math_acos := acos |}.
End PoleHost.

(* ================================================================== *)
(** * The sliding window of [measurePerformance] on its own *)

(** The last [n] elements of a list. *)
Definition lastn {A : Type} (n : nat) (l : list A) : list A :=
  List.skipn (List.length l - n) l.

(** [frameTimes.push(x); if (frameTimes.length > 60) frameTimes.shift()] *)
Definition window_push (window : list float) (sample : float) : list float :=
  let window := push sample window in
  if Nat.ltb 60 (List.length window) then shift window else window.

(** The samples (frame durations) that a list of events delivers. *)
Definition sample_of (e : Event) : list float :=
  match e with
  | Frame startTime endTime => [(endTime - startTime)%float]
  | _ => []
  end.

Definition samples_of (events : list Event) : list float :=
  List.flat_map sample_of events.

(** Ticks alone, with their clock readings. *)
Definition ticks_from {fmt : NumberFormat} (s : State) (clock : list (float * float)) : State :=
  fold_left (fun s t => tick (fst t) (snd t) s) clock s.

Definition is_frame (e : Event) : bool :=
  match e with
  | Frame _ _ => true
  | _ => false
  end.

(** The objects that [init] creates. *)
Definition ambientLight : Object3D :=
  {| obj_uid := 0; obj_kind := AmbientLight; obj_x := 0 |}.
Definition directionalLight : Object3D :=
  {| obj_uid := 1; obj_kind := DirectionalLight; obj_x := 0 |}.
Definition baselineCube : Object3D :=
  {| obj_uid := 2; obj_kind := BaselineCube; obj_x := 0 |}.

(** What a run keeps true: [Inv events s] relates the state [s] to the
    events that led to it. *)
Record Inv (events : list Event) (s : State) : Prop := {
  inv_phase : isMeasuringBaseline s = Nat.ltb (List.length (samples_of events)) 60;
  inv_baselineMeasurements :
    baselineMeasurements s = List.firstn 60 (samples_of events);
  inv_baselineFrameTime :
    baselineFrameTime s =
      if isMeasuringBaseline s then 0%float else average (baselineMeasurements s);
  inv_measuring :
    isMeasuringBaseline s = true ->
    isTestStopped s = false /\ currentVertexCount s = 0%Z /\
    frameTimes s = [] /\ logs s = [] /\ testMeshes s = [baselineCube];
  inv_testing :
    isMeasuringBaseline s = false ->
    logs s <> [] /\ (1000 <= currentVertexCount s)%Z /\
    exists mesh, testMeshes s = [baselineCube; mesh] /\
                 obj_kind mesh = TestMesh (currentVertexCount s) /\
                 2 < obj_uid mesh < nextUid s;
  inv_scene : scene s = ambientLight :: directionalLight :: testMeshes s;
  inv_nextUid : 2 < nextUid s;
  inv_window : List.length (frameTimes s) <= 60;
  inv_disposed :
    forall uid, In (DisposeGeometry uid) (trace s) \/ In (DisposeMaterial uid) (trace s) ->
                2 < uid < nextUid s /\
                forall mesh, In mesh (testMeshes s) -> obj_uid mesh <> uid
}.

(** ** Intermediate states of a tick *)

Section Stages.
Context {fmt : NumberFormat}.

(** The state in which [animate()] reaches its dispatch. *)
Definition entered (s : State) : State :=
  emit ControlsUpdate (emit RequestAnimationFrame s).

(** The state in which [measureBaselinePerformance] takes its decision. *)
Definition sampled (a b : float) (s : State) : State :=
  set_baselineMeasurements (push (b - a)%float (baselineMeasurements s)) (render s).

(** The state in which the baseline report is written. *)
Definition calibrated (a b : float) (s : State) : State :=
  addTestMesh
    (set_currentVertexCount 1000
       (set_isMeasuringBaseline false
          (set_baselineFrameTime
             (average (baselineMeasurements (sampled a b s))) (sampled a b s)))).

(** The average that a tick of a running test compares with the budget. *)
Definition rollingAverage (a b : float) (s : State) : float :=
  average (frameTimes (recordFrameTime a b s)).

(** The state of a growing tick before the old meshes are cleaned up, once
    they are, and once the new mesh is added. *)
Definition counted (a b : float) (s : State) : State :=
  set_currentVertexCount (currentVertexCount (recordFrameTime a b s) + 1000)
    (recordFrameTime a b s).

Definition cleaned (a b : float) (s : State) : State := cleanupMeshes (counted a b s).

Definition grown (a b : float) (s : State) : State := addTestMesh (cleaned a b s).

(** The mesh that [addTestMesh()] creates and places in state [s]. *)
Definition newTestMesh (s : State) : Object3D :=
  {| obj_uid := nextUid s; obj_kind := TestMesh (currentVertexCount s); obj_x := 2 |}.
End Stages.

(** The arithmetic mean of rationals, in the usual sense. *)
Definition exactSum (qs : list Q) : Q := List.fold_right Qplus 0%Q qs.

Definition exactMean (qs : list Q) : Q :=
  (exactSum qs / inject_Z (Z.of_nat (List.length qs)))%Q.

(** Sixty baseline frames of 5 ms each, and the state they lead to. *)
Definition baselineRun : list Event := List.repeat (Frame 0 5) 60.

(** The run of the specification's scenario: the baseline at 5 ms, two
    frames at 10 ms, then frames at 20 ms until the average passes the
    budget, which the fifth of them does. *)
Definition stoppedRun : list Event :=
  baselineRun ++ List.repeat (Frame 0 10) 2 ++ List.repeat (Frame 0 20) 5.

(** The array lengths by which a reachable window divides its sum. *)
Definition nonzero_lengths : bool :=
  forallb (fun n => negb (number_of_nat n =? 0)%float) (seq 1 60).

(* ================================================================== *)
(** * Vocabulary for the traces and histories of a run *)

(** The calls with which [cleanupMeshes()] releases the given meshes, in
    the order given. *)
Definition disposals (meshes : list Object3D) : list Effect :=
  List.flat_map
    (fun mesh => [DisposeGeometry (obj_uid mesh); DisposeMaterial (obj_uid mesh)])
    meshes.

(** [scene.remove] of each of the given meshes, in the order given. *)
Definition scene_remove_all (meshes children : list Object3D) : list Object3D :=
  fold_left (fun children mesh => scene_remove mesh children) meshes children.

(** Calls that neither render nor dispose. *)
Definition quiet (e : Effect) : bool :=
  match e with
  | Render _ | DisposeGeometry _ | DisposeMaterial _ => false
  | _ => true
  end.

(** Two states with the same controller: they may differ in the status
    text, the trace and the bookkeeping of copies. *)
Record SameController (s s' : State) : Prop := {
  same_scene : scene s' = scene s;
  same_testMeshes : testMeshes s' = testMeshes s;
  same_currentVertexCount : currentVertexCount s' = currentVertexCount s;
  same_baselineFrameTime : baselineFrameTime s' = baselineFrameTime s;
  same_frameTimes : frameTimes s' = frameTimes s;
  same_isMeasuringBaseline : isMeasuringBaseline s' = isMeasuringBaseline s;
  same_isTestStopped : isTestStopped s' = isTestStopped s;
  same_baselineMeasurements : baselineMeasurements s' = baselineMeasurements s;
  same_logs : logs s' = logs s;
  same_nextUid : nextUid s' = nextUid s
}.

Section FrameStates.
Context {fmt : NumberFormat}.

(** The state in which a frame that stops the test writes its report. *)
Definition halted (a b : float) (s : State) : State :=
  set_isTestStopped true
    (set_frameTimes (window_push (frameTimes s) (b - a)%float) (render (entered s))).

(** The state in which a frame that grows the test writes its report,
    when [old] is the test mesh held. *)
Definition regrown (a b : float) (old : Object3D) (s : State) : State :=
  addTestMesh
    (cleanupMesh [baselineCube] old
       (set_currentVertexCount (currentVertexCount s + 1000)
          (set_frameTimes (window_push (frameTimes s) (b - a)%float)
             (render (entered s))))).
End FrameStates.

(** The test mesh that the [k]-th growth creates ([k] = 1 at the end of the
    baseline). *)
Definition testMeshAt (k : nat) : Object3D :=
  {| obj_uid := 2 + k; obj_kind := TestMesh (1000 * Z.of_nat k); obj_x := 2 |}.

(** The scene after [k] growths. *)
Definition sceneAfter (k : nat) : list Object3D :=
  match k with
  | O => [ambientLight; directionalLight; baselineCube]
  | S _ => [ambientLight; directionalLight; baselineCube; testMeshAt k]
  end.

(** The number of growths that a vertex count stands for. *)
Definition growths (s : State) : nat := Z.to_nat (currentVertexCount s / 1000).

(** The scenes rendered by a trace, in order. *)
Definition rendered (t : list Effect) : list (list Object3D) :=
  List.flat_map (fun e => match e with Render children => [children] | _ => [] end) t.

Section Ledgers.
Context {fmt : NumberFormat}.

(** The report that describes a state in which the baseline is known. *)
Definition reportOf (s : State) : string :=
  if isTestStopped s then finalReport (average (frameTimes s)) s
  else match frameTimes s with
       | [] => baselineReport s
       | _ :: _ => progressReport (average (frameTimes s)) s
       end.

(** The accounts of a run: [k] growths after the given events. *)
Record Ledger (events : list Event) (s : State) (k : nat) : Prop := {
  led_count : currentVertexCount s = (1000 * Z.of_nat k)%Z;
  led_logs : List.length (logs s) = k + (if isTestStopped s then 1 else 0);
  led_scene : scene s = sceneAfter k;
  led_nextUid : nextUid s = 3 + k;
  led_frames :
    if isMeasuringBaseline s then k = 0
    else if isTestStopped s then k + 59 < List.length (samples_of events)
         else k + 59 = List.length (samples_of events);
  led_window :
    isTestStopped s = false ->
    frameTimes s = lastn 60 (List.skipn 60 (samples_of events));
  led_last :
    isMeasuringBaseline s = false -> List.last (logs s) EmptyString = reportOf s;
  led_budget :
    frameTimes s <> [] -> gt (average (frameTimes s)) maxFrameTime = isTestStopped s;
  led_rendered :
    rendered (trace s) =
    List.map (fun i => sceneAfter (Nat.min (i - 59) k))
      (seq 0 (List.length (samples_of events)))
}.
End Ledgers.

(** A mesh of which a trace has disposed the geometry or the material. *)
Definition disposedIn (t : list Effect) (uid : nat) : Prop :=
  In (DisposeGeometry uid) t \/ In (DisposeMaterial uid) t.

(** A call that is in order after the calls [t]: nothing disposed of is
    rendered, nothing is disposed of twice. *)
Definition allowed (t : list Effect) (e : Effect) : Prop :=
  match e with
  | Render children => forall o : Object3D, In o children -> ~ disposedIn t (obj_uid o)
  | DisposeGeometry uid => ~ In (DisposeGeometry uid) t
  | DisposeMaterial uid => ~ In (DisposeMaterial uid) t
  | _ => True
  end.

(** A trace each call of which was in order when it was made. *)
Inductive Safe : list Effect -> Prop :=
| Safe_nil : Safe []
| Safe_snoc (t : list Effect) (e : Effect) : Safe t -> allowed t e -> Safe (t ++ [e]).

(** Events other than a click on the copy button and its outcome. *)
Definition no_copy (e : Event) : bool :=
  match e with
  | CopyClick | CopySettled _ | CopyThrows => false
  | _ => true
  end.

(* ================================================================== *)
(** * Facts about numbers and windows *)

Section Numbers.
Local Open Scope float_scope.

Lemma SFleb_SFltb_false (x y : spec_float) :
  SFleb x y = true -> SFltb y x = false.
Proof.
  unfold SFleb, SFltb.
  destruct x as [sx | sx | | sx mx ex], y as [sy | sy | | sy my ey];
    simpl; try discriminate; try reflexivity;
    try (destruct sx; simpl; congruence);
    try (destruct sy; simpl; congruence);
    try (destruct sx, sy; simpl; congruence).
  assert (E : Pos.compare_cont Eq my mx = CompOpp (Pos.compare_cont Eq mx my))
    by (symmetry; apply (Pos.compare_cont_antisym mx my Eq)).
  destruct sx, sy; simpl; try congruence;
    rewrite (Z.compare_antisym ex ey);
    destruct (ex ?= ey)%Z; simpl; try congruence;
    rewrite E; destruct (Pos.compare_cont Eq mx my); simpl; congruence.
Qed.

(** [a <= b] rules out [a > b], also for infinities and NaN. *)
Lemma leb_gt_false (a b : float) : (a <=? b) = true -> gt a b = false.
Proof.
  unfold gt. rewrite FloatAxioms.leb_spec, FloatAxioms.ltb_spec.
  apply SFleb_SFltb_false.
Qed.

(** Neither holds when the average is NaN. *)
Lemma gt_leb_false (a b : float) : gt a b = true -> (a <=? b) = false.
Proof.
  intros H. destruct (a <=? b) eqn:E; [|reflexivity].
  apply leb_gt_false in E. congruence.
Qed.

Lemma number_of_nat_nonzero (n : nat) :
  1 <= n <= 60 -> (number_of_nat n =? 0) = false.
Proof.
  intros H.
  assert (E : nonzero_lengths = true) by (vm_compute; reflexivity).
  unfold nonzero_lengths in E. rewrite forallb_forall in E.
  apply negb_true_iff, E, in_seq. lia.
Qed.
End Numbers.

Section Windows.
Context {A : Type}.

Lemma lastn_all (n : nat) (l : list A) : List.length l <= n -> lastn n l = l.
Proof.
  intros H. unfold lastn. replace (List.length l - n) with 0 by lia. reflexivity.
Qed.

Lemma lastn_length (n : nat) (l : list A) :
  List.length (lastn n l) = Nat.min (List.length l) n.
Proof. unfold lastn. rewrite List.length_skipn. lia. Qed.

Lemma lastn_min (n : nat) (l : list A) :
  lastn (Nat.min (List.length l) n) l = lastn n l.
Proof. unfold lastn. f_equal. lia. Qed.

Lemma tl_skipn (k : nat) (l : list A) : List.tl (List.skipn k l) = List.skipn (S k) l.
Proof.
  revert l. induction k as [|k IH]; intros [|x l]; simpl; try reflexivity.
  - apply IH.
Qed.

Lemma lastn_snoc_full (n : nat) (l : list A) (x : A) :
  n <= List.length l -> List.tl (lastn n l ++ [x]) = lastn n (l ++ [x]).
Proof.
  intros H. unfold lastn. rewrite List.length_app. simpl.
  replace (List.length l + 1 - n) with (S (List.length l - n)) by lia.
  rewrite <- tl_skipn. rewrite List.skipn_app.
  replace (List.length l - n - List.length l) with 0 by lia. reflexivity.
Qed.
End Windows.

Lemma window_push_lastn (samples : list float) (x : float) :
  window_push (lastn 60 samples) x = lastn 60 (samples ++ [x]).
Proof.
  unfold window_push, push.
  rewrite List.length_app, lastn_length. simpl.
  destruct (Nat.ltb_spec 60 (Nat.min (List.length samples) 60 + 1)) as [H|H].
  - unfold shift. apply lastn_snoc_full. lia.
  - rewrite !lastn_all; try reflexivity; rewrite ?List.length_app; simpl; lia.
Qed.

Lemma fold_window_push (samples : list float) :
  fold_left window_push samples [] = lastn 60 samples.
Proof.
  induction samples as [|x samples IH] using List.rev_ind.
  - reflexivity.
  - rewrite List.fold_left_app. simpl. rewrite IH. apply window_push_lastn.
Qed.

Lemma window_push_length (w : list float) (x : float) :
  List.length w <= 60 ->
  1 <= List.length (window_push w x) <= 60.
Proof.
  intros H. unfold window_push, push, shift.
  destruct (Nat.ltb_spec 60 (List.length (w ++ [x]))) as [H'|H'];
    rewrite List.length_app in H'; simpl in H'.
  - destruct w as [|y w]; simpl in *; [lia|].
    rewrite List.length_app. simpl. lia.
  - rewrite List.length_app. simpl. lia.
Qed.

Lemma window_push_nonempty (w : list float) (x : float) :
  1 <= List.length (window_push w x) /\
  List.last (window_push w x) x = x.
Proof.
  unfold window_push, push, shift.
  destruct (Nat.ltb_spec 60 (List.length (w ++ [x]))) as [H'|H'].
  - rewrite List.length_app in H'; simpl in H'.
    destruct w as [|y w]; simpl in *; [lia|].
    rewrite List.length_app. simpl. split; [lia|]. apply List.last_last.
  - rewrite List.length_app. simpl. split; [lia|]. apply List.last_last.
Qed.

(* ================================================================== *)
(** * The methods, case by case *)

(** Reduces field reads of updated records. *)
Ltac fields :=
  cbn [scene testMeshes currentVertexCount baselineFrameTime frameTimes
       isMeasuringBaseline isTestStopped baselineMeasurements logs statusText
       nextUid trace pendingCopies timers
       set_scene set_testMeshes set_currentVertexCount set_baselineFrameTime
       set_frameTimes set_isMeasuringBaseline set_isTestStopped
       set_baselineMeasurements set_logs set_statusText set_nextUid set_trace
       set_pendingCopies set_timers emit render updateStatus new_object
       createTestMesh addTestMesh fst snd obj_uid obj_kind obj_x] in *.

Section Methods.
Context {fmt : NumberFormat}.

Lemma tick_measuring (a b : float) (s : State) :
  isMeasuringBaseline s = true ->
  List.length (baselineMeasurements s) < 59 ->
  tick a b s = sampled a b s.
Proof.
  intros Hm Hlen. unfold tick, measureBaselinePerformance, sampled.
  rewrite Hm. fields.
  destruct (Nat.leb_spec 60 (List.length (push (b - a)%float (baselineMeasurements s))))
    as [H|H]; [|reflexivity].
  unfold push in H. rewrite List.length_app in H. simpl in H. lia.
Qed.

Lemma tick_calibrates (a b : float) (s : State) :
  isMeasuringBaseline s = true ->
  59 <= List.length (baselineMeasurements s) ->
  tick a b s = updateStatus (baselineReport (calibrated a b s)) (calibrated a b s).
Proof.
  intros Hm Hlen. unfold tick, measureBaselinePerformance, calibrated, sampled.
  rewrite Hm. fields.
  destruct (Nat.leb_spec 60 (List.length (push (b - a)%float (baselineMeasurements s))))
    as [H|H]; [reflexivity|].
  unfold push in H. rewrite List.length_app in H. simpl in H. lia.
Qed.

Lemma tick_stopped (a b : float) (s : State) :
  isMeasuringBaseline s = false -> isTestStopped s = true ->
  tick a b s = render s.
Proof.
  intros Hm Hs. unfold tick, measurePerformance. rewrite Hm, Hs. reflexivity.
Qed.

(** [recordFrameTime] touches the window and the trace only. *)
Lemma recordFrameTime_eq (a b : float) (s : State) :
  recordFrameTime a b s =
  set_frameTimes (window_push (frameTimes s) (b - a)%float) (render s).
Proof.
  unfold recordFrameTime, window_push. fields.
  destruct (Nat.ltb 60 (List.length (push (b - a)%float (frameTimes s))));
    reflexivity.
Qed.

Lemma recordFrameTime_window (a b : float) (s : State) :
  frameTimes (recordFrameTime a b s) = window_push (frameTimes s) (b - a)%float.
Proof. rewrite recordFrameTime_eq. reflexivity. Qed.

Lemma tick_stops (a b : float) (s : State) :
  isMeasuringBaseline s = false -> isTestStopped s = false ->
  gt (rollingAverage a b s) maxFrameTime = true ->
  tick a b s =
  updateStatus
    (finalReport (rollingAverage a b s) (set_isTestStopped true (recordFrameTime a b s)))
    (set_isTestStopped true (recordFrameTime a b s)).
Proof.
  intros Hm Hs Hgt. unfold tick, measurePerformance. rewrite Hm, Hs.
  fold (rollingAverage a b s). rewrite Hgt. reflexivity.
Qed.

Lemma tick_grows (a b : float) (s : State) :
  isMeasuringBaseline s = false -> isTestStopped s = false ->
  gt (rollingAverage a b s) maxFrameTime = false ->
  tick a b s =
  updateStatus (progressReport (rollingAverage a b s) (grown a b s)) (grown a b s).
Proof.
  intros Hm Hs Hgt. unfold tick, measurePerformance. rewrite Hm, Hs.
  fold (rollingAverage a b s). rewrite Hgt. reflexivity.
Qed.

(** [cleanupMeshes] when the cube and one test mesh are held. *)
Lemma cleanupMeshes_one (s : State) (cube mesh : Object3D) :
  testMeshes s = [cube; mesh] ->
  cleanupMeshes s = cleanupMesh [cube] mesh s.
Proof.
  intros H. unfold cleanupMeshes. rewrite H. simpl.
  rewrite H. simpl. unfold cleanupMesh. fields. reflexivity.
Qed.

(** The loop of [cleanupMeshes] runs to its exit: at most one mesh is
    left, whatever was held. *)
Lemma cleanupMeshes_loop_exit (fuel : nat) (s : State) :
  List.length (testMeshes s) <= fuel ->
  List.length (testMeshes (cleanupMeshes_loop fuel s)) <= 1.
Proof.
  revert s. induction fuel as [|fuel IH]; intros s H; simpl.
  - lia.
  - destruct (Nat.ltb_spec 1 (List.length (testMeshes s))) as [L|L]; [|exact L].
    unfold pop.
    destruct (testMeshes s) as [|m ms _] eqn:E using List.rev_ind; [simpl in L; lia|].
    rewrite List.map_app, List.removelast_last. simpl. rewrite List.last_last.
    apply IH. unfold cleanupMesh. fields.
    rewrite List.length_app in H. simpl in H. lia.
Qed.

Lemma cleanupMeshes_exit (s : State) :
  List.length (testMeshes (cleanupMeshes s)) <= 1.
Proof. apply cleanupMeshes_loop_exit. lia. Qed.
End Methods.

(* ================================================================== *)
(** * The invariant of a run *)

Lemma samples_of_app (events more : list Event) :
  samples_of (events ++ more) = samples_of events ++ samples_of more.
Proof. unfold samples_of. apply List.flat_map_app. Qed.

Lemma firstn_snoc_short {A : Type} (n : nat) (l : list A) (x : A) :
  List.length l < n -> List.firstn n (l ++ [x]) = l ++ [x].
Proof. intros H. apply List.firstn_all2. rewrite List.length_app. simpl. lia. Qed.

Lemma firstn_snoc_full {A : Type} (n : nat) (l more : list A) :
  n <= List.length l -> List.firstn n (l ++ more) = List.firstn n l.
Proof.
  intros H. rewrite List.firstn_app.
  replace (n - List.length l) with 0 by lia. simpl. apply List.app_nil_r.
Qed.

Lemma scene_remove_last (mesh : Object3D) (children : list Object3D) :
  (forall c, In c children -> obj_uid c <> obj_uid mesh) ->
  scene_remove mesh (children ++ [mesh]) = children.
Proof.
  induction children as [|c rest IH]; intros H; simpl.
  - unfold same_object. rewrite Nat.eqb_refl. reflexivity.
  - unfold same_object at 1.
    destruct (Nat.eqb_spec (obj_uid c) (obj_uid mesh)) as [E|_].
    + exfalso. apply (H c); [left; reflexivity | exact E].
    + f_equal. apply IH. intros c' Hc'. apply H. right. exact Hc'.
Qed.

Section Invariant.
Context {fmt : NumberFormat}.

Lemma Inv_init : Inv [] init.
Proof.
  constructor; try reflexivity; simpl; try lia; try discriminate.
  intros _. repeat split; reflexivity.
Qed.

(** Events that leave the controller's fields alone keep the invariant. *)
Lemma Inv_frame (events more : list Event) (s s' : State) (extra : list Effect) :
  Inv events s ->
  samples_of more = [] ->
  scene s' = scene s -> testMeshes s' = testMeshes s ->
  currentVertexCount s' = currentVertexCount s ->
  baselineFrameTime s' = baselineFrameTime s ->
  frameTimes s' = frameTimes s ->
  isMeasuringBaseline s' = isMeasuringBaseline s ->
  isTestStopped s' = isTestStopped s ->
  baselineMeasurements s' = baselineMeasurements s ->
  logs s' = logs s -> nextUid s' = nextUid s ->
  trace s' = trace s ++ extra ->
  (forall uid, ~ In (DisposeGeometry uid) extra /\ ~ In (DisposeMaterial uid) extra) ->
  Inv (events ++ more) s'.
Proof.
  intros [] Hmore Hsc Htm Hvc Hbf Hft Himb Hits Hbm Hlg Hnu Htr Hex.
  constructor;
    rewrite ?samples_of_app, ?Hmore, ?List.app_nil_r, ?Hsc, ?Htm, ?Hvc, ?Hbf, ?Hft,
      ?Himb, ?Hits, ?Hbm, ?Hlg, ?Hnu; try assumption.
  intros uid H. apply inv_disposed0. rewrite Htr in H.
  destruct (Hex uid) as [Hg Hm].
  destruct H as [H|H]; apply List.in_app_or in H; tauto.
Qed.
End Invariant.

Lemma disposed_app (uid : nat) (t extra : list Effect) :
  In (DisposeGeometry uid) (t ++ extra) \/ In (DisposeMaterial uid) (t ++ extra) ->
  (In (DisposeGeometry uid) t \/ In (DisposeMaterial uid) t) \/
  (In (DisposeGeometry uid) extra \/ In (DisposeMaterial uid) extra).
Proof. rewrite !List.in_app_iff. tauto. Qed.

(** Closes a goal about disposals when the new calls dispose nothing. *)
Ltac no_disposal Hd :=
  let uid := fresh "uid" in
  let H := fresh "H" in
  intros uid H; apply disposed_app in H; destruct H as [H|H];
  [ destruct (Hd uid H) as [? ?]; split; [lia|];
    try assumption
  | simpl in H; exfalso;
    repeat match goal with
           | H : _ \/ _ |- _ => destruct H
           | H : False |- _ => destruct H
           | H : _ = _ |- _ => discriminate H
           end ].

Section InvTick.
Context {fmt : NumberFormat}.

Lemma Inv_tick (events : list Event) (s : State) (a b : float) :
  Inv events s -> Inv (events ++ [Frame a b]) (tick a b s).
Proof.
  intros I. pose proof I as [Hph Hbm Hbf Hmeas Htest Hsc Hnu Hw Hd].
  assert (Hs : samples_of (events ++ [Frame a b]) =
               samples_of events ++ [(b - a)%float])
    by (rewrite samples_of_app; reflexivity).
  destruct (isMeasuringBaseline s) eqn:Em.
  - symmetry in Hph. apply Nat.ltb_lt in Hph.
    destruct (Hmeas eq_refl) as (Hst & Hvc & Hft & Hlg & Htm).
    assert (Hbm' : baselineMeasurements s = samples_of events)
      by (rewrite Hbm; apply List.firstn_all2; lia).
    destruct (Nat.lt_ge_cases (List.length (baselineMeasurements s)) 59) as [L|L].
    + rewrite tick_measuring by assumption. unfold sampled.
      constructor; fields; rewrite ?Hs, ?Em, ?List.length_app; simpl;
        try assumption.
      * symmetry. apply Nat.ltb_lt. rewrite Hbm' in L. lia.
      * unfold push. rewrite Hbm'. symmetry. apply firstn_snoc_short. lia.
      * no_disposal Hd.
    + rewrite tick_calibrates by assumption. unfold calibrated, sampled.
      rewrite Hbm' in L.
      constructor; fields; rewrite ?Hs, ?List.length_app; simpl;
        try assumption; try discriminate.
      * symmetry. apply Nat.ltb_ge. lia.
      * unfold push. rewrite Hbm'. symmetry. apply firstn_snoc_short. lia.
      * reflexivity.
      * intros _. split; [|split; [lia|]].
        -- unfold push. destruct (logs s); discriminate.
        -- eexists. rewrite Htm. split; [reflexivity|]. simpl. split; [reflexivity|lia].
      * rewrite Hsc, Htm. reflexivity.
      * lia.
      * rewrite <- !List.app_assoc. simpl.
        intros uid H. apply disposed_app in H. destruct H as [H|H].
        -- destruct (Hd uid H) as [Hu _]. split; [lia|].
           rewrite Htm. intros m [<-|[<-|[]]]; simpl; lia.
        -- exfalso. simpl in H. intuition discriminate.
  - symmetry in Hph. apply Nat.ltb_ge in Hph.
    destruct (Htest eq_refl) as (Hlg & Hvc & mesh & Htm & Hk & Hu).
    assert (Hfirst : List.firstn 60 (samples_of events ++ [(b - a)%float]) =
                     List.firstn 60 (samples_of events))
      by (apply firstn_snoc_full; exact Hph).
    assert (Hlt : Nat.ltb (List.length (samples_of events) + 1) 60 = false)
      by (apply Nat.ltb_ge; lia).
    destruct (isTestStopped s) eqn:Es.
    + rewrite tick_stopped by assumption.
      constructor; fields; rewrite ?Hs, ?Em, ?List.length_app, ?Hfirst; simpl;
        try assumption; try (symmetry; assumption); try discriminate.
      no_disposal Hd.
    + destruct (gt (rollingAverage a b s) maxFrameTime) eqn:Eg.
      * rewrite tick_stops by assumption. rewrite recordFrameTime_eq.
        constructor; fields; rewrite ?Hs, ?Em, ?List.length_app, ?Hfirst; simpl;
          try assumption; try (symmetry; assumption); try discriminate.
        -- intros _. split; [|split; [assumption|]].
           ++ unfold push. destruct (logs s); discriminate.
           ++ exists mesh. auto.
        -- apply window_push_length. exact Hw.
        -- rewrite <- !List.app_assoc. simpl. no_disposal Hd.
      * rewrite tick_grows by assumption. unfold grown, cleaned.
        assert (Htm' : testMeshes (counted a b s) = [baselineCube; mesh])
          by (unfold counted; rewrite recordFrameTime_eq; exact Htm).
        rewrite (cleanupMeshes_one _ Htm'). unfold cleanupMesh, counted.
        rewrite recordFrameTime_eq.
        assert (Hrm : scene_remove mesh (scene s) =
                      [ambientLight; directionalLight; baselineCube]).
        { rewrite Hsc, Htm.
          apply (scene_remove_last mesh [ambientLight; directionalLight; baselineCube]).
          intros c [<-|[<-|[<-|[]]]]; simpl; lia. }
        constructor; fields; rewrite ?Hs, ?Em, ?List.length_app, ?Hfirst, ?Hrm; simpl;
          try assumption; try (symmetry; assumption); try discriminate.
        -- intros _. split; [|split; [lia|]].
           ++ unfold push. destruct (logs s); discriminate.
           ++ eexists. split; [reflexivity|]. simpl. split; [reflexivity|lia].
        -- reflexivity.
        -- lia.
        -- apply window_push_length. exact Hw.
        -- rewrite <- !List.app_assoc. simpl.
           intros uid H. apply disposed_app in H. destruct H as [H|H].
           ++ destruct (Hd uid H) as [Hu' _]. split; [lia|].
              intros m [<-|[<-|[]]]; simpl; lia.
           ++ simpl in H.
              assert (uid = obj_uid mesh) as ->
                by (destruct H as [[H|[H|[H|[H|[]]]]]|[H|[H|[H|[H|[]]]]]];
                    congruence).
              split; [lia|]. intros m [<-|[<-|[]]]; simpl; lia.
Qed.
End InvTick.

Section Runs.
Context {fmt : NumberFormat}.

Lemma run_from_app (s : State) (events more : list Event) :
  run_from s (events ++ more) = run_from (run_from s events) more.
Proof. apply List.fold_left_app. Qed.

Lemma run_app (events more : list Event) :
  run (events ++ more) = run_from (run events) more.
Proof. apply run_from_app. Qed.

Lemma run_snoc (events : list Event) (e : Event) :
  run (events ++ [e]) = step (run events) e.
Proof. rewrite run_app. reflexivity. Qed.

Lemma Inv_step (events : list Event) (s : State) (e : Event) :
  Inv events s -> Inv (events ++ [e]) (step s e).
Proof.
  intros I. destruct e as [a b| |ok| |]; simpl.
  - unfold animate. apply Inv_tick.
    rewrite <- (List.app_nil_r events).
    apply (Inv_frame [] _ [RequestAnimationFrame; ControlsUpdate] I);
      try reflexivity.
    + fields. rewrite <- List.app_assoc. reflexivity.
    + intros uid. simpl. intuition discriminate.
  - apply (Inv_frame [CopyClick] (copyResults_begin s) [ClipboardWrite (statusText s)] I);
      try reflexivity.
    intros uid. simpl. intuition discriminate.
  - unfold copyResults_resume. destruct (pendingCopies s) as [|n] eqn:E.
    + apply (Inv_frame [CopySettled ok] _ [] I);
        try reflexivity.
      * symmetry. apply List.app_nil_r.
      * intros uid. simpl. tauto.
    + destruct ok.
      * apply (Inv_frame [CopySettled true] _ [SetTimeout 2000; DetectChanges] I);
          try reflexivity.
        -- fields. rewrite <- List.app_assoc. reflexivity.
        -- intros uid. simpl. intuition discriminate.
      * apply (Inv_frame [CopySettled false] _ [ConsoleError; DetectChanges] I);
          try reflexivity.
        -- fields. rewrite <- List.app_assoc. reflexivity.
        -- intros uid. simpl. intuition discriminate.
  - unfold copyResults_restore. destruct (timers s) as [|originalText rest] eqn:E.
    + apply (Inv_frame [TimerFired] _ [] I);
        try reflexivity.
      * symmetry. apply List.app_nil_r.
      * intros uid. simpl. tauto.
    + apply (Inv_frame [TimerFired] _ [DetectChanges] I);
        try reflexivity.
      intros uid. simpl. intuition discriminate.
  - apply (Inv_frame [CopyThrows] (copyResults_throws s) [ConsoleError; DetectChanges] I);
      try reflexivity.
    + unfold copyResults_throws. fields. rewrite <- List.app_assoc. reflexivity.
    + intros uid. simpl. intuition discriminate.
Qed.

Lemma Inv_run (events : list Event) : Inv events (run events).
Proof.
  induction events as [|e events IH] using List.rev_ind.
  - apply Inv_init.
  - rewrite run_snoc. apply Inv_step. exact IH.
Qed.

Lemma phase_Stepping (s : State) :
  phase s = Stepping <-> isMeasuringBaseline s = false /\ isTestStopped s = false.
Proof.
  unfold phase. destruct (isMeasuringBaseline s), (isTestStopped s);
    split; intros H; try discriminate; try (destruct H; discriminate); auto.
Qed.

Lemma phase_Stopped (s : State) :
  phase s = Stopped <-> isMeasuringBaseline s = false /\ isTestStopped s = true.
Proof.
  unfold phase. destruct (isMeasuringBaseline s), (isTestStopped s);
    split; intros H; try discriminate; try (destruct H; discriminate); auto.
Qed.

Lemma phase_MeasuringBaseline (s : State) :
  phase s = MeasuringBaseline <-> isMeasuringBaseline s = true.
Proof.
  unfold phase. destruct (isMeasuringBaseline s), (isTestStopped s);
    split; intros H; try discriminate; auto.
Qed.
End Runs.

(* ================================================================== *)
(** * The scenario of the specification, computed *)

Section Scenario.
Existing Instance EnUS.format.
Local Open Scope string_scope.

(** The budget is the binary64 quotient 1667 / 100, the value of the
    literal 16.67. *)
Example maxFrameTime_literal : maxFrameTime = (1667 / 100)%float.
Proof. vm_compute. reflexivity. Qed.

(** Sixty frames of 5 ms: the baseline report, 1000 vertices, [Stepping]. *)
Example scenario_baseline :
  let s := run baselineRun in
  phase s = Stepping /\ currentVertexCount s = 1000%Z /\
  baselineFrameTime s = 5%float /\
  statusText s =
    "=== Baseline Performance ===" ++ NL ++
    "Testing with 1,000 vertices" ++ NL ++
    "Baseline: 5.00ms" ++ NL ++
    "=== Performance Testing ===".
Proof. vm_compute. repeat split; reflexivity. Qed.

(** Frames of 10 ms keep the test growing by 1000 vertices each. *)
Example scenario_growth :
  let s := run (baselineRun ++ List.repeat (Frame 0 10) 2) in
  phase s = Stepping /\ currentVertexCount s = 3000%Z /\
  List.last (logs s) "" =
    "Vertices: 3,000 | Baseline: 5.00ms | Current: 10.00ms | FPS: 100.0".
Proof. vm_compute. repeat split; reflexivity. Qed.

(** Frames of 20 ms raise the average; the fifth takes it past the budget
    and the test stops at 7000 vertices with the final report. *)
Example scenario_stop :
  let s := run stoppedRun in
  phase s = Stopped /\ currentVertexCount s = 7000%Z /\
  List.last (logs s) "" =
    "=== Test Results ===" ++ NL ++
    "| Vertices: 7,000 | Baseline: 5.00ms | Final: 17.14ms | FPS: 58.3".
Proof. vm_compute. repeat split; reflexivity. Qed.

(** Further frames add no report. *)
Example scenario_after_stop :
  logs (run (stoppedRun ++ List.repeat (Frame 0 1) 10)) = logs (run stoppedRun).
Proof. vm_compute. reflexivity. Qed.

End Scenario.

(* ================================================================== *)
(** * The sliding window (C2, C7, C10) *)

Lemma fold_left_Qplus (qs : list Q) (a : Q) :
  (fold_left Qplus qs a == a + exactSum qs)%Q.
Proof.
  revert a. induction qs as [|q qs IH]; intros a; simpl.
  - ring.
  - rewrite IH. ring.
Qed.

Lemma averageOver_exactQ (qs : list Q) :
  (averageOver exactQ qs == exactMean qs)%Q.
Proof.
  unfold averageOver, exactMean, reduce. simpl.
  rewrite fold_left_Qplus. rewrite Qplus_0_l. reflexivity.
Qed.


(** C7, as the code has it.  On the empty window the averaging expression
    raises nothing: it completes normally, and its value is NaN (0 / 0).
    It completes normally on every window. *)
Theorem C7_mean_of_empty_window_is_NaN :
  (exists value : float,
     windowMean [] = Normal value /\ PrimFloat.is_nan value = true) /\
  (forall window : list float, exists value : float, windowMean window = Normal value).
Proof.
  split.
  - exists (0 / 0)%float. split; reflexivity.
  - intros window. exists (average window). reflexivity.
Qed.

(** C7, as stated, fails: the mean of the empty window does not fail, with
    [InsufficientData] or with any other error. *)
Lemma C7_mean_of_empty_window_does_not_fail :
  ~ (exists error : string, windowMean [] = Throw error).
Proof. intros [error H]. discriminate H. Qed.

Section SteppingWindow.
Context {fmt : NumberFormat}.

(** C10.  A tick taken in [Stepping] computes its average from the window
    in which the current frame's sample is already the last element: the
    window has between 1 and 60 samples, so the divisor, its length as a
    number, is not zero, and the empty window never reaches the average. *)
Theorem C10_average_divisor_nonzero (events : list Event) (a b : float) :
  let s := run events in
  phase s = Stepping ->
  let window := frameTimes (recordFrameTime a b s) in
  tick a b s =
    (if gt (average window) maxFrameTime
     then updateStatus
            (finalReport (average window) (set_isTestStopped true (recordFrameTime a b s)))
            (set_isTestStopped true (recordFrameTime a b s))
     else updateStatus (progressReport (average window) (grown a b s)) (grown a b s)) /\
  window = window_push (frameTimes s) (b - a)%float /\
  List.last window 0%float = (b - a)%float /\
  window <> [] /\
  1 <= List.length window <= 60 /\
  (number_of_nat (List.length window) =? 0)%float = false /\
  windowMean window =
    Normal (fold_left PrimFloat.add window 0 / number_of_nat (List.length window))%float.
Proof.
  intros s Hp window. apply phase_Stepping in Hp. destruct Hp as [Hm Hs].
  pose proof (Inv_run events) as I. fold s in I.
  assert (E : window = window_push (frameTimes s) (b - a)%float)
    by apply recordFrameTime_window.
  assert (L : 1 <= List.length window <= 60)
    by (rewrite E; apply window_push_length, (inv_window I)).
  split; [|split; [exact E|split; [|split; [|split; [exact L|split]]]]].
  - change (average window) with (rollingAverage a b s).
    destruct (gt (rollingAverage a b s) maxFrameTime) eqn:G.
    + apply tick_stops; assumption.
    + apply tick_grows; assumption.
  - rewrite E. unfold window_push, push, shift.
    destruct (Nat.ltb_spec 60 (List.length (frameTimes s ++ [(b - a)%float]))) as [H|H].
    + rewrite List.length_app in H. simpl in H.
      destruct (frameTimes s) as [|y w]; simpl in *; [lia|]. apply List.last_last.
    + apply List.last_last.
  - intros N. rewrite N in L. simpl in L. lia.
  - apply number_of_nat_nonzero. exact L.
  - reflexivity.
Qed.
End SteppingWindow.

(** C10 on a concrete run: the first tick after sixty baseline frames. *)
Lemma C10_average_divisor_nonzero_witness :
  1 <= List.length (frameTimes (recordFrameTime 0 10 (run (fmt := EnUS.format) baselineRun))) <= 60.
Proof.
  assert (P : phase (run (fmt := EnUS.format) baselineRun) = Stepping)
    by (vm_compute; reflexivity).
  destruct (@C10_average_divisor_nonzero EnUS.format baselineRun 0%float 10%float P)
    as (_ & _ & _ & _ & L & _).
  exact L.
Defined.

(* ================================================================== *)
(** * The three phases (C3, C5, C4) *)

Section Phases.
Context {fmt : NumberFormat}.

Lemma ticks_from_stopped (s : State) (clock : list (float * float)) :
  isMeasuringBaseline s = false -> isTestStopped s = true ->
  ticks_from s clock =
  set_trace (trace s ++ List.repeat (Render (scene s)) (List.length clock)) s.
Proof.
  intros Hm Hs. revert s Hm Hs.
  induction clock as [|[a b] clock IH]; intros s Hm Hs; simpl.
  - rewrite List.app_nil_r. destruct s; reflexivity.
  - rewrite tick_stopped by assumption. rewrite IH by assumption.
    unfold render, emit. fields. rewrite <- List.app_assoc. reflexivity.
Qed.

(** C4.  From a state in which the controller is [Stopped], any number
    of further ticks leaves [currentVertexCount], [baselineFrameTime], the
    two windows, the report lines and the status text as they are, keeps
    the same meshes in the same scene, and stays [Stopped]; all that each
    tick does is one render of that scene. *)
Theorem C4_stopped_ticks_change_nothing (s : State) (clock : list (float * float)) :
  phase s = Stopped ->
  let s' := ticks_from s clock in
  currentVertexCount s' = currentVertexCount s /\
  baselineFrameTime s' = baselineFrameTime s /\
  frameTimes s' = frameTimes s /\
  baselineMeasurements s' = baselineMeasurements s /\
  logs s' = logs s /\
  List.length (logs s') = List.length (logs s) /\
  statusText s' = statusText s /\
  testMeshes s' = testMeshes s /\
  scene s' = scene s /\
  phase s' = Stopped /\
  trace s' = trace s ++ List.repeat (Render (scene s)) (List.length clock).
Proof.
  intros Hp s'. pose proof Hp as Hp'. apply phase_Stopped in Hp' as [Hm Hs].
  unfold s'. rewrite ticks_from_stopped by assumption.
  unfold phase in *. fields. repeat split; try reflexivity. exact Hp.
Qed.
End Phases.

(** C4 on a concrete run: the test of [stoppedRun] has stopped at 7000
    vertices, and three more ticks leave it there. *)
Lemma C4_stopped_ticks_change_nothing_witness :
  currentVertexCount
    (ticks_from (fmt := EnUS.format) (run (fmt := EnUS.format) stoppedRun)
       [(0, 1); (0, 2); (0, 30)]%float) = 7000%Z.
Proof.
  assert (P : phase (run (fmt := EnUS.format) stoppedRun) = Stopped)
    by (vm_compute; reflexivity).
  destruct (@C4_stopped_ticks_change_nothing EnUS.format
              (run (fmt := EnUS.format) stoppedRun) [(0, 1); (0, 2); (0, 30)]%float P)
    as (V & _).
  rewrite V. vm_compute. reflexivity.
Defined.

(* ================================================================== *)
(** * Rounding to binary64 *)

Section Powers.
Local Open Scope R_scope.

Lemma bpow_pos (e : Z) : 0 < powerRZ 2 e.
Proof. apply powerRZ_lt. lra. Qed.

Lemma bpow_add (a b : Z) : powerRZ 2 (a + b) = powerRZ 2 a * powerRZ 2 b.
Proof. apply powerRZ_add. lra. Qed.

Lemma bpow_IZR (k : Z) : (0 <= k)%Z -> powerRZ 2 k = IZR (2 ^ k).
Proof.
  intros H. destruct k as [|p|p]; [reflexivity| |lia].
  symmetry. apply (Zpower_pos_powerRZ 2 p).
Qed.

Lemma bpow_le (a b : Z) : (a <= b)%Z -> powerRZ 2 a <= powerRZ 2 b.
Proof.
  intros H. replace b with (a + (b - a))%Z by lia. rewrite bpow_add.
  rewrite (bpow_IZR (k := b - a)) by lia.
  assert (1 <= IZR (2 ^ (b - a))).
  { apply IZR_le. pose proof (Z.pow_pos_nonneg 2 (b - a)). lia. }
  pose proof (bpow_pos a). nra.
Qed.

Lemma bpow_lt (a b : Z) : (a < b)%Z -> powerRZ 2 a < powerRZ 2 b.
Proof.
  intros H. replace b with (a + (b - a))%Z by lia. rewrite bpow_add.
  rewrite (bpow_IZR (k := b - a)) by lia.
  assert (2 <= IZR (2 ^ (b - a))).
  { apply IZR_le. replace (b - a)%Z with (Z.succ (b - a - 1)) by lia.
    rewrite Z.pow_succ_r by lia.
    pose proof (Z.pow_pos_nonneg 2 (b - a - 1)). lia. }
  pose proof (bpow_pos a). nra.
Qed.

Lemma bpow_lt_inv (a b : Z) : powerRZ 2 a < powerRZ 2 b -> (a < b)%Z.
Proof.
  intros H. destruct (Z.lt_ge_cases a b) as [L|L]; [exact L|].
  apply bpow_le in L. lra.
Qed.
End Powers.

(** ** Digits *)

Lemma digits2_pos_bounds (p : positive) :
  (2 ^ (Zpos (digits2_pos p) - 1) <= Zpos p < 2 ^ Zpos (digits2_pos p))%Z.
Proof.
  induction p as [p IH|p IH|]; cbn [digits2_pos].
  - rewrite Pos2Z.inj_succ.
    replace (Z.succ (Zpos (digits2_pos p)) - 1)%Z with (Z.succ (Zpos (digits2_pos p) - 1)) by lia.
    rewrite !Z.pow_succ_r by lia. lia.
  - rewrite Pos2Z.inj_succ.
    replace (Z.succ (Zpos (digits2_pos p)) - 1)%Z with (Z.succ (Zpos (digits2_pos p) - 1)) by lia.
    rewrite !Z.pow_succ_r by lia. lia.
  - simpl. lia.
Qed.

Lemma digits2_pos_unique (p : positive) (d : Z) :
  (2 ^ (d - 1) <= Zpos p < 2 ^ d)%Z -> Zpos (digits2_pos p) = d.
Proof.
  intros [L U]. pose proof (digits2_pos_bounds p) as [L' U'].
  assert (0 < d)%Z.
  { destruct (Z.lt_ge_cases 0 d) as [H|H]; [exact H|].
    assert (2 ^ d <= 2 ^ 0)%Z by (apply Z.pow_le_mono_r; lia). simpl in *. lia. }
  destruct (Z.lt_trichotomy (Zpos (digits2_pos p)) d) as [H1|[H1|H1]]; [|exact H1|].
  - assert (2 ^ Zpos (digits2_pos p) <= 2 ^ (d - 1))%Z by (apply Z.pow_le_mono_r; lia). lia.
  - assert (2 ^ d <= 2 ^ (Zpos (digits2_pos p) - 1))%Z by (apply Z.pow_le_mono_r; lia). lia.
Qed.

(** ** Shifting right *)

Lemma shr_1_m (mrs : shr_record) :
  (0 <= shr_m mrs)%Z -> shr_m (shr_1 mrs) = (shr_m mrs / 2)%Z.
Proof.
  destruct mrs as [m r s]. cbn [shr_m]. intros H.
  destruct m as [|[p|p|]|p]; simpl;
    first [ reflexivity
          | apply Z.div_unique with (r := 1%Z); lia
          | apply Z.div_unique with (r := 0%Z); lia
          | lia ].
Qed.

Lemma iter_pos_shr_1 (n : positive) (mrs : shr_record) :
  (0 <= shr_m mrs)%Z ->
  shr_m (SpecFloat.iter_pos shr_1 n mrs) = (shr_m mrs / 2 ^ Zpos n)%Z.
Proof.
  revert mrs. induction n as [n IH|n IH|]; intros mrs H; cbn [SpecFloat.iter_pos].
  - assert (H1 : (0 <= shr_m (shr_1 mrs))%Z)
      by (rewrite shr_1_m by exact H; apply Z.div_pos; lia).
    assert (H2 : (0 <= shr_m (SpecFloat.iter_pos shr_1 n (shr_1 mrs)))%Z)
      by (rewrite IH by exact H1; apply Z.div_pos; lia).
    rewrite IH by exact H2. rewrite IH by exact H1. rewrite shr_1_m by exact H.
    rewrite !Z.div_div by lia. f_equal.
    rewrite Pos2Z.inj_xI.
    replace (2 * Zpos n + 1)%Z with (1 + Zpos n + Zpos n)%Z by lia.
    rewrite !Z.pow_add_r by lia. change (2 ^ 1)%Z with 2%Z. ring.
  - assert (H2 : (0 <= shr_m (SpecFloat.iter_pos shr_1 n mrs))%Z)
      by (rewrite IH by exact H; apply Z.div_pos; lia).
    rewrite IH by exact H2. rewrite IH by exact H.
    rewrite !Z.div_div by lia. f_equal.
    rewrite <- Z.pow_add_r by lia. f_equal. lia.
  - rewrite shr_1_m by exact H. reflexivity.
Qed.

Lemma shr_record_of_loc_m (m : Z) (l : location) : shr_m (shr_record_of_loc m l) = m.
Proof. destruct l as [|[]]; reflexivity. Qed.

Lemma round_nearest_even_cases (m : Z) (l : location) :
  round_nearest_even m l = m \/ round_nearest_even m l = (m + 1)%Z.
Proof.
  destruct l as [|[]]; cbn [round_nearest_even]; auto.
  destruct (Z.even m); auto.
Qed.

Lemma Zdigits2_pos (p : positive) : Zdigits2 (Zpos p) = Zpos (digits2_pos p).
Proof. reflexivity. Qed.

Lemma shr_fexp_m (m e : Z) (l : location) (n : Z) :
  (0 <= m)%Z ->
  (fexp prec emax (Zdigits2 m + e) - e = n)%Z ->
  (0 <= n)%Z ->
  exists mrs : shr_record,
    shr_fexp prec emax m e l = (mrs, (e + n)%Z) /\ shr_m mrs = (m / 2 ^ n)%Z.
Proof.
  intros Hm Hn Hpos. unfold shr_fexp. rewrite Hn. unfold shr.
  destruct n as [|p|p]; [| |lia].
  - exists (shr_record_of_loc m l). split.
    + f_equal. lia.
    + rewrite shr_record_of_loc_m. simpl. symmetry. apply Z.div_1_r.
  - exists (SpecFloat.iter_pos shr_1 p (shr_record_of_loc m l)). split; [reflexivity|].
    rewrite iter_pos_shr_1 by (rewrite shr_record_of_loc_m; exact Hm).
    rewrite shr_record_of_loc_m. reflexivity.
Qed.

(** Rounding a number of at least 53 digits, in the range of the normal
    numbers: the result is one of the two neighbours of the number among
    the multiples of the unit in the last place. *)
Lemma binary_round_aux_neighbours (s : bool) (p : positive) (e : Z) (l : location) :
  let d := Zpos (digits2_pos p) in
  let n := (d - 53)%Z in
  (0 <= n)%Z ->
  (-1021 <= d + e <= 1023)%Z ->
  exists (m' : positive) (e' : Z),
    binary_round_aux prec emax s (Zpos p) e l = S754_finite s m' e' /\
    (2 ^ 52 <= Zpos p / 2 ^ n < 2 ^ 53)%Z /\
    (IZR (Zpos m') * powerRZ 2 e' = IZR (Zpos p / 2 ^ n) * powerRZ 2 (e + n) \/
     IZR (Zpos m') * powerRZ 2 e' = IZR (Zpos p / 2 ^ n + 1) * powerRZ 2 (e + n))%R.
Proof.
  intros d n Hn Hr.
  pose proof (digits2_pos_bounds p) as [Lp Up]. fold d in Lp, Up.
  assert (Pn : (0 < 2 ^ n)%Z) by (apply Z.pow_pos_nonneg; lia).
  assert (Hd : (2 ^ d = 2 ^ 53 * 2 ^ n)%Z).
  { rewrite <- Z.pow_add_r by lia. f_equal. unfold n. lia. }
  assert (Hd1 : (2 ^ (d - 1) = 2 ^ 52 * 2 ^ n)%Z).
  { rewrite <- Z.pow_add_r by lia. f_equal. unfold n. lia. }
  set (m0 := (Zpos p / 2 ^ n)%Z).
  assert (B0 : (2 ^ 52 <= m0 < 2 ^ 53)%Z).
  { split.
    - apply Z.div_le_lower_bound; [exact Pn|]. lia.
    - apply Z.div_lt_upper_bound; [exact Pn|]. lia. }
  unfold binary_round_aux.
  destruct (@shr_fexp_m (Zpos p) e l n) as (mrs & E1 & M1); [lia| |exact Hn|].
  { rewrite Zdigits2_pos. fold d. unfold fexp, SpecFloat.emin, prec, emax. lia. }
  rewrite E1. fold m0 in M1. rewrite M1.
  set (r := round_nearest_even m0 (loc_of_shr_record mrs)).
  assert (Hr1 : r = m0 \/ r = (m0 + 1)%Z) by apply round_nearest_even_cases.
  assert (Hrpos : (0 < r)%Z) by lia.
  destruct r as [|q|q] eqn:Er; [lia| |lia].
  destruct (Z.lt_ge_cases (Zpos q) (2 ^ 53)) as [Hlt|Hge].
  - (* no second shift *)
    assert (Dq : Zpos (digits2_pos q) = 53%Z).
    { apply digits2_pos_unique. change (53 - 1)%Z with 52%Z. lia. }
    destruct (@shr_fexp_m (Zpos q) (e + n) loc_Exact 0) as (mrs2 & E2 & M2); [lia| |lia|].
    { rewrite Zdigits2_pos, Dq. unfold fexp, SpecFloat.emin, prec, emax. unfold n. lia. }
    rewrite E2, M2. change (2 ^ 0)%Z with 1%Z. rewrite Z.div_1_r.
    replace (Z.leb (e + n + 0) (emax - prec)) with true
      by (symmetry; apply Z.leb_le; unfold emax, prec, n; lia).
    exists q, (e + n + 0)%Z. split; [reflexivity|]. split; [exact B0|].
    replace (e + n + 0)%Z with (e + n)%Z by lia.
    destruct Hr1 as [H|H]; rewrite H; auto.
  - (* the mantissa has reached 2^53 *)
    assert (Eq : Zpos q = (2 ^ 53)%Z) by lia.
    assert (Dq : Zpos (digits2_pos q) = 54%Z).
    { apply digits2_pos_unique. rewrite Eq. change (54 - 1)%Z with 53%Z.
      split; [lia|]. apply Z.pow_lt_mono_r; lia. }
    destruct (@shr_fexp_m (Zpos q) (e + n) loc_Exact 1) as (mrs2 & E2 & M2); [lia| |lia|].
    { rewrite Zdigits2_pos, Dq. unfold fexp, SpecFloat.emin, prec, emax. unfold n. lia. }
    rewrite E2, M2, Eq.
    change (2 ^ 53 / 2 ^ 1)%Z with (Zpos 4503599627370496).
    replace (Z.leb (e + n + 1) (emax - prec)) with true
      by (symmetry; apply Z.leb_le; unfold emax, prec, n; lia).
    exists 4503599627370496%positive, (e + n + 1)%Z. split; [reflexivity|].
    split; [exact B0|]. right.
    assert (Hm0 : (m0 + 1 = 2 ^ 53)%Z) by lia. rewrite Hm0.
    rewrite bpow_add. change (powerRZ 2 1) with (2 * 1)%R.
    change (2 ^ 53)%Z with (2 * 4503599627370496)%Z. rewrite mult_IZR. ring.
Qed.

(** ** From neighbours to a relative error *)

Section Relative.
Local Open Scope R_scope.

(** The unit roundoff used below: one unit in the last place of a number
    of 53 digits. *)
Lemma delta_value : powerRZ 2 (-52) * 4503599627370496 = 1.
Proof.
  change 4503599627370496 with (IZR (2 ^ 52)).
  rewrite <- (bpow_IZR (k := 52)) by lia. rewrite <- bpow_add. reflexivity.
Qed.

Lemma F2R_shift (m k e : Z) :
  (0 <= k)%Z -> IZR (m * 2 ^ k) * powerRZ 2 e = IZR m * powerRZ 2 (e + k).
Proof.
  intros H. rewrite mult_IZR, bpow_add, (bpow_IZR (k := k)) by exact H. ring.
Qed.

Lemma neighbours_relative (m0 E : Z) (T r : R) :
  (2 ^ 52 <= m0)%Z ->
  IZR m0 * powerRZ 2 E <= T <= IZR (m0 + 1) * powerRZ 2 E ->
  r = IZR m0 * powerRZ 2 E \/ r = IZR (m0 + 1) * powerRZ 2 E ->
  T * (1 - powerRZ 2 (-52)) <= r <= T * (1 + powerRZ 2 (-52)).
Proof.
  intros Hm [L U] Hr. pose proof delta_value as D.
  pose proof (bpow_pos E) as PE. pose proof (bpow_pos (-52)) as Pd.
  set (u := powerRZ 2 E) in *. set (dl := powerRZ 2 (-52)) in *.
  rewrite plus_IZR in *.
  assert (Hm' : 4503599627370496 <= IZR m0).
  { change 4503599627370496 with (IZR (2 ^ 52)). apply IZR_le. exact Hm. }
  assert (Hu : u <= T * dl).
  { assert (u = IZR (2 ^ 52) * u * dl) by (change (IZR (2 ^ 52)) with 4503599627370496; nra).
    change (IZR (2 ^ 52)) with 4503599627370496 in H. nra. }
  destruct Hr as [-> | ->]; split; nra.
Qed.

(** Rounding a number [T] that lies between [p 2^e] and [(p + 1) 2^e],
    [p] of at least 53 digits. *)
Lemma binary_round_aux_relative (s : bool) (p : positive) (e : Z) (l : location) (T : R) :
  (53 <= Zpos (digits2_pos p))%Z ->
  (-1021 <= Zpos (digits2_pos p) + e <= 1023)%Z ->
  IZR (Zpos p) * powerRZ 2 e <= T <= IZR (Zpos p + 1) * powerRZ 2 e ->
  exists (m' : positive) (e' : Z),
    binary_round_aux prec emax s (Zpos p) e l = S754_finite s m' e' /\
    T * (1 - powerRZ 2 (-52)) <= IZR (Zpos m') * powerRZ 2 e' <= T * (1 + powerRZ 2 (-52)).
Proof.
  intros Hd Hr [L U].
  destruct (@binary_round_aux_neighbours s p e l ltac:(lia) Hr) as (m' & e' & E & B0 & Hv).
  exists m', e'. split; [exact E|].
  set (n := (Zpos (digits2_pos p) - 53)%Z) in *.
  assert (Hn : (0 <= n)%Z) by (unfold n; lia).
  assert (Pn : (0 < 2 ^ n)%Z) by (apply Z.pow_pos_nonneg; lia).
  set (m0 := (Zpos p / 2 ^ n)%Z) in *.
  assert (Hdiv : (m0 * 2 ^ n <= Zpos p < (m0 + 1) * 2 ^ n)%Z).
  { pose proof (Z.div_mod (Zpos p) (2 ^ n) ltac:(lia)) as DM.
    pose proof (Z.mod_pos_bound (Zpos p) (2 ^ n) Pn) as MB.
    fold m0 in DM. lia. }
  apply (@neighbours_relative m0 (e + n) T); [lia| |exact Hv].
  rewrite <- !F2R_shift by exact Hn.
  pose proof (bpow_pos e) as Pe.
  assert (IZR (m0 * 2 ^ n) <= IZR (Zpos p)) by (apply IZR_le; lia).
  assert (IZR (Zpos p + 1) <= IZR ((m0 + 1) * 2 ^ n)) by (apply IZR_le; lia).
  split; nra.
Qed.
End Relative.

(** ** Normalisation before rounding *)

Lemma shl_align_spec (mx : positive) (ex ex' : Z) :
  (ex' < ex ->
   exists mz : positive,
     shl_align mx ex ex' = (mz, ex') /\ Zpos mz = Zpos mx * 2 ^ (ex - ex'))%Z /\
  (ex <= ex' -> shl_align mx ex ex' = (mx, ex))%Z.
Proof.
  unfold shl_align. split; intros H.
  - destruct (ex' - ex)%Z as [|d|d] eqn:E; try lia.
    exists (Pos.iter xO mx d). split; [reflexivity|].
    change (Pos.iter xO mx d) with (shift_pos d mx). rewrite shift_pos_correct.
    replace (ex - ex')%Z with (Zpos d) by lia. rewrite Z.mul_comm. reflexivity.
  - destruct (ex' - ex)%Z as [|d|d] eqn:E; try lia; reflexivity.
Qed.

Lemma digits2_pos_shift (p q : positive) (k : Z) :
  (0 <= k)%Z -> Zpos q = (Zpos p * 2 ^ k)%Z ->
  Zpos (digits2_pos q) = (Zpos (digits2_pos p) + k)%Z.
Proof.
  intros Hk E. pose proof (digits2_pos_bounds p) as [L U].
  apply digits2_pos_unique. rewrite E.
  replace (Zpos (digits2_pos p) + k - 1)%Z with (Zpos (digits2_pos p) - 1 + k)%Z by lia.
  rewrite !Z.pow_add_r by lia.
  assert (0 < 2 ^ k)%Z by (apply Z.pow_pos_nonneg; lia). nia.
Qed.

Section RoundedOperations.
Local Open Scope R_scope.

(** The exponent range that the digits of a number in range give. *)
Lemma digits_range (p : positive) (e : Z) (lo hi : Z) :
  powerRZ 2 lo <= IZR (Zpos p + 1) * powerRZ 2 e ->
  IZR (Zpos p) * powerRZ 2 e < powerRZ 2 hi ->
  (lo <= Zpos (digits2_pos p) + e <= hi)%Z.
Proof.
  intros L U. pose proof (digits2_pos_bounds p) as [Lp Up].
  set (d := Zpos (digits2_pos p)) in *.
  assert (0 < d)%Z by (unfold d; lia).
  pose proof (bpow_pos e) as Pe.
  assert (L1 : powerRZ 2 (d - 1 + e) <= IZR (Zpos p) * powerRZ 2 e).
  { rewrite bpow_add, (bpow_IZR (k := d - 1)) by lia.
    assert (IZR (2 ^ (d - 1)) <= IZR (Zpos p)) by (apply IZR_le; exact Lp). nra. }
  assert (U1 : IZR (Zpos p + 1) * powerRZ 2 e <= powerRZ 2 (d + e)).
  { rewrite bpow_add, (bpow_IZR (k := d)) by lia.
    assert (IZR (Zpos p + 1) <= IZR (2 ^ d)) by (apply IZR_le; lia). nra. }
  assert (powerRZ 2 (d - 1 + e) < powerRZ 2 hi) by lra.
  apply bpow_lt_inv in H0.
  destruct (Z.lt_ge_cases (d + e) lo) as [C|C]; [|lia].
  assert (powerRZ 2 (d + e) < powerRZ 2 lo) by (apply bpow_lt; exact C). lra.
Qed.

(** Rounding the number [p 2^e], whatever its number of digits. *)
Lemma binary_round_relative (s : bool) (p : positive) (e : Z) :
  powerRZ 2 (-1020) <= IZR (Zpos p) * powerRZ 2 e < powerRZ 2 1022 ->
  exists (m' : positive) (e' : Z),
    binary_round prec emax s p e = S754_finite s m' e' /\
    IZR (Zpos p) * powerRZ 2 e * (1 - powerRZ 2 (-52))
      <= IZR (Zpos m') * powerRZ 2 e'
      <= IZR (Zpos p) * powerRZ 2 e * (1 + powerRZ 2 (-52)).
Proof.
  intros [L U]. pose proof (bpow_pos e) as Pe.
  assert (Hle : IZR (Zpos p) * powerRZ 2 e <= IZR (Zpos p + 1) * powerRZ 2 e).
  { rewrite plus_IZR. nra. }
  destruct (@digits_range p e (-1020) 1022 ltac:(lra) U) as [Dl Du].
  set (d := Zpos (digits2_pos p)) in *.
  unfold binary_round. fold d.
  assert (Hf : fexp prec emax (d + e) = (d + e - 53)%Z)
    by (unfold fexp, SpecFloat.emin, prec, emax; lia).
  rewrite Hf.
  destruct (shl_align_spec p e (d + e - 53)) as [Hshift Hkeep].
  destruct (Z.lt_ge_cases (d + e - 53) e) as [C|C].
  - destruct (Hshift C) as (mz & E & Ez). rewrite E.
    assert (Dz : Zpos (digits2_pos mz) = 53%Z).
    { rewrite (@digits2_pos_shift p mz (e - (d + e - 53))) by (lia || exact Ez).
      fold d. lia. }
    assert (V : IZR (Zpos mz) * powerRZ 2 (d + e - 53) = IZR (Zpos p) * powerRZ 2 e).
    { rewrite Ez, F2R_shift by lia. f_equal. f_equal. lia. }
    destruct (@binary_round_aux_relative s mz (d + e - 53) loc_Exact
                (IZR (Zpos p) * powerRZ 2 e))
      as (m' & e' & R1 & R2).
    + rewrite Dz. lia.
    + rewrite Dz. lia.
    + rewrite <- V. pose proof (bpow_pos (d + e - 53)). rewrite plus_IZR. split; nra.
    + exists m', e'. split; [exact R1|exact R2].
  - rewrite (Hkeep C).
    destruct (@binary_round_aux_relative s p e loc_Exact (IZR (Zpos p) * powerRZ 2 e))
      as (m' & e' & R1 & R2).
    + fold d. lia.
    + fold d. lia.
    + split; lra.
    + exists m', e'. split; [exact R1|exact R2].
Qed.
End RoundedOperations.

Section Operations.
Local Open Scope R_scope.

Lemma shl_align_fst (mx : positive) (ex ez : Z) :
  (ez <= ex)%Z -> Zpos (fst (shl_align mx ex ez)) = (Zpos mx * 2 ^ (ex - ez))%Z.
Proof.
  intros H. destruct (shl_align_spec mx ex ez) as [Hshift Hkeep].
  destruct (Z.lt_ge_cases ez ex) as [C|C].
  - destruct (Hshift C) as (mz & E & Ez). rewrite E. exact Ez.
  - rewrite (Hkeep C). cbn [fst]. replace (ex - ez)%Z with 0%Z by lia.
    change (2 ^ 0)%Z with 1%Z. lia.
Qed.

(** The sum of two positive numbers, rounded. *)
Lemma SFadd_relative (mx my : positive) (ex ey : Z) :
  let T := IZR (Zpos mx) * powerRZ 2 ex + IZR (Zpos my) * powerRZ 2 ey in
  powerRZ 2 (-1020) <= T < powerRZ 2 1022 ->
  exists (m' : positive) (e' : Z),
    SFadd prec emax (S754_finite false mx ex) (S754_finite false my ey) =
      S754_finite false m' e' /\
    T * (1 - powerRZ 2 (-52)) <= IZR (Zpos m') * powerRZ 2 e' <= T * (1 + powerRZ 2 (-52)).
Proof.
  intros T HT. unfold SFadd. cbn [cond_Zopp].
  set (ez := Z.min ex ey).
  pose proof (@shl_align_fst mx ex ez ltac:(unfold ez; lia)) as Ea.
  pose proof (@shl_align_fst my ey ez ltac:(unfold ez; lia)) as Eb.
  set (a := fst (shl_align mx ex ez)) in *. set (b := fst (shl_align my ey ez)) in *.
  change (Zpos a + Zpos b)%Z with (Zpos (a + b)). cbn [binary_normalize].
  assert (V : IZR (Zpos (a + b)) * powerRZ 2 ez = T).
  { rewrite Pos2Z.inj_add, plus_IZR, Ea, Eb, Rmult_plus_distr_r.
    rewrite !F2R_shift by (unfold ez; lia). unfold T.
    replace (ez + (ex - ez))%Z with ex by lia.
    replace (ez + (ey - ez))%Z with ey by lia. reflexivity. }
  destruct (@binary_round_relative false (a + b)%positive ez) as (m' & e' & R1 & R2).
  - rewrite V. exact HT.
  - exists m', e'. split; [exact R1|]. rewrite V in R2. exact R2.
Qed.

(** The quotient of two positive normal numbers, rounded. *)
Lemma SFdiv_relative (mx my : positive) (ex ey : Z) :
  Zpos (digits2_pos mx) = 53%Z -> Zpos (digits2_pos my) = 53%Z ->
  let T := IZR (Zpos mx) * powerRZ 2 ex / (IZR (Zpos my) * powerRZ 2 ey) in
  powerRZ 2 (-1020) <= T < powerRZ 2 1022 ->
  exists (m' : positive) (e' : Z),
    SFdiv prec emax (S754_finite false mx ex) (S754_finite false my ey) =
      S754_finite false m' e' /\
    T * (1 - powerRZ 2 (-52)) <= IZR (Zpos m') * powerRZ 2 e' <= T * (1 + powerRZ 2 (-52)).
Proof.
  intros Dx Dy T [TL TU].
  pose proof (digits2_pos_bounds mx) as [Lx Ux]. rewrite Dx in Lx, Ux.
  pose proof (digits2_pos_bounds my) as [Ly Uy]. rewrite Dy in Ly, Uy.
  change (53 - 1)%Z with 52%Z in Lx, Ly.
  assert (X52 : 4503599627370496 <= IZR (Zpos mx) < 9007199254740992).
  { change 4503599627370496 with (IZR (2 ^ 52)).
    change 9007199254740992 with (IZR (2 ^ 53)). split; [apply IZR_le|apply IZR_lt]; lia. }
  assert (Y52 : 4503599627370496 <= IZR (Zpos my) < 9007199254740992).
  { change 4503599627370496 with (IZR (2 ^ 52)).
    change 9007199254740992 with (IZR (2 ^ 53)). split; [apply IZR_le|apply IZR_lt]; lia. }
  pose proof (bpow_pos ex) as Pex. pose proof (bpow_pos ey) as Pey.
  pose proof (bpow_pos (ex - ey)) as Pd.
  assert (TY : T * IZR (Zpos my) = IZR (Zpos mx) * powerRZ 2 (ex - ey)).
  { unfold T. replace (ex - ey)%Z with (ex + - ey)%Z by lia.
    rewrite bpow_add, powerRZ_neg'. field. split; lra. }
  (* the exponent difference is in range *)
  assert (Hexp : (-1020 <= ex - ey <= 1022)%Z).
  { split.
    - destruct (Z.lt_ge_cases (ex - ey) (-1020)) as [C|C]; [|lia].
      assert (powerRZ 2 (ex - ey + 1) <= powerRZ 2 (-1020)) by (apply bpow_le; lia).
      rewrite bpow_add in H. change (powerRZ 2 1) with (2 * 1) in H. nra.
    - destruct (Z.lt_ge_cases 1022 (ex - ey)) as [C|C]; [|lia].
      assert (powerRZ 2 (1022 + 1) <= powerRZ 2 (ex - ey)) by (apply bpow_le; lia).
      rewrite bpow_add in H. change (powerRZ 2 1) with (2 * 1) in H.
      pose proof (bpow_pos 1022). nra. }
  unfold SFdiv, SFdiv_core_binary. rewrite !Zdigits2_pos, Dx, Dy.
  replace (fexp prec emax (53 + ex - (53 + ey)))%Z with (ex - ey - 53)%Z
    by (unfold fexp, SpecFloat.emin, prec, emax; lia).
  replace (Z.min (ex - ey - 53) (ex - ey))%Z with (ex - ey - 53)%Z by lia.
  replace (ex - ey - (ex - ey - 53))%Z with 53%Z by lia.
  rewrite Z.shiftl_mul_pow2 by lia.
  pose proof (Z_div_mod (Zpos mx * 2 ^ 53) (Zpos my) ltac:(lia)) as DM.
  destruct (Z.div_eucl (Zpos mx * 2 ^ 53) (Zpos my)) as [q r].
  destruct DM as [DM Hr].
  assert (Q : (2 ^ 52 <= q < 2 ^ 54)%Z).
  { change (2 ^ 52)%Z with 4503599627370496%Z in *.
    change (2 ^ 53)%Z with 9007199254740992%Z in *.
    change (2 ^ 54)%Z with 18014398509481984%Z. split; nia. }
  destruct q as [|pq|pq]; try lia.
  set (e' := (ex - ey - 53)%Z).
  assert (U : powerRZ 2 (ex - ey) = 9007199254740992 * powerRZ 2 e').
  { replace (ex - ey)%Z with (e' + 53)%Z by (unfold e'; lia).
    rewrite bpow_add, (bpow_IZR (k := 53)) by lia.
    change (IZR (2 ^ 53)) with 9007199254740992. ring. }
  pose proof (bpow_pos e') as Pe'.
  assert (TQ : T * IZR (Zpos my) = (IZR (Zpos pq) * IZR (Zpos my) + IZR r) * powerRZ 2 e').
  { rewrite TY, U. rewrite <- mult_IZR, <- plus_IZR.
    replace (Zpos pq * Zpos my + r)%Z with (Zpos mx * 2 ^ 53)%Z by lia.
    rewrite mult_IZR. change (IZR (2 ^ 53)) with 9007199254740992. ring. }
  assert (R0 : 0 <= IZR r < IZR (Zpos my)) by (split; [apply IZR_le|apply IZR_lt]; lia).
  assert (B : IZR (Zpos pq) * powerRZ 2 e' <= T <= IZR (Zpos pq + 1) * powerRZ 2 e').
  { rewrite plus_IZR. split.
    - apply Rmult_le_reg_r with (IZR (Zpos my)); [lra|]. rewrite TQ. nra.
    - apply Rmult_le_reg_r with (IZR (Zpos my)); [lra|]. rewrite TQ. nra. }
  assert (Dq : (53 <= Zpos (digits2_pos pq))%Z).
  { pose proof (digits2_pos_bounds pq) as [_ Uq].
    destruct (Z.lt_ge_cases (Zpos (digits2_pos pq)) 53) as [C|C]; [|lia].
    assert (2 ^ Zpos (digits2_pos pq) <= 2 ^ 52)%Z by (apply Z.pow_le_mono_r; lia). lia. }
  destruct (@digits_range pq e' (-1020) 1022) as [Rl Ru]; [lra|lra|].
  destruct (@binary_round_aux_relative false pq e' (new_location (Zpos my) r) T Dq
              ltac:(lia) B) as (m' & e'' & R1 & R2).
  exists m', e''. split; [exact R1|exact R2].
Qed.
End Operations.

(** ** The average of identical samples *)

Section IdenticalSamples.
Local Open Scope R_scope.

(** A binary64 number between 2^-1000 and 2^1000 is positive and normal. *)
Lemma in_range_normal (v : float) :
  (0x1p-1000 <=? v)%float = true -> (v <=? 0x1p1000)%float = true ->
  exists (m : positive) (e : Z),
    Prim2SF v = S754_finite false m e /\
    Zpos (digits2_pos m) = 53%Z /\ (-1052 <= e <= 948)%Z.
Proof.
  intros L U. rewrite FloatAxioms.leb_spec in L, U.
  pose proof (Prim2SF_valid v) as Hv.
  replace (Prim2SF 0x1p-1000) with (S754_finite false 4503599627370496 (-1052)) in L
    by (vm_compute; reflexivity).
  replace (Prim2SF 0x1p1000) with (S754_finite false 4503599627370496 948) in U
    by (vm_compute; reflexivity).
  destruct (Prim2SF v) as [[]|[]| |[] m e]; try discriminate.
  unfold SFleb, SFcompare in L, U.
  assert (He : (-1052 <= e <= 948)%Z).
  { split.
    - destruct (Z.compare_spec (-1052) e); first [lia|discriminate].
    - destruct (Z.compare_spec e 948); first [lia|discriminate]. }
  exists m, e. split; [reflexivity|]. split; [|exact He].
  unfold valid_binary, bounded, canonical_mantissa in Hv.
  apply andb_prop in Hv as [Hc _]. apply Z.eqb_eq in Hc.
  unfold fexp, SpecFloat.emin, prec, emax in Hc. lia.
Qed.

(** A valid number that is not tiny has 53 digits. *)
Lemma valid_digits (x : float) (m : positive) (e : Z) :
  Prim2SF x = S754_finite false m e ->
  powerRZ 2 (-1020) <= IZR (Zpos m) * powerRZ 2 e ->
  Zpos (digits2_pos m) = 53%Z.
Proof.
  intros E L. pose proof (Prim2SF_valid x) as Hv. rewrite E in Hv.
  unfold valid_binary, bounded, canonical_mantissa in Hv.
  apply andb_prop in Hv as [Hc _]. apply Z.eqb_eq in Hc.
  pose proof (digits2_pos_bounds m) as [_ Um].
  set (d := Zpos (digits2_pos m)) in *.
  assert (0 < d)%Z by (unfold d; lia).
  assert (Hlt : powerRZ 2 (-1020) < powerRZ 2 (d + e)).
  { rewrite (bpow_add d e), (bpow_IZR (k := d)) by lia.
    assert (IZR (Zpos m) < IZR (2 ^ d)) by (apply IZR_lt; exact Um).
    pose proof (bpow_pos e). nra. }
  apply bpow_lt_inv in Hlt.
  unfold fexp, SpecFloat.emin, prec, emax in Hc. lia.
Qed.

Variable v : float.
Variable m : positive.
Variable e : Z.
Hypothesis Hv : Prim2SF v = S754_finite false m e.
Hypothesis Hd : Zpos (digits2_pos m) = 53%Z.
Hypothesis He : (-1052 <= e <= 948)%Z.

Lemma sample_range :
  powerRZ 2 (-1000) <= IZR (Zpos m) * powerRZ 2 e < powerRZ 2 1001.
Proof.
  pose proof (digits2_pos_bounds m) as [Lm Um]. rewrite Hd in Lm, Um.
  change (53 - 1)%Z with 52%Z in Lm.
  assert (L : IZR (2 ^ 52) <= IZR (Zpos m)) by (apply IZR_le; exact Lm).
  assert (U : IZR (Zpos m) < IZR (2 ^ 53)) by (apply IZR_lt; exact Um).
  rewrite <- (bpow_IZR (k := 52)) in L by lia.
  rewrite <- (bpow_IZR (k := 53)) in U by lia.
  pose proof (bpow_pos e) as Pe. split.
  - apply Rle_trans with (powerRZ 2 52 * powerRZ 2 e); [|nra].
    rewrite <- bpow_add. apply bpow_le. lia.
  - apply Rlt_le_trans with (powerRZ 2 53 * powerRZ 2 e); [nra|].
    rewrite <- bpow_add. apply bpow_le. lia.
Qed.

(** The sum of [k] copies of [v], added one after the other from 0. *)
Lemma sum_of_identical (k : nat) :
  (k < 60)%nat ->
  exists (mk : positive) (ek : Z),
    Prim2SF (fold_left PrimFloat.add (List.repeat v (S k)) 0%float) =
      S754_finite false mk ek /\
    let V := IZR (Zpos m) * powerRZ 2 e in
    let n := IZR (Z.of_nat (S k)) in
    n * V * (1 - n * powerRZ 2 (-52)) <= IZR (Zpos mk) * powerRZ 2 ek
      <= n * V * (1 + n * powerRZ 2 (-52)).
Proof.
  pose proof sample_range as [VL VU]. pose proof delta_value as D.
  pose proof (bpow_pos (-52)) as Pd.
  set (V := IZR (Zpos m) * powerRZ 2 e) in *.
  set (dl := powerRZ 2 (-52)) in *.
  assert (V0 : 0 < V) by (pose proof (bpow_pos (-1000)); lra).
  induction k as [|k IH]; intros Hk.
  - exists m, e. split.
    + cbn [List.repeat fold_left]. rewrite FloatAxioms.add_spec, Hv. reflexivity.
    + cbv zeta. change (IZR (Z.of_nat 1)) with 1. fold V. split; nra.
  - destruct (IH ltac:(lia)) as (mk & ek & Ek & Bk). cbv zeta in Bk.
    assert (Kr : 1 <= IZR (Z.of_nat (S k)) <= 59).
    { split; apply IZR_le; lia. }
    assert (Nn : IZR (Z.of_nat (S (S k))) = IZR (Z.of_nat (S k)) + 1).
    { rewrite (Nat2Z.inj_succ (S k)), succ_IZR. reflexivity. }
    set (n := IZR (Z.of_nat (S k))) in *.
    assert (Hnd : n * dl <= 1) by nra.
    set (Sk := IZR (Zpos mk) * powerRZ 2 ek) in *.
    assert (Sk0 : 0 <= Sk).
    { apply Rle_trans with (n * V * (1 - n * dl)); [|tauto].
      apply Rmult_le_pos; [apply Rmult_le_pos|]; lra. }
    assert (Sk1 : Sk <= 118 * V).
    { apply Rle_trans with (n * V * (1 + n * dl)); [tauto|].
      replace (118 * V) with (59 * V * 2) by ring.
      apply Rmult_le_compat; nra. }
    assert (TL : powerRZ 2 (-1020) <= Sk + V).
    { pose proof (@bpow_le (-1020) (-1000) ltac:(lia)). lra. }
    assert (TU : Sk + V < powerRZ 2 1022).
    { assert (Sk + V <= 128 * V) by lra.
      assert (E21 : powerRZ 2 1022 = powerRZ 2 1001 * 2097152).
      { change 1022%Z with (1001 + 21)%Z. rewrite bpow_add, (bpow_IZR (k := 21)) by lia.
        reflexivity. }
      rewrite E21. nra. }
    destruct (@SFadd_relative mk m ek e (conj TL TU)) as (m' & e' & E' & B').
    fold Sk V dl in B'.
    exists m', e'. split.
    + change (List.repeat v (S (S k))) with (v :: List.repeat v (S k)).
      rewrite List.repeat_cons, List.fold_left_app. cbn [fold_left].
      rewrite FloatAxioms.add_spec, Ek, Hv. exact E'.
    + cbv zeta. rewrite Nn. fold V dl.
      set (r := IZR (Zpos m') * powerRZ 2 e') in *.
      assert (dl1 : dl <= 1) by nra.
      assert (U1 : (Sk + V) * (1 + dl) <= (n * V * (1 + n * dl) + V) * (1 + dl))
        by (apply Rmult_le_compat_r; lra).
      assert (U2 : (n * V * (1 + n * dl) + V) * (1 + dl) =
                   (n + 1) * V * (1 + (n + 1) * dl) - V * dl * n * (1 - n * dl)) by ring.
      assert (U3 : 0 <= V * dl * n * (1 - n * dl))
        by (apply Rmult_le_pos; [apply Rmult_le_pos; [apply Rmult_le_pos|]|]; lra).
      assert (L1 : (n * V * (1 - n * dl) + V) * (1 - dl) <= (Sk + V) * (1 - dl))
        by (apply Rmult_le_compat_r; lra).
      assert (L2 : (n * V * (1 - n * dl) + V) * (1 - dl) =
                   (n + 1) * V * (1 - (n + 1) * dl) + V * dl * n * (1 + n * dl)) by ring.
      assert (L3 : 0 <= V * dl * n * (1 + n * dl))
        by (apply Rmult_le_pos; [apply Rmult_le_pos; [apply Rmult_le_pos|]|]; nra).
      split; lra.
Qed.

(** The average of 60 copies of [v]. *)
Lemma mean_of_identical_normal :
  exists (ma : positive) (ea : Z),
    Prim2SF (fold_left PrimFloat.add (List.repeat v 60) 0 / 60)%float =
      S754_finite false ma ea /\
    let V := IZR (Zpos m) * powerRZ 2 e in
    Rabs (IZR (Zpos ma) * powerRZ 2 ea - V) <= V * powerRZ 2 (-46).
Proof.
  pose proof sample_range as [VL VU]. pose proof delta_value as D.
  pose proof (bpow_pos (-52)) as Pd.
  destruct (@sum_of_identical 59 ltac:(lia)) as (mk & ek & Ek & Bk). cbv zeta in Bk.
  change (IZR (Z.of_nat 60)) with 60 in Bk.
  set (V := IZR (Zpos m) * powerRZ 2 e) in *.
  set (dl := powerRZ 2 (-52)) in *.
  assert (V0 : 0 < V) by (pose proof (bpow_pos (-1000)); lra).
  assert (B20 : powerRZ 2 (-1000) = powerRZ 2 (-1020) * 1048576).
  { change (-1000)%Z with (-1020 + 20)%Z. rewrite bpow_add, (bpow_IZR (k := 20)) by lia.
    reflexivity. }
  pose proof (bpow_pos (-1020)) as P20.
  set (Sk := IZR (Zpos mk) * powerRZ 2 ek) in *.
  assert (SkL : 30 * V <= Sk) by nra.
  assert (SkU : Sk <= 120 * V) by nra.
  assert (Dk : Zpos (digits2_pos mk) = 53%Z).
  { apply (@valid_digits (fold_left PrimFloat.add (List.repeat v 60) 0%float) mk ek Ek).
    fold Sk. nra. }
  assert (E60 : IZR (Zpos 8444249301319680) * powerRZ 2 (-47) = 60).
  { change (Zpos 8444249301319680) with (60 * 2 ^ 47)%Z.
    rewrite F2R_shift by lia. change (-47 + 47)%Z with 0%Z. simpl. ring. }
  assert (TR : powerRZ 2 (-1020)
               <= Sk / (IZR (Zpos 8444249301319680) * powerRZ 2 (-47)) < powerRZ 2 1022).
  { rewrite E60.
    assert (E21 : powerRZ 2 1022 = powerRZ 2 1001 * 2097152).
    { change 1022%Z with (1001 + 21)%Z. rewrite bpow_add, (bpow_IZR (k := 21)) by lia.
      reflexivity. }
    rewrite E21. split; [apply Rmult_le_reg_r with 60|apply Rmult_lt_reg_r with 60];
      try lra; unfold Rdiv; rewrite Rmult_assoc, Rinv_l by lra; nra. }
  destruct (@SFdiv_relative mk 8444249301319680 ek (-47) Dk eq_refl TR)
    as (ma & ea & Ea & Ba).
  exists ma, ea. split.
  - rewrite FloatAxioms.div_spec, Ek.
    replace (Prim2SF 60) with (S754_finite false 8444249301319680 (-47))
      by (vm_compute; reflexivity).
    exact Ea.
  - cbv zeta. fold V. fold Sk dl in Ba. rewrite E60 in Ba.
    set (r := IZR (Zpos ma) * powerRZ 2 ea) in *.
    assert (E46 : powerRZ 2 (-46) = dl * 64).
    { change (-46)%Z with (-52 + 6)%Z. rewrite bpow_add, (bpow_IZR (k := 6)) by lia.
      reflexivity. }
    rewrite E46.
    assert (dl20 : dl * 20 <= 1) by nra.
    assert (T1 : V * (1 - 60 * dl) <= Sk / 60 <= V * (1 + 60 * dl)).
    { split; [apply Rmult_le_reg_r with 60|apply Rmult_le_reg_r with 60];
        try lra; unfold Rdiv; rewrite (Rmult_assoc Sk), Rinv_l by lra; lra. }
    assert (T0 : 0 <= Sk / 60) by (apply Rle_trans with (V * (1 - 60 * dl)); [nra|tauto]).
    assert (U1 : Sk / 60 * (1 + dl) <= V * (1 + 60 * dl) * (1 + dl))
      by (apply Rmult_le_compat_r; lra).
    assert (L1 : V * (1 - 60 * dl) * (1 - dl) <= Sk / 60 * (1 - dl))
      by (apply Rmult_le_compat_r; lra).
    assert (Q : 0 <= V * dl * dl) by (apply Rmult_le_pos; [apply Rmult_le_pos|]; lra).
    assert (Q1 : V * dl * dl * 20 <= V * dl).
    { replace (V * dl * dl * 20) with (V * dl * (dl * 20)) by ring.
      rewrite <- (Rmult_1_r (V * dl)) at 2. apply Rmult_le_compat_l; [|lra].
      apply Rmult_le_pos; lra. }
    apply Rabs_le. split; nra.
Qed.
End IdenticalSamples.

Section Baseline.
Context {fmt : NumberFormat}.

(** C3.  While fewer than 60 baseline samples are in, the controller is
    in [MeasuringBaseline] and has emitted nothing.  The frame that
    delivers the 60th sample sets [baselineFrameTime] to the mean of the
    60 samples, their binary64 sum from 0 in the order of arrival divided
    by 60; it sets [currentVertexCount] to 1000, adds a new test mesh of
    1000 vertices to the meshes and to the scene, enters [Stepping] and
    emits the baseline report.  When the 60 samples are one and the same
    number [v], that mean is 0 for [v = 0], and for every [v] between
    2^-1000 and 2^1000 it is a positive number that differs from [v] by
    at most [v] times 2^-46; both are read as the real numbers
    [m 2^e] that their binary64 representations stand for. *)
Theorem C3_baseline_phase (events : list Event) (a b : float) :
  let s := run events in
  let samples := samples_of events in
  List.length samples < 60 ->
  phase s = MeasuringBaseline /\
  baselineMeasurements s = samples /\
  logs s = [] /\
  (let s' := run (events ++ [Frame a b]) in
   let all := samples ++ [(b - a)%float] in
   (List.length all < 60 ->
    phase s' = MeasuringBaseline /\ baselineMeasurements s' = all /\ logs s' = []) /\
   (List.length all = 60 ->
    baselineFrameTime s' = (fold_left PrimFloat.add all 0 / 60)%float /\
    currentVertexCount s' = 1000%Z /\
    (exists mesh : Object3D,
       obj_kind mesh = TestMesh 1000 /\
       testMeshes s' = testMeshes s ++ [mesh] /\
       scene s' = scene s ++ [mesh] /\
       ~ In mesh (scene s)) /\
    phase s' = Stepping /\
    logs s' = [baselineReport s'] /\
    statusText s' = baselineReport s' /\
    (forall v : float,
       all = List.repeat v 60 ->
       (v = 0%float -> baselineFrameTime s' = 0%float) /\
       ((0x1p-1000 <=? v)%float = true -> (v <=? 0x1p1000)%float = true ->
        exists (m m' : positive) (e e' : Z),
          Prim2SF v = S754_finite false m e /\
          Prim2SF (baselineFrameTime s') = S754_finite false m' e' /\
          (Rabs (IZR (Zpos m') * powerRZ 2 e' - IZR (Zpos m) * powerRZ 2 e)
           <= IZR (Zpos m) * powerRZ 2 e * powerRZ 2 (-46))%R)))).
Proof.
  intros s samples Hlen. subst samples.
  pose proof (Inv_run events) as I. fold s in I.
  assert (Hm : isMeasuringBaseline s = true).
  { rewrite (inv_phase I). apply Nat.ltb_lt. exact Hlen. }
  assert (Hbm : baselineMeasurements s = samples_of events).
  { rewrite (inv_baselineMeasurements I). apply List.firstn_all2. lia. }
  destruct (inv_measuring I Hm) as (Hst & Hvc & Hft & Hlg & Htm).
  split; [apply phase_MeasuringBaseline; exact Hm|].
  split; [exact Hbm|]. split; [exact Hlg|].
  intros s' all. unfold s'. rewrite run_snoc. fold s. simpl. unfold animate.
  set (s0 := emit ControlsUpdate (emit RequestAnimationFrame s)).
  assert (Hm0 : isMeasuringBaseline s0 = true) by exact Hm.
  assert (Hbm0 : baselineMeasurements s0 = samples_of events) by exact Hbm.
  unfold all. rewrite List.length_app. simpl. split; intros Hall.
  - rewrite tick_measuring by (rewrite ?Hbm0; try assumption; lia).
    unfold sampled, phase, push, s0. fields. rewrite Hm, Hbm, Hlg. auto.
  - rewrite tick_calibrates by (rewrite ?Hbm0; try assumption; lia).
    assert (Hmean : average (samples_of events ++ [(b - a)%float]) =
                    (fold_left PrimFloat.add (samples_of events ++ [(b - a)%float]) 0 / 60)%float).
    { unfold average, averageOver, reduce. cbn [a_div a_add a_zero a_of_nat ieee754].
      rewrite List.length_app. cbn [List.length].
      replace (List.length (samples_of events) + 1) with 60 by lia. reflexivity. }
    unfold calibrated, sampled, phase, push, scene_add, join, s0. fields.
    rewrite Hbm, Hlg, Hst, Hmean. simpl.
    split; [reflexivity|]. split; [reflexivity|]. split.
    { eexists. split; [|split; [reflexivity|split; [reflexivity|]]].
      + reflexivity.
      + rewrite (inv_scene I), Htm. pose proof (inv_nextUid I) as Hu.
        intros [H|[H|[H|[]]]]; apply (f_equal obj_uid) in H; simpl in H; lia. }
    split; [reflexivity|]. split; [reflexivity|]. split; [reflexivity|].
    intros v Hv. rewrite Hv. split.
    + intros ->. vm_compute. reflexivity.
    + intros L U. destruct (in_range_normal L U) as (m & e & Ev & Dv & Rv).
      destruct (@mean_of_identical_normal v m e Ev Dv Rv) as (m' & e' & Ea & Ba).
      exists m, m', e, e'. split; [exact Ev|]. split; [exact Ea|exact Ba].
Qed.
End Baseline.

(** C3 on a concrete run: the sixtieth baseline frame of 5 ms. *)
Lemma C3_baseline_phase_witness :
  baselineFrameTime (run (fmt := EnUS.format) (List.repeat (Frame 0 5) 59 ++ [Frame 0 5])) =
  5%float.
Proof.
  assert (L : List.length (samples_of (List.repeat (Frame 0 5) 59)) < 60)
    by (vm_compute; lia).
  destruct (@C3_baseline_phase EnUS.format (List.repeat (Frame 0 5) 59) 0%float 5%float L)
    as (_ & _ & _ & _ & H).
  destruct H as (B & _); [vm_compute; reflexivity|].
  rewrite B. vm_compute. reflexivity.
Defined.

Section BaselineFrameTime.
Context {fmt : NumberFormat}.

Lemma samples_of_not_frame (e : Event) : is_frame e = false -> samples_of [e] = [].
Proof. destruct e; simpl; intros H; try discriminate; reflexivity. Qed.

(** C5.  [baselineFrameTime] keeps its initial value 0 for as long as the
    controller is in [MeasuringBaseline]; whatever happens next either
    leaves it as it is, or is the frame that delivers the 60th sample and
    takes the controller from [MeasuringBaseline] to [Stepping].  From then
    on the controller never measures a baseline again and
    [baselineFrameTime] stays the average of the first 60 samples. *)
Theorem C5_baselineFrameTime_set_once (events : list Event) :
  let s := run events in
  (phase s = MeasuringBaseline ->
   baselineFrameTime s = 0%float /\ List.length (samples_of events) < 60) /\
  (phase s <> MeasuringBaseline ->
   baselineFrameTime s = average (List.firstn 60 (samples_of events)) /\
   60 <= List.length (samples_of events)) /\
  (forall e : Event,
     let s' := step s e in
     baselineFrameTime s' = baselineFrameTime s \/
     (phase s = MeasuringBaseline /\ phase s' = Stepping /\
      is_frame e = true /\ List.length (samples_of events) = 59)) /\
  (forall more : list Event,
     phase s <> MeasuringBaseline ->
     phase (run (events ++ more)) <> MeasuringBaseline /\
     baselineFrameTime (run (events ++ more)) = baselineFrameTime s).
Proof.
  intros s. pose proof (Inv_run events) as I. fold s in I.
  assert (P : forall t, phase t <> MeasuringBaseline <-> isMeasuringBaseline t = false).
  { intros t. rewrite phase_MeasuringBaseline. destruct (isMeasuringBaseline t); split;
      intros H; congruence. }
  split; [|split; [|split]].
  - intros Hp. apply phase_MeasuringBaseline in Hp.
    rewrite (inv_baselineFrameTime I), Hp. split; [reflexivity|].
    apply Nat.ltb_lt. rewrite <- (inv_phase I). exact Hp.
  - intros Hp. apply P in Hp.
    rewrite (inv_baselineFrameTime I), Hp, (inv_baselineMeasurements I).
    split; [reflexivity|]. apply Nat.ltb_ge. rewrite <- (inv_phase I). exact Hp.
  - intros e s'. pose proof (Inv_step e I) as I'. fold s' in I'.
    pose proof (inv_phase I) as Hph. pose proof (inv_phase I') as Hph'.
    rewrite samples_of_app, List.length_app in Hph'.
    rewrite (inv_baselineFrameTime I'), (inv_baselineFrameTime I).
    rewrite (inv_baselineMeasurements I'), (inv_baselineMeasurements I).
    destruct (isMeasuringBaseline s) eqn:Em, (isMeasuringBaseline s') eqn:Em'.
    + left. reflexivity.
    + right. symmetry in Hph, Hph'. apply Nat.ltb_lt in Hph. apply Nat.ltb_ge in Hph'.
      destruct e as [a b| | | |]; simpl in Hph'; try lia.
      split; [apply phase_MeasuringBaseline; exact Em|].
      split; [|split; [reflexivity|lia]].
      apply phase_Stepping. split; [exact Em'|].
      destruct (inv_measuring I Em) as (Hst & _).
      assert (Hbm : baselineMeasurements s = samples_of events)
        by (rewrite (inv_baselineMeasurements I); apply List.firstn_all2; lia).
      unfold s'. simpl. unfold animate.
      rewrite tick_calibrates; [exact Hst|exact Em|].
      fields. rewrite Hbm. lia.
    + symmetry in Hph, Hph'. apply Nat.ltb_lt in Hph'. apply Nat.ltb_ge in Hph. lia.
    + left. symmetry in Hph. apply Nat.ltb_ge in Hph.
      rewrite samples_of_app, firstn_snoc_full by exact Hph. reflexivity.
  - intros more Hp. apply P in Hp.
    pose proof (Inv_run (events ++ more)) as I'.
    pose proof (inv_phase I) as Hph. rewrite Hp in Hph.
    symmetry in Hph. apply Nat.ltb_ge in Hph.
    assert (Em' : isMeasuringBaseline (run (events ++ more)) = false).
    { rewrite (inv_phase I'). apply Nat.ltb_ge.
      rewrite samples_of_app, List.length_app. lia. }
    split; [apply P; exact Em'|].
    rewrite (inv_baselineFrameTime I'), (inv_baselineFrameTime I), Em', Hp.
    rewrite (inv_baselineMeasurements I'), (inv_baselineMeasurements I).
    rewrite samples_of_app, firstn_snoc_full by exact Hph. reflexivity.
Qed.
End BaselineFrameTime.

(* ================================================================== *)
(** * Stepping (C1, C6) *)

Section Stepping.
Context {fmt : NumberFormat}.

Lemma animate_entered (a b : float) (s : State) :
  animate a b s = tick a b (entered s).
Proof. reflexivity. Qed.

Lemma Inv_entered (events : list Event) (s : State) :
  Inv events s -> Inv events (entered s).
Proof.
  intros I. rewrite <- (List.app_nil_r events).
  apply (Inv_frame [] _ [RequestAnimationFrame; ControlsUpdate] I);
    try reflexivity.
  - unfold entered. fields. rewrite <- List.app_assoc. reflexivity.
  - intros uid. simpl. intuition discriminate.
Qed.

(** The mesh that [addTestMesh] creates in state [s]. *)
Lemma addTestMesh_eq (s : State) :
  addTestMesh s =
  set_testMeshes (testMeshes s ++ [newTestMesh s])
    (set_scene (scene s ++ [newTestMesh s]) (set_nextUid (S (nextUid s)) s)).
Proof. reflexivity. Qed.

(** What the clean-up of a growing tick does, in a state of a run. *)
Lemma cleaned_facts (events : list Event) (s : State) (a b : float) :
  Inv events s -> isMeasuringBaseline s = false ->
  exists old : Object3D,
    testMeshes s = [baselineCube; old] /\
    obj_kind old = TestMesh (currentVertexCount s) /\
    2 < obj_uid old < nextUid s /\
    cleaned a b s = cleanupMesh [baselineCube] old (counted a b s) /\
    testMeshes (cleaned a b s) = [baselineCube] /\
    scene (cleaned a b s) = [ambientLight; directionalLight; baselineCube] /\
    nextUid (cleaned a b s) = nextUid s /\
    currentVertexCount (cleaned a b s) = (currentVertexCount s + 1000)%Z /\
    trace (cleaned a b s) =
      trace s ++ [Render (scene s); DisposeGeometry (obj_uid old);
                  DisposeMaterial (obj_uid old)].
Proof.
  intros I Hm.
  destruct (inv_testing I Hm) as (_ & _ & old & Htm & Hk & Hu).
  exists old. split; [exact Htm|]. split; [exact Hk|]. split; [exact Hu|].
  assert (Htm' : testMeshes (counted a b s) = [baselineCube; old])
    by (unfold counted; rewrite recordFrameTime_eq; exact Htm).
  assert (E : cleaned a b s = cleanupMesh [baselineCube] old (counted a b s))
    by (unfold cleaned; apply cleanupMeshes_one; exact Htm').
  split; [exact E|]. rewrite E. unfold cleanupMesh, counted.
  rewrite recordFrameTime_eq. fields.
  split; [reflexivity|]. split; [|split; [reflexivity|split; [reflexivity|]]].
  - rewrite (inv_scene I), Htm.
    apply (scene_remove_last old [ambientLight; directionalLight; baselineCube]).
    intros c [<-|[<-|[<-|[]]]]; simpl; lia.
  - rewrite <- !List.app_assoc. reflexivity.
Qed.

(** Once stopped, always stopped, at the same vertex count. *)
Lemma stopped_step (s : State) (e : Event) :
  isMeasuringBaseline s = false -> isTestStopped s = true ->
  isMeasuringBaseline (step s e) = false /\ isTestStopped (step s e) = true /\
  currentVertexCount (step s e) = currentVertexCount s.
Proof.
  intros Hm Hs. destruct e as [a b| |ok| |]; simpl.
  - rewrite animate_entered, tick_stopped by assumption. auto.
  - auto.
  - unfold copyResults_resume. destruct (pendingCopies s); [auto|].
    destruct ok; auto.
  - unfold copyResults_restore. destruct (timers s); auto.
  - auto.
Qed.

Lemma stopped_run_from (more : list Event) (s : State) :
  isMeasuringBaseline s = false -> isTestStopped s = true ->
  isMeasuringBaseline (run_from s more) = false /\
  isTestStopped (run_from s more) = true /\
  currentVertexCount (run_from s more) = currentVertexCount s.
Proof.
  revert s. induction more as [|e more IH]; intros s Hm Hs; simpl; [auto|].
  pose proof (stopped_step) as St. specialize (St s e Hm Hs).
  destruct St as (Hm' & Hs' & Hv).
  destruct (IH _ Hm' Hs') as (? & ? & Hv'). rewrite Hv' , Hv. auto.
Qed.
End Stepping.

Section SteppingClaims.
Context {fmt : NumberFormat}.

Lemma rollingAverage_entered (a b : float) (s : State) :
  rollingAverage a b (entered s) = rollingAverage a b s.
Proof. unfold rollingAverage. rewrite !recordFrameTime_window. reflexivity. Qed.

(** What a growing frame does, in a state of a run. *)
Lemma growing_frame (events : list Event) (a b : float) :
  let s := run events in
  phase s = Stepping ->
  gt (rollingAverage a b s) maxFrameTime = false ->
  exists old : Object3D,
    testMeshes s = [baselineCube; old] /\
    obj_kind old = TestMesh (currentVertexCount s) /\
    2 < obj_uid old < nextUid s /\
    step s (Frame a b) =
      updateStatus
        (progressReport (rollingAverage a b s) (addTestMesh (cleaned a b (entered s))))
        (addTestMesh (cleaned a b (entered s))) /\
    testMeshes (cleaned a b (entered s)) = [baselineCube] /\
    scene (cleaned a b (entered s)) = [ambientLight; directionalLight; baselineCube] /\
    nextUid (cleaned a b (entered s)) = nextUid s /\
    currentVertexCount (cleaned a b (entered s)) = (currentVertexCount s + 1000)%Z /\
    trace (cleaned a b (entered s)) =
      trace s ++ [RequestAnimationFrame; ControlsUpdate; Render (scene s);
                  DisposeGeometry (obj_uid old); DisposeMaterial (obj_uid old)].
Proof.
  intros s Hp Hg. apply phase_Stepping in Hp as [Hm Hs].
  pose proof (Inv_entered (Inv_run events)) as I. fold s in I. clearbody s.
  destruct (cleaned_facts a b I Hm) as (old & Htm & Hk & Hu & _ & Ctm & Csc & Cnu & Cvc & Ctr).
  exists old. repeat (split; [assumption|]).
  split; [|split; [exact Ctm|split; [exact Csc|split; [exact Cnu|split; [exact Cvc|]]]]].
  - change (step s (Frame a b)) with (tick a b (entered s)).
    rewrite <- (rollingAverage_entered a b s) in Hg |- *.
    apply tick_grows; assumption.
  - rewrite Ctr. unfold entered. fields. rewrite <- !List.app_assoc. reflexivity.
Qed.

(** C1.  A frame taken in [Stepping] averages the window after its own
    sample.  If the average is at most 16.67, the frame adds exactly 1000
    to [currentVertexCount], removes the held test mesh from the scene and
    disposes of its geometry and material, holds a new mesh of the new
    vertex count, and appends a progress report; the controller stays in
    [Stepping].  If the average exceeds 16.67, the frame takes the
    controller to [Stopped], appends the final report and leaves the
    vertex count and the mesh alone; whatever follows, the controller is
    [Stopped] with that vertex count. *)
Theorem C1_stepping_frame (events : list Event) (a b : float) :
  let s := run events in
  phase s = Stepping ->
  let avg := rollingAverage a b s in
  let s' := step s (Frame a b) in
  ((avg <=? maxFrameTime)%float = true ->
   phase s' = Stepping /\
   currentVertexCount s' = (currentVertexCount s + 1000)%Z /\
   (exists old : Object3D,
      let new := {| obj_uid := nextUid s;
                    obj_kind := TestMesh (currentVertexCount s + 1000);
                    obj_x := 2 |} in
      testMeshes s = [baselineCube; old] /\
      testMeshes s' = [baselineCube; new] /\
      scene s' = [ambientLight; directionalLight; baselineCube; new] /\
      ~ In old (scene s') /\
      obj_uid new <> obj_uid old /\
      trace s' =
        trace s ++ [RequestAnimationFrame; ControlsUpdate; Render (scene s);
                    DisposeGeometry (obj_uid old); DisposeMaterial (obj_uid old);
                    DetectChanges]) /\
   logs s' = logs s ++ [progressReport avg s'] /\
   statusText s' = join NL (logs s')) /\
  (gt avg maxFrameTime = true ->
   phase s' = Stopped /\
   currentVertexCount s' = currentVertexCount s /\
   testMeshes s' = testMeshes s /\
   scene s' = scene s /\
   logs s' = logs s ++ [finalReport avg s'] /\
   forall more : list Event,
     phase (run_from s' more) = Stopped /\
     currentVertexCount (run_from s' more) = currentVertexCount s).
Proof.
  intros s Hp avg s'. split.
  - intros Hle. apply leb_gt_false in Hle.
    destruct (@growing_frame events a b Hp Hle)
      as (old & Htm & Hk & Hu & E & Ctm & Csc & Cnu & Cvc & Ctr).
    fold s in Htm, Hk, Hu, E, Ctm, Csc, Cnu, Cvc, Ctr. fold avg in E.
    apply phase_Stepping in Hp as [Hm Hs].
    pose proof (Inv_entered (Inv_run events)) as I. fold s in I.
    destruct (cleaned_facts a b I Hm) as (old' & _ & _ & _ & E' & _).
    assert (Cm : isMeasuringBaseline (cleaned a b (entered s)) = false)
      by (rewrite E'; unfold cleanupMesh, counted; rewrite recordFrameTime_eq; exact Hm).
    assert (Cs : isTestStopped (cleaned a b (entered s)) = false)
      by (rewrite E'; unfold cleanupMesh, counted; rewrite recordFrameTime_eq; exact Hs).
    assert (Cl : logs (cleaned a b (entered s)) = logs s)
      by (rewrite E'; unfold cleanupMesh, counted; rewrite recordFrameTime_eq; reflexivity).
    clear E' I old'. subst s'. clearbody avg. clearbody s.
    set (c := cleaned a b (entered s)) in *. clearbody c.
    rewrite E. clear E. rewrite addTestMesh_eq. unfold newTestMesh, phase, progressReport.
    fields. rewrite Cm, Cs, Ctm, Csc, Cnu, Cvc, Ctr, Cl.
    split; [reflexivity|]. split; [reflexivity|].
    split; [|split; reflexivity].
    exists old. simpl.
    split; [exact Htm|]. split; [reflexivity|]. split; [reflexivity|].
    split; [|split; [lia|]].
    + intros [H|[H|[H|[H|[]]]]]; apply (f_equal obj_uid) in H; simpl in H; lia.
    + rewrite <- !List.app_assoc. reflexivity.
  - intros Hgt. pose proof Hp as Hp'. apply phase_Stepping in Hp' as [Hm Hs].
    assert (Hgt' : gt (rollingAverage a b (entered s)) maxFrameTime = true)
      by (rewrite rollingAverage_entered; exact Hgt).
    assert (E : s' = updateStatus
                       (finalReport avg (set_isTestStopped true (recordFrameTime a b (entered s))))
                       (set_isTestStopped true (recordFrameTime a b (entered s)))).
    { unfold s', avg. change (step s (Frame a b)) with (tick a b (entered s)).
      rewrite <- (rollingAverage_entered a b s).
      apply tick_stops; assumption. }
    clearbody s' avg. clearbody s. subst s'. rewrite recordFrameTime_eq.
    unfold phase, finalReport, entered. fields. rewrite Hm.
    repeat (split; [reflexivity|]).
    intros more.
    match goal with |- context [run_from ?t more] => set (s' := t) end.
    assert (Hm' : isMeasuringBaseline s' = false) by exact Hm.
    assert (Hs' : isTestStopped s' = true) by reflexivity.
    destruct (@stopped_run_from fmt more s' Hm' Hs') as (M & S & V).
    rewrite M, S, V. split; reflexivity.
Qed.
End SteppingClaims.

(** C1 on a concrete run: the first frame after the baseline takes 10 ms
    and raises the vertex count from 1000 to 2000. *)
Lemma C1_stepping_frame_witness :
  currentVertexCount (step (fmt := EnUS.format) (run (fmt := EnUS.format) baselineRun)
                        (Frame 0 10)) = 2000%Z.
Proof.
  assert (P : phase (run (fmt := EnUS.format) baselineRun) = Stepping)
    by (vm_compute; reflexivity).
  destruct (@C1_stepping_frame EnUS.format baselineRun 0%float 10%float P) as [G _].
  destruct G as (_ & V & _); [vm_compute; reflexivity|].
  etransitivity; [exact V|]. vm_compute. reflexivity.
Defined.

Section Ownership.
Context {fmt : NumberFormat}.

(** C6.  In every state of a run the controller holds the baseline cube
    and at most one test mesh, of the current vertex count; the scene is
    the two lights, the cube and that mesh; the cube is in the scene and
    neither its geometry nor its material was ever disposed of.  A growing
    frame first releases the held test mesh (it leaves [testMeshes] and
    the scene, and its geometry and material are disposed of), so that
    only the cube is held, and then adds the newly created mesh, a
    different object, which is then the one test mesh held. *)
Theorem C6_one_test_workload (events : list Event) :
  let s := run events in
  (exists tests : list Object3D,
     testMeshes s = baselineCube :: tests /\
     List.length tests <= 1 /\
     (forall m, In m tests -> obj_kind m = TestMesh (currentVertexCount s)) /\
     scene s = ambientLight :: directionalLight :: baselineCube :: tests) /\
  In baselineCube (scene s) /\
  ~ In (DisposeGeometry (obj_uid baselineCube)) (trace s) /\
  ~ In (DisposeMaterial (obj_uid baselineCube)) (trace s) /\
  (forall a b : float,
     phase s = Stepping ->
     gt (rollingAverage a b s) maxFrameTime = false ->
     exists old : Object3D,
       let released := cleaned a b (entered s) in
       let s' := step s (Frame a b) in
       testMeshes s = [baselineCube; old] /\
       s' = updateStatus (progressReport (rollingAverage a b s) (addTestMesh released))
              (addTestMesh released) /\
       testMeshes released = [baselineCube] /\
       scene released = [ambientLight; directionalLight; baselineCube] /\
       trace released =
         trace s ++ [RequestAnimationFrame; ControlsUpdate; Render (scene s);
                     DisposeGeometry (obj_uid old); DisposeMaterial (obj_uid old)] /\
       testMeshes s' = [baselineCube; newTestMesh released] /\
       scene s' = [ambientLight; directionalLight; baselineCube; newTestMesh released] /\
       obj_kind (newTestMesh released) = TestMesh (currentVertexCount s + 1000) /\
       obj_uid (newTestMesh released) <> obj_uid old).
Proof.
  intros s. pose proof (Inv_run events) as I. fold s in I.
  assert (T : exists tests : list Object3D,
             testMeshes s = baselineCube :: tests /\
             List.length tests <= 1 /\
             (forall m, In m tests -> obj_kind m = TestMesh (currentVertexCount s))).
  { destruct (isMeasuringBaseline s) eqn:Em.
    - destruct (inv_measuring I Em) as (_ & _ & _ & _ & Htm).
      exists []. split; [exact Htm|]. split; [simpl; lia|]. intros m [].
    - destruct (inv_testing I Em) as (_ & _ & mesh & Htm & Hk & _).
      exists [mesh]. split; [exact Htm|]. split; [simpl; lia|].
      intros m [<-|[]]. exact Hk. }
  destruct T as (tests & Htm & Hlen & Hkind).
  assert (Hsc : scene s = ambientLight :: directionalLight :: baselineCube :: tests)
    by (rewrite (inv_scene I), Htm; reflexivity).
  split; [exists tests; auto|].
  split; [rewrite Hsc; simpl; auto|].
  split; [|split].
  - intros H. destruct (inv_disposed I (obj_uid baselineCube)) as [Hu _]; [auto|].
    simpl in Hu. lia.
  - intros H. destruct (inv_disposed I (obj_uid baselineCube)) as [Hu _]; [auto|].
    simpl in Hu. lia.
  - intros a b Hp Hg.
    destruct (@growing_frame fmt events a b Hp Hg)
      as (old & Htm' & Hk & Hu & E & Ctm & Csc & Cnu & Cvc & Ctr).
    fold s in Htm', Hk, Hu, E, Ctm, Csc, Cnu, Cvc, Ctr.
    exists old. cbv zeta.
    split; [exact Htm'|]. split; [exact E|]. split; [exact Ctm|].
    split; [exact Csc|]. split; [exact Ctr|].
    clear I Hsc Htm Hkind. clearbody s.
    set (c := cleaned a b (entered s)) in *. clearbody c.
    rewrite E. rewrite addTestMesh_eq. unfold newTestMesh. fields.
    rewrite Ctm, Csc, Cnu, Cvc.
    repeat (split; [reflexivity|]). simpl. lia.
Qed.
End Ownership.

(* ================================================================== *)
(** * The exported report (C9) *)

Section ExportedReport.
Context {fmt : NumberFormat}.

Lemma cleanupMeshes_loop_report (fuel : nat) (s : State) :
  logs (cleanupMeshes_loop fuel s) = logs s /\
  statusText (cleanupMeshes_loop fuel s) = statusText s.
Proof.
  revert s. induction fuel as [|fuel IH]; intros s; cbn [cleanupMeshes_loop]; [auto|].
  destruct (Nat.ltb 1 (List.length (testMeshes s))); [|auto].
  destruct (pop (testMeshes s)) as [rest [mesh|]]; [|auto].
  destruct (IH (cleanupMesh rest mesh s)) as [L T]. rewrite L, T. auto.
Qed.

(** A tick either leaves the report alone or appends one line and shows
    the joined lines. *)
Lemma tick_report (a b : float) (s : State) :
  (logs (tick a b s) = logs s /\ statusText (tick a b s) = statusText s) \/
  (exists line : string,
     logs (tick a b s) = logs s ++ [line] /\
     statusText (tick a b s) = join NL (logs s ++ [line])).
Proof.
  unfold tick, measureBaselinePerformance, measurePerformance.
  destruct (isMeasuringBaseline s).
  - fields.
    destruct (Nat.leb 60 (List.length (push (b - a)%float (baselineMeasurements s)))).
    + right. eexists. split; reflexivity.
    + left. split; reflexivity.
  - destruct (isTestStopped s); [left; split; reflexivity|].
    destruct (gt (average (frameTimes (recordFrameTime a b s))) maxFrameTime).
    + right. rewrite recordFrameTime_eq. eexists. split; reflexivity.
    + right. rewrite recordFrameTime_eq. fields. unfold cleanupMeshes.
      match goal with
      | |- context [cleanupMeshes_loop ?n ?t] =>
          destruct (cleanupMeshes_loop_report n t) as [L T]
      end.
      fields. rewrite L. eexists. split; reflexivity.
Qed.

Lemma frames_report (events : list Event) :
  forallb is_frame events = true ->
  statusText (run events) =
    match logs (run events) with
    | [] => "Initializing..."%string
    | _ :: _ => join NL (logs (run events))
    end.
Proof.
  induction events as [|e events IH] using List.rev_ind; intros F.
  - reflexivity.
  - rewrite List.forallb_app in F. apply andb_prop in F as [F Fe].
    specialize (IH F). rewrite run_snoc.
    destruct e as [a b| | | |]; try discriminate. simpl. rewrite animate_entered.
    destruct (tick_report a b (entered (run events))) as [[L T]|[line [L T]]];
      rewrite L, T.
    + exact IH.
    + change (logs (entered (run events))) with (logs (run events)).
      destruct (logs (run events)); reflexivity.
Qed.

(** C9, as the code has it.  In a state reached by frames alone the
    exported text is the placeholder ["Initializing..."] before the first
    report and the report lines joined by newlines afterwards; in any
    state, a frame that emits a report leaves the joined lines as the text
    to export.  Copying hands that text to the clipboard and then appends
    a notice to the status text.  No step of a copy changes the report
    lines or any field of the controller. *)
Theorem C9_exported_report (events : list Event) :
  let s := run events in
  (forallb is_frame events = true ->
   exportReport s =
     match logs s with
     | [] => "Initializing..."%string
     | _ :: _ => join NL (logs s)
     end) /\
  (forall a b : float,
     let s' := step s (Frame a b) in
     logs s' = logs s \/
     (exists line : string,
        logs s' = logs s ++ [line] /\ exportReport s' = join NL (logs s'))) /\
  trace (step s CopyClick) = trace s ++ [ClipboardWrite (exportReport s)] /\
  statusText (step (step s CopyClick) (CopySettled true)) =
    (statusText s ++ copiedNotice)%string /\
  statusText (step (step s CopyClick) (CopySettled false)) =
    (statusText s ++ failedNotice)%string /\
  (forall e : Event,
     is_frame e = false ->
     let s' := step s e in
     logs s' = logs s /\
     currentVertexCount s' = currentVertexCount s /\
     baselineFrameTime s' = baselineFrameTime s /\
     frameTimes s' = frameTimes s /\
     baselineMeasurements s' = baselineMeasurements s /\
     phase s' = phase s /\
     testMeshes s' = testMeshes s /\
     scene s' = scene s).
Proof.
  intros s. split; [exact (frames_report events)|]. clearbody s.
  split; [|split; [reflexivity|split; [reflexivity|split; [reflexivity|]]]].
  - intros a b s'. unfold s'. simpl. rewrite animate_entered.
    destruct (tick_report a b (entered s)) as [[L T]|[line [L T]]].
    + left. exact L.
    + right. exists line. unfold exportReport. rewrite T, L. auto.
  - intros e Fe s'. unfold s'. destruct e as [a b| |ok| |]; try discriminate; simpl.
    + repeat split; reflexivity.
    + unfold copyResults_resume. destruct (pendingCopies s); [repeat split; reflexivity|].
      destruct ok; repeat split; reflexivity.
    + unfold copyResults_restore. destruct (timers s); repeat split; reflexivity.
    + repeat split; reflexivity.
Qed.
End ExportedReport.

(** C9, as stated, fails.  Before the first report the exported text is the
    placeholder, not the join of no lines; and a copy that succeeds changes
    the status text, the text that the next copy exports. *)
Lemma C9_export_differs_from_joined_lines :
  exportReport (run (fmt := EnUS.format) []) <>
    join NL (logs (run (fmt := EnUS.format) [])) /\
  exportReport (run (fmt := EnUS.format) (baselineRun ++ [CopyClick; CopySettled true])) <>
    join NL (logs (run (fmt := EnUS.format) (baselineRun ++ [CopyClick; CopySettled true]))).
Proof. split; vm_compute; discriminate. Qed.

(* ================================================================== *)
(** * The generated mesh (C8) *)

Section GeometryFacts.
Import Geometry.
Context {host : MathHost}.
Local Open Scope float_scope.

Lemma load_store_eq (i : nat) (v : float) (arr : list float) :
  (i < List.length arr)%nat -> load (store i v arr) i = fround v.
Proof.
  intros H. unfold load, store. rewrite nth_lookup.
  rewrite list_lookup_insert_eq by exact H. reflexivity.
Qed.

Lemma load_store_ne (i j : nat) (v : float) (arr : list float) :
  i <> j -> load (store i v arr) j = load arr j.
Proof.
  intros H. unfold load, store. rewrite !nth_lookup.
  rewrite list_lookup_insert_ne by exact H. reflexivity.
Qed.

Lemma length_store (i : nat) (v : float) (arr : list float) :
  List.length (store i v arr) = List.length arr.
Proof. apply length_insert. Qed.

Lemma nth_store_u32_eq (i : nat) (v : Z) (arr : list Z) :
  (i < List.length arr)%nat -> List.nth i (store_u32 i v arr) 0%Z = (v mod 2 ^ 32)%Z.
Proof.
  intros H. unfold store_u32. rewrite nth_lookup.
  rewrite list_lookup_insert_eq by exact H. reflexivity.
Qed.

Lemma nth_store_u32_ne (i j : nat) (v : Z) (arr : list Z) :
  i <> j -> List.nth j (store_u32 i v arr) 0%Z = List.nth j arr 0%Z.
Proof.
  intros H. unfold store_u32. rewrite !nth_lookup.
  rewrite list_lookup_insert_ne by exact H. reflexivity.
Qed.

Lemma length_store_u32 (i : nat) (v : Z) (arr : list Z) :
  List.length (store_u32 i v arr) = List.length arr.
Proof. apply length_insert. Qed.

Ltac loads :=
  repeat first
    [ rewrite load_store_ne by lia
    | rewrite load_store_eq by (rewrite ?length_store; lia) ].

Lemma vertex_Built (rand : nat -> float) (N k : nat) (g : BufferGeometry) :
  Built rand N k g -> (k < N)%nat -> Built rand N (S k) (vertex rand g k).
Proof.
  intros [Lp Ln Li Hv] Hk. unfold vertex. cbv zeta.
  set (theta := rand (2 * k)%nat * Math_PI * 2).
  set (phi := Math_acos (2 * rand (2 * k + 1)%nat - 1)).
  set (p := store (k * 3 + 2) (1 * Math_cos phi)
              (store (k * 3 + 1) (1 * Math_sin phi * Math_sin theta)
                 (store (k * 3) (1 * Math_sin phi * Math_cos theta) (positions g)))).
  assert (Px : load p (k * 3) = fround (1 * Math_sin phi * Math_cos theta))
    by (unfold p; loads; reflexivity).
  assert (Py : load p (k * 3 + 1) = fround (1 * Math_sin phi * Math_sin theta))
    by (unfold p; loads; reflexivity).
  assert (Pz : load p (k * 3 + 2) = fround (1 * Math_cos phi))
    by (unfold p; loads; reflexivity).
  rewrite Px, Py, Pz.
  constructor; cbn [positions normals indices].
  - unfold p. rewrite !length_store. exact Lp.
  - rewrite !length_store. exact Ln.
  - rewrite length_store_u32. exact Li.
  - intros i Hi. destruct (Nat.eq_dec i k) as [->|Hne].
    + unfold triple. rewrite Px, Py, Pz. loads.
      rewrite nth_store_u32_eq by lia.
      unfold normalAt, positionAt. fold theta phi. auto.
    + assert (Hlt : (i < k)%nat) by lia.
      destruct (Hv i Hlt) as (Hp & Hn & Hx).
      unfold triple in *. unfold p. loads.
      rewrite nth_store_u32_ne by lia. auto.
Qed.

Lemma createTestMesh_Built (rand : nat -> float) (n k : nat) :
  (k <= n)%nat ->
  Built rand n k
    (fold_left (vertex rand) (seq 0 k)
       {| positions := Float32Array (n * 3);
          normals := Float32Array (n * 3);
          indices := Uint32Array n |}).
Proof.
  induction k as [|k IH]; intros Hk.
  - constructor; cbn [positions normals indices fold_left seq];
      unfold Float32Array, Uint32Array; rewrite ?List.repeat_length; try reflexivity.
    intros i Hi. lia.
  - rewrite List.seq_S, List.fold_left_app. simpl.
    apply vertex_Built; [apply IH; lia | lia].
Qed.
End GeometryFacts.

Section GeometryClaim.
Import Geometry.
Context {host : MathHost}.
Local Open Scope float_scope.

End GeometryClaim.


(* ================================================================== *)
(** * More about the methods *)

Section CleanupFacts.
Context {fmt : NumberFormat}.

Lemma cleanupMeshes_loop_spec (fuel : nat) (s : State) :
  List.length (testMeshes s) <= fuel ->
  let released := List.rev (List.skipn 1 (testMeshes s)) in
  cleanupMeshes_loop fuel s =
  set_trace (trace s ++ disposals released)
    (set_scene (scene_remove_all released (scene s))
       (set_testMeshes (List.firstn 1 (testMeshes s)) s)).
Proof.
  revert s. induction fuel as [|fuel IH]; intros s H; cbn [cleanupMeshes_loop].
  - destruct s as [sc tm]. simpl in *. destruct tm; [|simpl in H; lia].
    simpl. rewrite List.app_nil_r. reflexivity.
  - destruct (Nat.ltb_spec 1 (List.length (testMeshes s))) as [L|L].
    + unfold pop.
      destruct (testMeshes s) as [|m ms _] eqn:E using List.rev_ind; [simpl in L; lia|].
      rewrite List.map_app, List.removelast_last. simpl List.map. rewrite List.last_last.
      rewrite List.length_app in H, L. simpl in H, L.
      rewrite IH by (unfold cleanupMesh; fields; lia).
      unfold cleanupMesh. fields.
      destruct ms as [|m0 ms]; [simpl in L; lia|].
      cbn [List.skipn List.firstn List.app]. rewrite !List.skipn_O, !List.firstn_O.
      rewrite List.rev_app_distr.
      cbn [List.rev List.app]. unfold disposals, scene_remove_all. cbn [List.flat_map fold_left].
      rewrite <- !List.app_assoc. reflexivity.
    + destruct s as [sc tm]. cbn [testMeshes] in *.
      destruct tm as [|m0 [|m1 tm]]; simpl in L; try lia; simpl;
        rewrite List.app_nil_r; reflexivity.
Qed.

Lemma cleanupMeshes_few (s : State) :
  List.length (testMeshes s) <= 1 -> cleanupMeshes s = s.
Proof.
  intros H. unfold cleanupMeshes. rewrite cleanupMeshes_loop_spec by lia.
  destruct s as [sc tm]. cbn [testMeshes] in *.
  destruct tm as [|m0 [|m1 tm]]; simpl in H; try lia; simpl;
    rewrite List.app_nil_r; reflexivity.
Qed.

(** X1.  [cleanupMeshes()] keeps the first held mesh and nothing else; it
    removes every other held mesh from the scene and disposes of its
    geometry and its material, the last held mesh first.  With no mesh or
    one mesh held it changes nothing.  No other field changes. *)
Theorem cleanupMeshes_keeps_first (s : State) :
  let released := List.rev (List.skipn 1 (testMeshes s)) in
  cleanupMeshes s =
    set_trace (trace s ++ disposals released)
      (set_scene (scene_remove_all released (scene s))
         (set_testMeshes (List.firstn 1 (testMeshes s)) s)) /\
  (List.length (testMeshes s) <= 1 -> cleanupMeshes s = s).
Proof.
  intros released. split.
  - apply cleanupMeshes_loop_spec. lia.
  - apply cleanupMeshes_few.
Qed.

(** X2.  Cleaning up twice is cleaning up once. *)
Theorem cleanupMeshes_idempotent (s : State) :
  cleanupMeshes (cleanupMeshes s) = cleanupMeshes s.
Proof.
  apply cleanupMeshes_few, cleanupMeshes_exit.
Qed.
End CleanupFacts.

(* ================================================================== *)
(** * Induction over the runs *)

Ltac frame_fields :=
  unfold halted, regrown, calibrated, sampled, cleanupMesh, entered in *; fields.

Section RunInduction.
Context {fmt : NumberFormat}.

Lemma step_not_frame (s : State) (e : Event) :
  is_frame e = false ->
  exists extra : list Effect,
    SameController s (step s e) /\
    trace (step s e) = trace s ++ extra /\
    forallb quiet extra = true.
Proof.
  intros F. destruct e as [a b| |ok| |]; try discriminate; simpl.
  - exists [ClipboardWrite (statusText s)]. split; [constructor; reflexivity|]. auto.
  - unfold copyResults_resume. destruct (pendingCopies s).
    + exists []. split; [constructor; reflexivity|]. rewrite List.app_nil_r. auto.
    + destruct ok.
      * exists [SetTimeout 2000; DetectChanges]. split; [constructor; reflexivity|].
        fields. rewrite <- List.app_assoc. auto.
      * exists [ConsoleError; DetectChanges]. split; [constructor; reflexivity|].
        fields. rewrite <- List.app_assoc. auto.
  - unfold copyResults_restore. destruct (timers s).
    + exists []. split; [constructor; reflexivity|]. rewrite List.app_nil_r. auto.
    + exists [DetectChanges]. split; [constructor; reflexivity|]. auto.
  - exists [ConsoleError; DetectChanges]. split; [constructor; reflexivity|].
    unfold copyResults_throws. fields. rewrite <- List.app_assoc. auto.
Qed.

(** A property holds of every run if it holds initially and is kept by a
    step that is no frame and by each of the five kinds of frame. *)
Lemma run_induction (P : list Event -> State -> Prop) :
  P [] init ->
  (forall events s s' e extra,
     Inv events s -> P events s -> is_frame e = false ->
     SameController s s' -> trace s' = trace s ++ extra ->
     forallb quiet extra = true ->
     P (events ++ [e]) s') ->
  (forall events s a b,
     Inv events s -> P events s ->
     isMeasuringBaseline s = true -> List.length (samples_of events) < 59 ->
     P (events ++ [Frame a b]) (sampled a b (entered s))) ->
  (forall events s a b,
     Inv events s -> P events s ->
     isMeasuringBaseline s = true -> List.length (samples_of events) = 59 ->
     P (events ++ [Frame a b])
       (updateStatus (baselineReport (calibrated a b (entered s)))
          (calibrated a b (entered s)))) ->
  (forall events s a b,
     Inv events s -> P events s ->
     isMeasuringBaseline s = false -> isTestStopped s = true ->
     P (events ++ [Frame a b]) (render (entered s))) ->
  (forall events s a b,
     Inv events s -> P events s ->
     isMeasuringBaseline s = false -> isTestStopped s = false ->
     gt (rollingAverage a b s) maxFrameTime = true ->
     P (events ++ [Frame a b])
       (updateStatus (finalReport (rollingAverage a b s) (halted a b s)) (halted a b s))) ->
  (forall events s a b old,
     Inv events s -> P events s ->
     isMeasuringBaseline s = false -> isTestStopped s = false ->
     gt (rollingAverage a b s) maxFrameTime = false ->
     testMeshes s = [baselineCube; old] ->
     scene_remove old (scene s) = [ambientLight; directionalLight; baselineCube] ->
     P (events ++ [Frame a b])
       (updateStatus (progressReport (rollingAverage a b s) (regrown a b old s))
          (regrown a b old s))) ->
  forall events, P events (run events).
Proof.
  intros Hinit Hquiet Hsample Hcal Hstopped Hstop Hgrow events.
  induction events as [|e events IH] using List.rev_ind; [exact Hinit|].
  rewrite run_snoc. pose proof (Inv_run events) as I.
  set (s := run events) in *. clearbody s.
  destruct (is_frame e) eqn:F.
  - destruct e as [a b| | | |]; try discriminate. clear F.
    change (step s (Frame a b)) with (tick a b (entered s)).
    pose proof (Inv_entered I) as I0.
    destruct (isMeasuringBaseline s) eqn:Em.
    + pose proof (inv_phase I) as Hph. rewrite Em in Hph.
      symmetry in Hph. apply Nat.ltb_lt in Hph.
      assert (Hbm : baselineMeasurements s = samples_of events)
        by (rewrite (inv_baselineMeasurements I); apply List.firstn_all2; lia).
      destruct (Nat.lt_ge_cases (List.length (samples_of events)) 59) as [L|L].
      * rewrite tick_measuring; [apply Hsample; assumption|exact Em|].
        unfold entered. fields. rewrite Hbm. exact L.
      * rewrite tick_calibrates; [apply Hcal; try assumption; lia|exact Em|].
        unfold entered. fields. rewrite Hbm. exact L.
    + destruct (isTestStopped s) eqn:Es.
      * rewrite tick_stopped by assumption. apply Hstopped; assumption.
      * destruct (gt (rollingAverage a b s) maxFrameTime) eqn:G.
        -- rewrite tick_stops; [|exact Em|exact Es|rewrite rollingAverage_entered; exact G].
           rewrite rollingAverage_entered, recordFrameTime_eq.
           apply Hstop; assumption.
        -- rewrite tick_grows; [|exact Em|exact Es|rewrite rollingAverage_entered; exact G].
           destruct (cleaned_facts a b I0 Em) as (old & Htm & _ & Hu & E & _).
           unfold grown. rewrite E, rollingAverage_entered. unfold counted.
           rewrite recordFrameTime_eq.
           change (testMeshes (entered s)) with (testMeshes s) in Htm.
           change (nextUid (entered s)) with (nextUid s) in Hu.
           assert (Hrm : scene_remove old (scene s) =
                         [ambientLight; directionalLight; baselineCube]).
           { rewrite (inv_scene I), Htm.
             apply (scene_remove_last old [ambientLight; directionalLight; baselineCube]).
             intros c [<-|[<-|[<-|[]]]]; simpl; lia. }
           exact (Hgrow events s a b old I IH Em Es G Htm Hrm).
  - destruct (step_not_frame s e F) as (extra & Hsame & Htr & Hq).
    apply (Hquiet events s (step s e) e extra); assumption.
Qed.
End RunInduction.

(* ================================================================== *)
(** * The accounts of a run *)

Lemma rendered_app (t extra : list Effect) :
  rendered (t ++ extra) = rendered t ++ rendered extra.
Proof. unfold rendered. apply List.flat_map_app. Qed.

Lemma rendered_quiet (extra : list Effect) :
  forallb quiet extra = true -> rendered extra = [].
Proof.
  induction extra as [|e extra IH]; intros H; [reflexivity|].
  simpl in H. apply andb_prop in H as [He H].
  destruct e; try discriminate; simpl; auto.
Qed.

Lemma skipn_snoc_full {A : Type} (n : nat) (l : list A) (x : A) :
  n <= List.length l -> List.skipn n (l ++ [x]) = List.skipn n l ++ [x].
Proof.
  intros H. rewrite List.skipn_app.
  replace (n - List.length l) with 0 by lia. reflexivity.
Qed.

Lemma growths_count (s : State) (k : nat) :
  currentVertexCount s = (1000 * Z.of_nat k)%Z -> growths s = k.
Proof.
  intros H. unfold growths. rewrite H.
  rewrite Z.mul_comm, Z.div_mul by lia. apply Nat2Z.id.
Qed.

(** The scenes rendered so far, when one more frame renders. *)
Lemma rendered_next (n k k' : nat) (children : list Object3D) :
  children = sceneAfter (Nat.min (n - 59) k') ->
  (forall i, i < n -> Nat.min (i - 59) k' = Nat.min (i - 59) k) ->
  List.map (fun i => sceneAfter (Nat.min (i - 59) k)) (seq 0 n) ++ [children] =
  List.map (fun i => sceneAfter (Nat.min (i - 59) k')) (seq 0 (n + 1)).
Proof.
  intros Hc Hk. rewrite Nat.add_1_r, List.seq_S, List.map_app. simpl.
  rewrite Hc. f_equal. apply List.map_ext_in. intros i Hi.
  apply List.in_seq in Hi. rewrite Hk by lia. reflexivity.
Qed.

Section LedgerFacts.
Context {fmt : NumberFormat}.

Lemma samples_of_snoc_frame (events : list Event) (a b : float) :
  samples_of (events ++ [Frame a b]) = samples_of events ++ [(b - a)%float].
Proof. rewrite samples_of_app. reflexivity. Qed.

Lemma samples_of_snoc_quiet (events : list Event) (e : Event) :
  is_frame e = false -> samples_of (events ++ [e]) = samples_of events.
Proof.
  intros F. rewrite samples_of_app, (samples_of_not_frame e F). apply List.app_nil_r.
Qed.

Lemma window_push_cons (w : list float) (x : float) :
  exists y rest, window_push w x = y :: rest.
Proof.
  destruct (window_push_nonempty w x) as [L _].
  destruct (window_push w x) as [|y rest]; [simpl in L; lia|]. eauto.
Qed.

Lemma lastn_skipn_short (l : list float) :
  List.length l <= 60 -> lastn 60 (List.skipn 60 l) = [].
Proof. intros H. rewrite List.skipn_all2 by exact H. reflexivity. Qed.

Lemma Ledger_run (events : list Event) : exists k : nat, Ledger events (run events) k.
Proof.
  apply (run_induction (fun events s => exists k : nat, Ledger events s k)).
  - exists 0. constructor; try reflexivity; simpl; try discriminate; try lia.
  - intros ev s s' e extra I [k L] F [] Htr Hq. exists k.
    destruct L. constructor;
      rewrite ?(samples_of_snoc_quiet ev e F), ?same_scene0, ?same_currentVertexCount0,
        ?same_logs0, ?same_nextUid0, ?same_isMeasuringBaseline0, ?same_isTestStopped0,
        ?same_frameTimes0; try assumption.
    + unfold reportOf, finalReport, baselineReport, progressReport in *.
      rewrite ?same_isTestStopped0, ?same_frameTimes0, ?same_currentVertexCount0,
        ?same_baselineFrameTime0. assumption.
    + rewrite Htr, rendered_app, (rendered_quiet extra Hq), List.app_nil_r. assumption.
  - intros ev s a b I [k L] Em Hn. exists k. destruct L.
    destruct (inv_measuring I Em) as (Hst & Hvc & Hft & Hlg & Htm).
    rewrite Em in led_frames0. subst k.
    constructor; frame_fields; rewrite ?samples_of_snoc_frame, ?List.length_app, ?Em, ?Hst;
      simpl List.length; try assumption; try discriminate; try reflexivity.
    + rewrite Hlg. reflexivity.
    + intros _. rewrite Hft, lastn_skipn_short; [reflexivity|].
      rewrite List.length_app. simpl. lia.
    + rewrite Hft. congruence.
    + rewrite <- !List.app_assoc, rendered_app. simpl. rewrite led_rendered0.
      apply rendered_next; [|reflexivity].
      rewrite led_scene0. replace (List.length (samples_of ev) - 59) with 0 by lia.
      reflexivity.
  - intros ev s a b I [k L] Em Hn. exists 1. destruct L.
    destruct (inv_measuring I Em) as (Hst & Hvc & Hft & Hlg & Htm).
    rewrite Em in led_frames0. subst k.
    constructor; frame_fields; rewrite ?samples_of_snoc_frame, ?List.length_app, ?Em, ?Hst;
      simpl List.length; try assumption; try discriminate; try reflexivity.
    + unfold push. rewrite List.length_app, Hlg. reflexivity.
    + rewrite led_scene0, led_nextUid0. reflexivity.
    + rewrite led_nextUid0. reflexivity.
    + lia.
    + intros _. rewrite Hft, lastn_skipn_short; [reflexivity|].
      rewrite List.length_app. simpl. lia.
    + intros _. unfold push. rewrite List.last_last. unfold reportOf. fields.
      rewrite Hst, Hft. reflexivity.
    + rewrite Hft. congruence.
    + rewrite <- !List.app_assoc, rendered_app. simpl. rewrite led_rendered0.
      apply rendered_next.
      * rewrite led_scene0, Hn. reflexivity.
      * intros i Hi. replace (i - 59) with 0 by lia. reflexivity.
  - intros ev s a b I [k L] Em Es. exists k. destruct L.
    rewrite Em, Es in led_frames0. rewrite Es in led_logs0, led_budget0.
    constructor; frame_fields; rewrite ?samples_of_snoc_frame, ?List.length_app, ?Em, ?Es;
      simpl List.length; try assumption; try discriminate; try reflexivity; try lia.
    + intros _. rewrite (led_last0 Em). unfold reportOf, finalReport. fields.
      rewrite Es. reflexivity.
    + rewrite <- !List.app_assoc, rendered_app. simpl. rewrite led_rendered0.
      apply rendered_next.
      * rewrite led_scene0. f_equal. lia.
      * reflexivity.
  - intros ev s a b I [k L] Em Es G. exists k. destruct L.
    rewrite Em, Es in led_frames0. rewrite Es in led_logs0, led_budget0.
    assert (Avg : rollingAverage a b s = average (window_push (frameTimes s) (b - a)%float))
      by (unfold rollingAverage; rewrite recordFrameTime_window; reflexivity).
    constructor; frame_fields; rewrite ?samples_of_snoc_frame, ?List.length_app, ?Em, ?Es;
      simpl List.length; try assumption; try discriminate; try reflexivity; try lia.
    + unfold push. rewrite List.length_app, led_logs0. simpl. lia.
    + intros _. unfold push. rewrite List.last_last. unfold reportOf, finalReport. fields.
      rewrite Avg. reflexivity.
    + intros _. rewrite <- Avg. exact G.
    + rewrite <- !List.app_assoc, rendered_app. simpl. rewrite led_rendered0.
      apply rendered_next.
      * rewrite led_scene0. f_equal. lia.
      * reflexivity.
  - intros ev s a b old I [k L] Em Es G Htm Hrm. exists (k + 1). destruct L.
    rewrite Em, Es in led_frames0. rewrite Es in led_logs0, led_budget0.
    assert (Avg : rollingAverage a b s = average (window_push (frameTimes s) (b - a)%float))
      by (unfold rollingAverage; rewrite recordFrameTime_window; reflexivity).
    destruct (window_push_cons (frameTimes s) (b - a)%float) as (y & rest & W).
    assert (Hn : 60 <= List.length (samples_of ev))
      by (apply Nat.ltb_ge; rewrite <- (inv_phase I); exact Em).
    constructor; frame_fields;
      rewrite ?samples_of_snoc_frame, ?List.length_app, ?Em, ?Es, ?Hrm;
      simpl List.length; try assumption; try discriminate; try reflexivity; try lia.
    + unfold push. rewrite List.length_app, led_logs0. simpl. lia.
    + assert (M : {| obj_uid := nextUid s;
                     obj_kind := TestMesh (currentVertexCount s + 1000);
                     obj_x := 2 |} = testMeshAt (S k)).
      { unfold testMeshAt. rewrite led_nextUid0, led_count0.
        f_equal; try lia. f_equal. lia. }
      rewrite M, Nat.add_1_r. reflexivity.
    + intros _. rewrite (led_window0 Es), window_push_lastn.
      rewrite skipn_snoc_full by lia. reflexivity.
    + intros _. unfold push. rewrite List.last_last.
      unfold reportOf, progressReport. fields. rewrite Avg, W, Es. reflexivity.
    + intros _. rewrite <- Avg. exact G.
    + rewrite <- !List.app_assoc, rendered_app. simpl. rewrite led_rendered0.
      apply rendered_next.
      * rewrite led_scene0. f_equal. lia.
      * intros i Hi. lia.
Qed.
End LedgerFacts.

Section LedgerTheorems.
Context {fmt : NumberFormat}.

(** X3.  In every state of a run the vertex count is 1000 times the number
    of report lines, not counting the final report; the scene is the two
    lights and the cube and, once the baseline is known, the one test mesh
    of that vertex count; and as many test meshes were ever created as
    there were growths. *)
Theorem vertex_count_follows_reports (events : list Event) :
  let s := run events in
  currentVertexCount s =
    (1000 * (Z.of_nat (List.length (logs s)) - (if isTestStopped s then 1 else 0)))%Z /\
  currentVertexCount s = (1000 * Z.of_nat (growths s))%Z /\
  scene s = sceneAfter (growths s) /\
  nextUid s = 3 + growths s.
Proof.
  intros s. destruct (Ledger_run events) as [k L]. fold s in L.
  rewrite (@growths_count s k (led_count L)).
  rewrite (led_count L), (led_logs L), (led_scene L), (led_nextUid L).
  repeat split; try reflexivity. destruct (isTestStopped s); lia.
Qed.

(** X4.  While the test is running, after [n] frames in all: the vertex
    count is 1000 (n - 59), there are n - 59 report lines, and the window
    holds the durations of the last 60 frames since the baseline, or of all
    of them while there are fewer. *)
Theorem stepping_accounts (events : list Event) :
  let s := run events in
  let n := List.length (samples_of events) in
  phase s = Stepping ->
  60 <= n /\
  currentVertexCount s = (1000 * (Z.of_nat n - 59))%Z /\
  List.length (logs s) = n - 59 /\
  frameTimes s = lastn 60 (List.skipn 60 (samples_of events)).
Proof.
  intros s n Hp. apply phase_Stepping in Hp as [Em Es].
  destruct (Ledger_run events) as [k L]. fold s in L.
  pose proof (led_frames L) as F. rewrite Em, Es in F. fold n in F.
  pose proof (inv_phase (Inv_run events)) as Hph. fold s n in Hph. rewrite Em in Hph.
  symmetry in Hph. apply Nat.ltb_ge in Hph.
  split; [exact Hph|]. rewrite (led_count L), (led_logs L), Es.
  split; [lia|]. split; [lia|]. exact (led_window L Es).
Qed.

(** X5.  Once the baseline is known, the last report line is the report of
    the current state: the baseline report before the first frame of the
    test, then the progress report on the current window, then, for good,
    the final report.  The test is stopped exactly when the average of the
    window kept exceeds the budget. *)
Theorem last_report_describes_state (events : list Event) :
  let s := run events in
  (isMeasuringBaseline s = false -> List.last (logs s) EmptyString = reportOf s) /\
  (frameTimes s <> [] ->
   gt (average (frameTimes s)) maxFrameTime = isTestStopped s).
Proof.
  intros s. destruct (Ledger_run events) as [k L]. fold s in L.
  split; [exact (led_last L) | exact (led_budget L)].
Qed.

(** X6.  Every frame renders exactly once, and what it renders is known
    from its number: frames 0 to 59 render the lights and the cube alone;
    a later frame [i] renders them with the test mesh of the growth
    [min (i - 59) k], where [k] is the number of growths made so far.  A
    frame is thus timed on the mesh that the frame before created. *)
Theorem rendered_scenes (events : list Event) :
  let s := run events in
  let n := List.length (samples_of events) in
  rendered (trace s) =
    List.map (fun i => sceneAfter (Nat.min (i - 59) (growths s))) (seq 0 n) /\
  List.length (rendered (trace s)) = n.
Proof.
  intros s n. destruct (Ledger_run events) as [k L]. fold s in L.
  rewrite (@growths_count s k (led_count L)), (led_rendered L).
  split; [reflexivity|]. rewrite List.length_map, List.length_seq. reflexivity.
Qed.
End LedgerTheorems.

(** X4 on a concrete run: the baseline and two frames of the test. *)
Lemma stepping_accounts_witness :
  currentVertexCount
    (run (fmt := EnUS.format) (baselineRun ++ List.repeat (Frame 0 10) 2)) = 3000%Z.
Proof.
  assert (P : phase (run (fmt := EnUS.format) (baselineRun ++ List.repeat (Frame 0 10) 2)) =
              Stepping) by (vm_compute; reflexivity).
  destruct (@stepping_accounts EnUS.format (baselineRun ++ List.repeat (Frame 0 10) 2) P)
    as (_ & V & _).
  etransitivity; [exact V|]. vm_compute. reflexivity.
Defined.

(* ================================================================== *)
(** * No use after release *)

Lemma Safe_quiet (t extra : list Effect) :
  Safe t -> forallb quiet extra = true -> Safe (t ++ extra).
Proof.
  revert t. induction extra as [|e extra IH]; intros t S Q.
  - rewrite List.app_nil_r. exact S.
  - simpl in Q. apply andb_prop in Q as [Qe Q].
    change (e :: extra) with ([e] ++ extra). rewrite List.app_assoc.
    apply IH; [|exact Q]. apply Safe_snoc; [exact S|].
    destruct e; try discriminate; exact I.
Qed.

Lemma disposedIn_quiet (t extra : list Effect) (uid : nat) :
  forallb quiet extra = true -> disposedIn (t ++ extra) uid -> disposedIn t uid.
Proof.
  intros Q [H|H]; apply List.in_app_or in H as [H|H]; try (left; exact H);
    try (right; exact H); exfalso;
    rewrite List.forallb_forall in Q; apply Q in H; discriminate.
Qed.

Section SafeTraces.
Context {fmt : NumberFormat}.

(** In a state of a run, rendering the scene is in order. *)
Lemma render_allowed (events : list Event) (s : State) (extra : list Effect) :
  Inv events s -> forallb quiet extra = true ->
  allowed (trace s ++ extra) (Render (scene s)).
Proof.
  intros I Q o Ho D. apply (disposedIn_quiet _ _ Q) in D.
  destruct (inv_disposed I _ D) as [Hu Hm].
  rewrite (inv_scene I) in Ho. destruct Ho as [<-|[<-|Ho]]; simpl in Hu; try lia.
  exact (Hm o Ho eq_refl).
Qed.

Lemma Safe_frame (events : list Event) (s : State) :
  Inv events s -> Safe (trace s) ->
  Safe (trace s ++ [RequestAnimationFrame; ControlsUpdate; Render (scene s)]).
Proof.
  intros I S.
  change [RequestAnimationFrame; ControlsUpdate; Render (scene s)]
    with ([RequestAnimationFrame; ControlsUpdate] ++ [Render (scene s)]).
  rewrite List.app_assoc. apply Safe_snoc.
  - apply Safe_quiet; [exact S|reflexivity].
  - apply (render_allowed _ I). reflexivity.
Qed.

Lemma Safe_run (events : list Event) : Safe (trace (run events)).
Proof.
  apply (run_induction (fun _ s => Safe (trace s))).
  - apply Safe_nil.
  - intros ev s s' e extra I S F Same Htr Q. rewrite Htr. apply Safe_quiet; assumption.
  - intros ev s a b I S Em Hn. frame_fields. rewrite <- !List.app_assoc.
    apply (Safe_frame I S).
  - intros ev s a b I S Em Hn. frame_fields. rewrite <- !List.app_assoc.
    change ([RequestAnimationFrame] ++ [ControlsUpdate] ++ [Render (scene s)] ++ [DetectChanges])
      with ([RequestAnimationFrame; ControlsUpdate; Render (scene s)] ++ [DetectChanges]).
    rewrite List.app_assoc. apply Safe_quiet; [apply (Safe_frame I S)|reflexivity].
  - intros ev s a b I S Em Es. frame_fields. rewrite <- !List.app_assoc.
    apply (Safe_frame I S).
  - intros ev s a b I S Em Es G. frame_fields. rewrite <- !List.app_assoc.
    change ([RequestAnimationFrame] ++ [ControlsUpdate] ++ [Render (scene s)] ++ [DetectChanges])
      with ([RequestAnimationFrame; ControlsUpdate; Render (scene s)] ++ [DetectChanges]).
    rewrite List.app_assoc. apply Safe_quiet; [apply (Safe_frame I S)|reflexivity].
  - intros ev s a b old I S Em Es G Htm Hrm. frame_fields.
    assert (Hold : forall t' : list Effect,
               forallb quiet t' = true -> ~ disposedIn (trace s ++ t') (obj_uid old)).
    { intros t' Q D. apply (disposedIn_quiet _ _ Q) in D.
      destruct (inv_disposed I _ D) as [_ Hm].
      apply (Hm old); [rewrite Htm; simpl; auto|reflexivity]. }
    pose proof (Safe_frame I S) as S1.
    assert (S2 : Safe ((trace s ++ [RequestAnimationFrame; ControlsUpdate; Render (scene s)])
                         ++ [DisposeGeometry (obj_uid old)])).
    { apply Safe_snoc; [exact S1|]. intros H.
      apply List.in_app_or in H as [H|H].
      - apply (Hold [] eq_refl). left. rewrite List.app_nil_r. exact H.
      - simpl in H. intuition discriminate. }
    assert (S3 : Safe (((trace s ++ [RequestAnimationFrame; ControlsUpdate; Render (scene s)])
                          ++ [DisposeGeometry (obj_uid old)])
                         ++ [DisposeMaterial (obj_uid old)])).
    { apply Safe_snoc; [exact S2|]. intros H.
      apply List.in_app_or in H as [H|H]; [|simpl in H; intuition discriminate].
      apply List.in_app_or in H as [H|H]; [|simpl in H; intuition discriminate].
      apply (Hold [] eq_refl). right. rewrite List.app_nil_r. exact H. }
    rewrite <- !List.app_assoc in *. simpl in *.
    change (trace s ++ RequestAnimationFrame :: ControlsUpdate :: Render (scene s)
              :: DisposeGeometry (obj_uid old) :: DisposeMaterial (obj_uid old)
              :: [DetectChanges])
      with (trace s ++ [RequestAnimationFrame; ControlsUpdate; Render (scene s);
                        DisposeGeometry (obj_uid old); DisposeMaterial (obj_uid old)]
              ++ [DetectChanges]).
    rewrite List.app_assoc. apply Safe_quiet; [exact S3|reflexivity].
Qed.

(** X7.  The calls of a run are in order, each at the time it is made: no
    frame renders a mesh whose geometry or material was disposed of, and no
    geometry and no material is disposed of twice.  Nothing that is in the
    scene has been disposed of. *)
Theorem no_use_after_release (events : list Event) :
  Safe (trace (run events)) /\
  (forall o : Object3D,
     In o (scene (run events)) -> ~ disposedIn (trace (run events)) (obj_uid o)) /\
  (forall before children after,
     trace (run events) = before ++ Render children :: after ->
     forall o : Object3D, In o children -> ~ disposedIn before (obj_uid o)).
Proof.
  split; [apply Safe_run|]. split.
  { pose proof (render_allowed [] (Inv_run events) eq_refl) as A.
    rewrite List.app_nil_r in A. exact A. }
  pose proof (Safe_run events) as S. revert S.
  generalize (trace (run events)). intros t S.
  induction S as [|t e S IH A]; intros before children after E.
  - destruct before; discriminate.
  - destruct after as [|x after _] using List.rev_ind.
    + apply List.app_inj_tail in E as [-> ->]. exact A.
    + change (Render children :: after ++ [x]) with ((Render children :: after) ++ [x]) in E.
      rewrite List.app_assoc in E. apply List.app_inj_tail in E as [-> _].
      apply (IH before children after). reflexivity.
Qed.
End SafeTraces.

(* ================================================================== *)
(** * The report log and the copies *)

Section CopyFacts.
Context {fmt : NumberFormat}.

(** A frame leaves the bookkeeping of the copies alone. *)
Lemma tick_timers (a b : float) (s : State) :
  timers (tick a b s) = timers s /\ pendingCopies (tick a b s) = pendingCopies s.
Proof.
  unfold tick, measureBaselinePerformance, measurePerformance.
  destruct (isMeasuringBaseline s).
  - fields.
    destruct (Nat.leb 60 (List.length (push (b - a)%float (baselineMeasurements s))));
      split; reflexivity.
  - destruct (isTestStopped s); [split; reflexivity|].
    destruct (gt (average (frameTimes (recordFrameTime a b s))) maxFrameTime).
    + rewrite recordFrameTime_eq. split; reflexivity.
    + rewrite recordFrameTime_eq. fields. unfold cleanupMeshes.
      rewrite cleanupMeshes_loop_spec by lia. split; reflexivity.
Qed.

(** A frame of a running test always reports. *)
Lemma running_tick_reports (a b : float) (s : State) :
  isMeasuringBaseline s = false -> isTestStopped s = false ->
  exists line : string,
    logs (tick a b s) = logs s ++ [line] /\
    statusText (tick a b s) = join NL (logs s ++ [line]).
Proof.
  intros Em Es. unfold tick, measurePerformance. rewrite Em, Es.
  destruct (gt (average (frameTimes (recordFrameTime a b s))) maxFrameTime).
  - rewrite recordFrameTime_eq. eexists. split; reflexivity.
  - rewrite recordFrameTime_eq. fields. unfold cleanupMeshes.
    rewrite cleanupMeshes_loop_spec by lia. fields. eexists. split; reflexivity.
Qed.

Lemma step_logs (s : State) (e : Event) :
  exists added : list string,
    logs (step s e) = logs s ++ added /\
    List.length added <= List.length (samples_of [e]).
Proof.
  destruct e as [a b| |ok| |]; simpl.
  - rewrite animate_entered.
    destruct (tick_report a b (entered s)) as [[L _]|[line [L _]]]; rewrite L.
    + exists []. rewrite List.app_nil_r. split; [reflexivity|simpl; lia].
    + exists [line]. split; [reflexivity|simpl; lia].
  - exists []. rewrite List.app_nil_r. split; [reflexivity|simpl; lia].
  - exists []. rewrite List.app_nil_r. split; [|simpl; lia].
    unfold copyResults_resume. destruct (pendingCopies s); [reflexivity|].
    destruct ok; reflexivity.
  - exists []. rewrite List.app_nil_r. split; [|simpl; lia].
    unfold copyResults_restore. destruct (timers s); reflexivity.
  - exists []. rewrite List.app_nil_r. split; [reflexivity|simpl; lia].
Qed.

(** X8.  The report log is append-only: whatever happens from any state,
    the lines already emitted stay, in order, as the first lines of the
    log, and at most one line is added per frame. *)
Theorem logs_append_only (s : State) (more : list Event) :
  exists added : list string,
    logs (run_from s more) = logs s ++ added /\
    List.length added <= List.length (samples_of more).
Proof.
  revert s. induction more as [|e more IH]; intros s.
  - exists []. rewrite List.app_nil_r. split; [reflexivity|simpl; lia].
  - change (e :: more) with ([e] ++ more).
    rewrite run_from_app, samples_of_app, List.length_app.
    change (run_from s [e]) with (step s e).
    destruct (step_logs s e) as (a1 & L1 & N1).
    destruct (IH (step s e)) as (a2 & L2 & N2).
    exists (a1 ++ a2). rewrite L2, L1, <- List.app_assoc, List.length_app.
    split; [reflexivity|lia].
Qed.

(** X9.  A copy that succeeds, with no timer armed before it: the status
    text is handed to the clipboard, shown with the notice, and put back as
    it was when the timer fires; nothing else of the component changes. *)
Theorem copy_round_trip (s : State) :
  timers s = [] ->
  let shown := run_from s [CopyClick; CopySettled true] in
  let s' := run_from s [CopyClick; CopySettled true; TimerFired] in
  statusText shown = (statusText s ++ copiedNotice)%string /\
  statusText s' = statusText s /\
  timers s' = [] /\
  pendingCopies s' = pendingCopies s /\
  SameController s s' /\
  trace s' =
    trace s ++ [ClipboardWrite (statusText s); SetTimeout 2000; DetectChanges;
                DetectChanges].
Proof.
  intros T. simpl. unfold copyResults_restore, copyResults_resume, copyResults_begin.
  fields. rewrite T. simpl. fields.
  repeat split; try reflexivity. rewrite <- !List.app_assoc. reflexivity.
Qed.

(** X10.  Two copies that both succeed before the first timer fires: the
    second copy exports the text with the notice of the first, its timer
    puts that text back, and the notice stays in the status text. *)
Theorem second_copy_keeps_notice (s : State) :
  timers s = [] ->
  let s' := run_from s [CopyClick; CopySettled true; CopyClick; CopySettled true;
                        TimerFired; TimerFired] in
  statusText s' = (statusText s ++ copiedNotice)%string /\
  timers s' = [] /\
  In (ClipboardWrite (statusText s ++ copiedNotice)%string) (trace s').
Proof.
  intros T. simpl. unfold copyResults_restore, copyResults_resume, copyResults_begin.
  fields. rewrite T. simpl. fields.
  repeat split; try reflexivity.
  rewrite !List.in_app_iff. simpl. tauto.
Qed.

Lemma frames_timers (events : list Event) :
  forallb is_frame events = true ->
  timers (run events) = [] /\ pendingCopies (run events) = 0.
Proof.
  induction events as [|e events IH] using List.rev_ind; intros F.
  - split; reflexivity.
  - rewrite List.forallb_app in F. apply andb_prop in F as [F Fe].
    destruct (IH F) as [T P]. rewrite run_snoc.
    destruct e as [a b| | | |]; try discriminate. simpl. rewrite animate_entered.
    destruct (tick_timers a b (entered (run events))) as [T' P'].
    rewrite T', P'. split; assumption.
Qed.

(** X11.  A copy made while the test runs can take the newest report off
    the screen: after a successful copy, a frame that reports, and then the
    timer of the copy, the log has the new line but the status text, the
    text of the next export, is the older text without it. *)
Theorem timer_restores_stale_text (events : list Event) (a b : float) :
  forallb is_frame events = true ->
  phase (run events) = Stepping ->
  let s := run events in
  let s' := run (events ++ [CopyClick; CopySettled true; Frame a b; TimerFired]) in
  exportReport s = join NL (logs s) /\
  (exists line : string, logs s' = logs s ++ [line]) /\
  exportReport s' = join NL (logs s).
Proof.
  intros F Hp s s'. apply phase_Stepping in Hp as [Em Es]. fold s in Em, Es.
  destruct (frames_timers events F) as [T P]. fold s in T, P.
  pose proof (frames_report events F) as R. fold s in R.
  destruct (inv_testing (Inv_run events) Em) as (Hlg & _). fold s in Hlg.
  assert (R' : statusText s = join NL (logs s))
    by (rewrite R; destruct (logs s); [congruence|reflexivity]).
  unfold s'. rewrite run_app. fold s. clearbody s. simpl.
  unfold copyResults_resume, copyResults_begin. fields.
  set (t := emit DetectChanges _).
  assert (Tt : timers t = [statusText s]) by (unfold t; fields; rewrite T; reflexivity).
  assert (Lt : logs t = logs s) by reflexivity.
  assert (Emt : isMeasuringBaseline (entered t) = false) by exact Em.
  assert (Est : isTestStopped (entered t) = false) by exact Es.
  rewrite animate_entered.
  destruct (running_tick_reports a b (entered t) Emt Est) as (line & L & _).
  destruct (tick_timers a b (entered t)) as [T' _].
  change (timers (entered t)) with (timers t) in T'.
  change (logs (entered t)) with (logs t) in L.
  clearbody t. unfold copyResults_restore, exportReport. rewrite T', Tt. fields.
  rewrite L, Lt. split; [exact R'|]. split; [exists line; reflexivity|exact R'].
Qed.
End CopyFacts.

(** X9 on the initial state. *)
Lemma copy_round_trip_witness :
  statusText (run_from (fmt := EnUS.format) init [CopyClick; CopySettled true; TimerFired]) =
  "Initializing..."%string.
Proof.
  assert (T : timers init = []) by reflexivity.
  destruct (@copy_round_trip EnUS.format init T) as (_ & R & _).
  exact R.
Defined.

(** X10 on the initial state. *)
Lemma second_copy_keeps_notice_witness :
  timers (run_from (fmt := EnUS.format) init
            [CopyClick; CopySettled true; CopyClick; CopySettled true;
             TimerFired; TimerFired]) = [].
Proof.
  assert (T : timers init = []) by reflexivity.
  destruct (@second_copy_keeps_notice EnUS.format init T) as (_ & R & _).
  exact R.
Defined.

(** X11 after the baseline: the line of the first growth is not shown. *)
Lemma timer_restores_stale_text_witness :
  exportReport
    (run (fmt := EnUS.format)
       (baselineRun ++ [CopyClick; CopySettled true; Frame 0 10; TimerFired])) =
  join NL (logs (run (fmt := EnUS.format) baselineRun)).
Proof.
  assert (F : forallb is_frame baselineRun = true) by (vm_compute; reflexivity).
  assert (P : phase (run (fmt := EnUS.format) baselineRun) = Stepping)
    by (vm_compute; reflexivity).
  destruct (@timer_restores_stale_text EnUS.format baselineRun 0%float 10%float F P)
    as (_ & _ & R).
  exact R.
Defined.

(* ================================================================== *)
(** * A frame time that is no number *)

Section NotANumber.
Local Open Scope float_scope.

Lemma is_nan_Prim2SF (x : float) : is_nan x = true <-> Prim2SF x = S754_nan.
Proof.
  unfold Prim2SF. destruct (is_nan x); split; intros H; try reflexivity; try discriminate.
  exfalso. destruct (PrimFloat.is_zero x); [discriminate|].
  destruct (PrimFloat.is_infinity x); [discriminate|].
  destruct (Z.frexp x) as [r e].
  destruct (shr_fexp _ _ _ _ _) as [shr e'].
  destruct (shr_m shr); discriminate.
Qed.

Lemma add_nan_l (x y : float) : is_nan x = true -> is_nan (x + y) = true.
Proof.
  rewrite !is_nan_Prim2SF, FloatAxioms.add_spec. intros ->. reflexivity.
Qed.

Lemma add_nan_r (x y : float) : is_nan y = true -> is_nan (x + y) = true.
Proof.
  rewrite !is_nan_Prim2SF, FloatAxioms.add_spec. intros ->. unfold SF64add, SFadd.
  destruct (Prim2SF x); reflexivity.
Qed.

Lemma div_nan_l (x y : float) : is_nan x = true -> is_nan (x / y) = true.
Proof.
  rewrite !is_nan_Prim2SF, FloatAxioms.div_spec. intros ->. reflexivity.
Qed.

Lemma gt_nan (x y : float) : is_nan x = true -> gt x y = false.
Proof.
  rewrite is_nan_Prim2SF. intros H. unfold gt.
  rewrite FloatAxioms.ltb_spec, H. unfold SFltb, SFcompare.
  destruct (Prim2SF y); reflexivity.
Qed.

Lemma sum_nan (w : list float) (acc : float) :
  is_nan acc = true \/ (exists x, In x w /\ is_nan x = true) ->
  is_nan (fold_left PrimFloat.add w acc) = true.
Proof.
  revert acc. induction w as [|y w IH]; intros acc [H|(x & Hx & Hn)]; simpl.
  - exact H.
  - destruct Hx.
  - apply IH. left. apply add_nan_l. exact H.
  - apply IH. destruct Hx as [<-|Hx].
    + left. apply add_nan_r. exact Hn.
    + right. exists x. auto.
Qed.

(** The average of a window that holds a NaN is NaN. *)
Lemma average_nan (w : list float) :
  (exists x, In x w /\ is_nan x = true) -> is_nan (average w) = true.
Proof.
  intros H. unfold average, averageOver, reduce. simpl.
  apply div_nan_l, sum_nan. right. exact H.
Qed.

Lemma window_push_last (w : list float) (x : float) : In x (window_push w x).
Proof.
  destruct (window_push_nonempty w x) as [L E].
  destruct (window_push w x) as [|y rest] eqn:W using List.rev_ind; [simpl in L; lia|].
  rewrite List.last_last in E. subst y. apply List.in_or_app. right. left. reflexivity.
Qed.
End NotANumber.

Section NotANumberFrames.
Context {fmt : NumberFormat}.

(** X12.  A frame time that is NaN counts as within the budget: while the
    window holds a NaN (the frame's own duration, for one) the average is
    NaN, the comparison with 16.67 is false, and a frame taken in
    [Stepping] grows the test by 1000 vertices and stays in [Stepping]. *)
Theorem nan_frame_time_grows (events : list Event) (a b : float) :
  let s := run events in
  phase s = Stepping ->
  (exists x : float,
     In x (window_push (frameTimes s) (b - a)%float) /\ PrimFloat.is_nan x = true) ->
  let s' := step s (Frame a b) in
  PrimFloat.is_nan (rollingAverage a b s) = true /\
  phase s' = Stepping /\
  currentVertexCount s' = (currentVertexCount s + 1000)%Z /\
  (PrimFloat.is_nan (b - a)%float = true ->
   exists x : float,
     In x (window_push (frameTimes s) (b - a)%float) /\ PrimFloat.is_nan x = true).
Proof.
  intros s Hp Hx s'.
  assert (N : PrimFloat.is_nan (rollingAverage a b s) = true).
  { unfold rollingAverage. rewrite recordFrameTime_window. apply average_nan. exact Hx. }
  pose proof (gt_nan (rollingAverage a b s) maxFrameTime N) as G.
  destruct (@growing_frame fmt events a b Hp G)
    as (old & Htm & Hk & Hu & E & Ctm & Csc & Cnu & Cvc & Ctr).
  fold s in Htm, Hk, Hu, E, Ctm, Csc, Cnu, Cvc, Ctr.
  apply phase_Stepping in Hp as [Em Es].
  pose proof (Inv_entered (Inv_run events)) as I. fold s in I.
  destruct (cleaned_facts a b I Em) as (old' & _ & _ & _ & E' & _).
  assert (Cm : isMeasuringBaseline (cleaned a b (entered s)) = false)
    by (rewrite E'; unfold cleanupMesh, counted; rewrite recordFrameTime_eq; exact Em).
  assert (Cs : isTestStopped (cleaned a b (entered s)) = false)
    by (rewrite E'; unfold cleanupMesh, counted; rewrite recordFrameTime_eq; exact Es).
  clear E' I old'. split; [exact N|]. subst s'. clearbody s.
  set (c := cleaned a b (entered s)) in *. clearbody c.
  rewrite E. unfold phase. fields. rewrite Cm, Cs, Cvc.
  split; [reflexivity|]. split; [reflexivity|].
  intros Hn. exists (b - a)%float. split; [apply window_push_last|exact Hn].
Qed.
End NotANumberFrames.

(** X12 on a concrete run: after the baseline, a frame whose clock readings
    are both infinite has the duration NaN, and the test grows to 2000. *)
Lemma nan_frame_time_grows_witness :
  currentVertexCount
    (step (fmt := EnUS.format) (run (fmt := EnUS.format) baselineRun)
       (Frame infinity infinity)) = 2000%Z.
Proof.
  assert (P : phase (run (fmt := EnUS.format) baselineRun) = Stepping)
    by (vm_compute; reflexivity).
  assert (X : exists x : float,
             In x (window_push (frameTimes (run (fmt := EnUS.format) baselineRun))
                     (infinity - infinity)%float) /\
             PrimFloat.is_nan x = true).
  { exists (infinity - infinity)%float. split; [vm_compute; auto|vm_compute; reflexivity]. }
  destruct (@nan_frame_time_grows EnUS.format baselineRun infinity infinity P X)
    as (_ & _ & V & _).
  etransitivity; [exact V|]. vm_compute. reflexivity.
Defined.

(* ================================================================== *)
(** * The two windows stay bounded *)

Section Bounds.
Context {fmt : NumberFormat}.

(** X14.  Neither array of frame times ever holds more than 60 samples.
    The baseline array is the durations of the first 60 frames, in order,
    and no later frame adds to it; the window of the test is empty until
    the baseline is known. *)
Theorem windows_bounded (events : list Event) :
  let s := run events in
  baselineMeasurements s = List.firstn 60 (samples_of events) /\
  List.length (baselineMeasurements s) <= 60 /\
  List.length (frameTimes s) <= 60 /\
  (phase s = MeasuringBaseline -> frameTimes s = []).
Proof.
  intros s. pose proof (Inv_run events) as I. fold s in I.
  split; [exact (inv_baselineMeasurements I)|].
  split; [rewrite (inv_baselineMeasurements I); apply List.firstn_le_length|].
  split; [exact (inv_window I)|].
  intros Hp. apply phase_MeasuringBaseline in Hp.
  destruct (inv_measuring I Hp) as (_ & _ & Hft & _). exact Hft.
Qed.
End Bounds.

(* ================================================================== *)
(** * The test only moves forward *)

Section Forward.
Context {fmt : NumberFormat}.

(** One event on a state of a run. *)
Lemma step_forward (events : list Event) (s : State) (e : Event) :
  Inv events s ->
  (currentVertexCount s <= currentVertexCount (step s e)
   <= currentVertexCount s + (if is_frame e then 1000 else 0))%Z /\
  (isMeasuringBaseline s = false -> isMeasuringBaseline (step s e) = false) /\
  (isTestStopped s = true -> isTestStopped (step s e) = true).
Proof.
  intros I. destruct (is_frame e) eqn:F.
  - destruct e as [a b| | | |]; try discriminate. clear F.
    change (step s (Frame a b)) with (tick a b (entered s)).
    pose proof (Inv_entered I) as I0.
    destruct (isMeasuringBaseline s) eqn:Em.
    + destruct (inv_measuring I Em) as (Es & Hvc & _).
      rewrite Es, Hvc.
      destruct (Nat.lt_ge_cases (List.length (baselineMeasurements s)) 59) as [L|L].
      * rewrite tick_measuring; [|exact Em|exact L].
        frame_fields. rewrite Hvc. repeat split; try lia; discriminate.
      * rewrite tick_calibrates; [|exact Em|exact L].
        frame_fields. repeat split; try lia; discriminate.
    + destruct (isTestStopped s) eqn:Es.
      * rewrite tick_stopped by assumption. frame_fields.
        repeat split; try lia; auto.
      * destruct (gt (rollingAverage a b s) maxFrameTime) eqn:G.
        -- rewrite tick_stops; [|exact Em|exact Es|rewrite rollingAverage_entered; exact G].
           rewrite recordFrameTime_eq. frame_fields.
           repeat split; try lia; auto.
        -- rewrite tick_grows; [|exact Em|exact Es|rewrite rollingAverage_entered; exact G].
           destruct (cleaned_facts a b I0 Em) as (old & _ & _ & _ & E & _ & _ & _ & Cvc & _).
           assert (Cm : isMeasuringBaseline (cleaned a b (entered s)) = false)
             by (rewrite E; unfold cleanupMesh, counted; rewrite recordFrameTime_eq; exact Em).
           change (currentVertexCount (entered s)) with (currentVertexCount s) in Cvc.
           unfold grown. clear E.
           set (c := cleaned a b (entered s)) in *. clearbody c.
           fields. rewrite Cm, Cvc. repeat split; try lia; discriminate.
  - destruct (step_not_frame s e F) as (extra & [] & _).
    rewrite same_currentVertexCount0, same_isMeasuringBaseline0, same_isTestStopped0.
    repeat split; try lia; auto.
Qed.

(** X15.  A run only moves forward.  Whatever events follow, the vertex
    count never goes down and rises by at most 1000 for each further
    frame; once the baseline is known it stays known; once the test is
    stopped it stays stopped. *)
Theorem run_only_moves_forward (events more : list Event) :
  let s := run events in
  let s' := run (events ++ more) in
  (currentVertexCount s <= currentVertexCount s'
   <= currentVertexCount s + 1000 * Z.of_nat (List.length (samples_of more)))%Z /\
  (isMeasuringBaseline s = false -> isMeasuringBaseline s' = false) /\
  (isTestStopped s = true -> isTestStopped s' = true).
Proof.
  cbv zeta. induction more as [|e more IH] using List.rev_ind.
  - rewrite List.app_nil_r. simpl. repeat split; try lia; auto.
  - rewrite List.app_assoc, run_snoc.
    destruct IH as (Hc & Hm & Hs).
    destruct (step_forward e (Inv_run (events ++ more))) as (Hc' & Hm' & Hs').
    assert (Hn : (Z.of_nat (List.length (samples_of (more ++ [e]))) =
                  Z.of_nat (List.length (samples_of more)) + (if is_frame e then 1 else 0))%Z).
    { destruct (is_frame e) eqn:F.
      - destruct e as [a b| | | |]; try discriminate.
        rewrite samples_of_snoc_frame, List.length_app. simpl. lia.
      - rewrite (samples_of_snoc_quiet more e F). lia. }
    rewrite Hn. destruct (is_frame e); repeat split; try lia; auto.
Qed.
End Forward.

(* ================================================================== *)
(** * A copy that fails after the test has stopped *)

Section FailedCopy.
Context {fmt : NumberFormat}.

(** In a stopped test with no timer armed, frames and timers leave the
    status text alone. *)
Lemma stopped_text_stays (more : list Event) (s : State) :
  isMeasuringBaseline s = false -> isTestStopped s = true -> timers s = [] ->
  forallb no_copy more = true ->
  statusText (run_from s more) = statusText s /\
  logs (run_from s more) = logs s /\
  timers (run_from s more) = [] /\
  isMeasuringBaseline (run_from s more) = false /\
  isTestStopped (run_from s more) = true.
Proof.
  revert s. induction more as [|e more IH]; intros s Em Es Ht Hq; simpl; [auto|].
  simpl in Hq. apply andb_prop in Hq as [He Hq].
  assert (St : statusText (step s e) = statusText s /\ logs (step s e) = logs s /\
               timers (step s e) = [] /\ isMeasuringBaseline (step s e) = false /\
               isTestStopped (step s e) = true).
  { destruct e as [a b| | | |]; try discriminate; simpl.
    - rewrite animate_entered, tick_stopped by assumption. unfold entered. fields. auto.
    - unfold copyResults_restore. rewrite Ht. auto. }
  destruct St as (T1 & L1 & Ht1 & Em1 & Es1).
  destruct (IH (step s e) Em1 Es1 Ht1 Hq) as (T2 & L2 & Ht2 & Em2 & Es2).
  rewrite T2, L2, T1, L1. auto.
Qed.

(** X16.  A copy that fails once the test has stopped marks the status
    text for good.  It fails in one of two ways: the clipboard rejects the
    text handed to it, or there is no [navigator.clipboard] and nothing is
    handed over at all.  Either way the failure is logged on the console,
    no timer is armed, and no later frame or timer takes the notice away,
    since a stopped test reports no more.  The next click hands the text
    with the notice to the clipboard where there is one, and adds a second
    notice where there is none. *)
Theorem failed_copy_notice_stays (s : State) (more : list Event) :
  phase s = Stopped ->
  timers s = [] ->
  forallb no_copy more = true ->
  let rejected := run_from s [CopyClick; CopySettled false] in
  let thrown := run_from s [CopyThrows] in
  trace rejected =
    trace s ++ [ClipboardWrite (statusText s); ConsoleError; DetectChanges] /\
  trace thrown = trace s ++ [ConsoleError; DetectChanges] /\
  forall failed : State,
    failed = rejected \/ failed = thrown ->
    let s' := run_from failed more in
    timers failed = [] /\
    statusText s' = (statusText s ++ failedNotice)%string /\
    logs s' = logs s /\
    trace (step s' CopyClick) =
      trace s' ++ [ClipboardWrite (statusText s ++ failedNotice)%string] /\
    statusText (step s' CopyThrows) =
      ((statusText s ++ failedNotice) ++ failedNotice)%string.
Proof.
  intros Hp Ht Hq rejected thrown. apply phase_Stopped in Hp as [Em Es].
  assert (R : trace rejected =
                trace s ++ [ClipboardWrite (statusText s); ConsoleError; DetectChanges]).
  { unfold rejected. simpl. unfold copyResults_resume, copyResults_begin. fields.
    rewrite <- !List.app_assoc. reflexivity. }
  assert (T : trace thrown = trace s ++ [ConsoleError; DetectChanges]).
  { unfold thrown. simpl. unfold copyResults_throws. fields.
    rewrite <- !List.app_assoc. reflexivity. }
  split; [exact R|]. split; [exact T|].
  intros failed Hf s'.
  assert (F : timers failed = [] /\
              statusText failed = (statusText s ++ failedNotice)%string /\
              logs failed = logs s /\
              isMeasuringBaseline failed = false /\ isTestStopped failed = true).
  { destruct Hf as [-> | ->].
    - unfold rejected. simpl. unfold copyResults_resume, copyResults_begin. fields.
      repeat split; first [assumption|reflexivity].
    - unfold thrown. simpl. unfold copyResults_throws. fields.
      repeat split; first [assumption|reflexivity]. }
  destruct F as (Fti & Fst & Flg & Fm & Fs).
  destruct (@stopped_text_stays more failed Fm Fs Fti Hq) as (St & L & _).
  fold s' in St, L.
  split; [exact Fti|]. split; [rewrite St; exact Fst|]. split; [rewrite L; exact Flg|].
  simpl. unfold copyResults_begin, copyResults_throws. fields. rewrite St, Fst.
  split; reflexivity.
Qed.
End FailedCopy.

(** X16 on the run of the scenario, stopped at 7000 vertices: the copy
    fails for want of a clipboard; two more frames and a stray timer
    follow. *)
Lemma failed_copy_notice_stays_witness :
  trace (run_from (fmt := EnUS.format) (run (fmt := EnUS.format) stoppedRun) [CopyThrows]) =
  trace (run (fmt := EnUS.format) stoppedRun) ++ [ConsoleError; DetectChanges].
Proof.
  assert (P : phase (run (fmt := EnUS.format) stoppedRun) = Stopped)
    by (vm_compute; reflexivity).
  assert (T : timers (run (fmt := EnUS.format) stoppedRun) = [])
    by (vm_compute; reflexivity).
  assert (Q : forallb no_copy [Frame 0 20; TimerFired; Frame 0 20] = true)
    by reflexivity.
  pose proof (@failed_copy_notice_stays EnUS.format
                (run (fmt := EnUS.format) stoppedRun)
                [Frame 0 20; TimerFired; Frame 0 20] P T Q) as H.
  cbv zeta in H. destruct H as (_ & H & _). exact H.
Defined.
